(** * deeprlyb: the rollout buffer and its return and advantage estimators

    A shallow embedding of [src/deeprlyb/utils/buffer.py] (class
    [RolloutBuffer]).  The estimators are written once over an abstract
    scalar type and run at two instances: exact rationals ([Qc]) and IEEE
    binary64 (the kernel's primitive floats, which is what numpy's
    [float64] computes with).  The value, log-probability and entropy
    columns are torch tensors of dtype float32 after [reset()] and numpy
    arrays of dtype float64 after [clean()]: storing into a tensor rounds
    to binary32 and raises on overflow. *)

From Corelib Require Import FloatClass PrimFloat PrimInt63.
From Stdlib Require Import ZArith QArith Qcanon List String Bool Lia.
Import ListNotations.

Local Open Scope Z_scope.

(** ** Scalars *)

(** The arithmetic the source uses on rewards, values and gamma:
    [+ - * / **], and the comparisons [==], [<] and [<=]; and what
    converting a Python float to dtype float32 does: [s_fits32] tells
    whether torch accepts the number, [s_round32] is the binary32 number
    it stores then. *)
Class Scalar (A : Type) : Type := {
  s_zero : A;
  s_one : A;
  s_add : A -> A -> A;
  s_sub : A -> A -> A;
  s_mul : A -> A -> A;
  s_div : A -> A -> A;
  s_pow : A -> Z -> A;
  s_eqb : A -> A -> bool;
  s_ltb : A -> A -> bool;
  s_leb : A -> A -> bool;
  s_fits32 : A -> bool;
  s_round32 : A -> A
}.

Declare Scope scalar_scope.
Delimit Scope scalar_scope with sc.
Notation "x + y" := (s_add x y) : scalar_scope.
Notation "x - y" := (s_sub x y) : scalar_scope.
Notation "x * y" := (s_mul x y) : scalar_scope.
Notation "x / y" := (s_div x y) : scalar_scope.
Notation "x ^ n" := (s_pow x n) : scalar_scope.

(** Exact arithmetic: canonical rationals.  [x / 0] is [0] in [Qc]; every
    statement below that divides at this instance carries [gamma <> 0], and
    what the code does at [gamma = 0] is read off the binary64 instance.
    Nothing is rounded: this instance is the idealisation in which a
    tensor stores every number as it is. *)
Definition Qc_pow (x : Qc) (n : Z) : Qc :=
  if n <? 0 then Qcinv (Qcpower x (Z.to_nat (- n))) else Qcpower x (Z.to_nat n).

Definition Qc_eqb (x y : Qc) : bool := Qeq_bool (this x) (this y).
Definition Qc_leb (x y : Qc) : bool := Qle_bool (this x) (this y).
Definition Qc_ltb (x y : Qc) : bool := negb (Qle_bool (this y) (this x)).

#[export] Instance exact : Scalar Qc := {|
  s_zero := Q2Qc 0;
  s_one := Q2Qc 1;
  s_add := Qcplus;
  s_sub := Qcminus;
  s_mul := Qcmult;
  s_div := Qcdiv;
  s_pow := Qc_pow;
  s_eqb := Qc_eqb;
  s_ltb := Qc_ltb;
  s_leb := Qc_leb;
  s_fits32 := fun _ => true;
  s_round32 := fun x => x
|}.

(** IEEE binary64, round to nearest even.  A power with a non-negative
    integer exponent is the iterated product; it is the value of C's [pow]
    whenever every partial product is exact, as for the bases [0], [0.5]
    and [1] used below. *)
Fixpoint float_pow_nat (x : float) (n : nat) : float :=
  match n with
  | O => 1%float
  | S k => PrimFloat.mul x (float_pow_nat x k)
  end.

Definition float_pow (x : float) (n : Z) : float :=
  if n <? 0 then PrimFloat.div 1%float (float_pow_nat x (Z.to_nat (- n)))
  else float_pow_nat x (Z.to_nat n).

(** Conversion of a Python float to dtype float32, as torch does it when
    a number is stored into a float32 tensor: a finite number beyond the
    largest binary32 number is refused, every other number is rounded to
    the nearest binary32 number, ties to even.  The rounding adds and
    subtracts [2^(u+52)], where [2^u] is the spacing of binary32 at the
    number: [u] is the exponent less 24, and -149 for subnormal results. *)
Definition float32_max : float := 0x1.fffffep+127%float.

Definition fits_float32 (x : float) : bool :=
  match classify x with
  | NaN | PInf | NInf => true
  | _ => PrimFloat.leb (PrimFloat.abs x) float32_max
  end.

Definition round_float32 (x : float) : float :=
  match classify x with
  | NaN | PInf | NInf | PZero | NZero => x
  | _ =>
      let a := PrimFloat.abs x in
      let (_, e) := frshiftexp a in
      let e29 := PrimInt63.add e 29%uint63 in
      let ec := if PrimInt63.ltb e29 2005%uint63 then 2005%uint63 else e29 in
      let c := ldshiftexp 0.5%float ec in
      let r := PrimFloat.sub (PrimFloat.add a c) c in
      if PrimFloat.ltb x 0%float then PrimFloat.opp r else r
  end.

#[export] Instance binary64 : Scalar float := {|
  s_zero := 0%float;
  s_one := 1%float;
  s_add := PrimFloat.add;
  s_sub := PrimFloat.sub;
  s_mul := PrimFloat.mul;
  s_div := PrimFloat.div;
  s_pow := float_pow;
  s_eqb := PrimFloat.eqb;
  s_ltb := PrimFloat.ltb;
  s_leb := PrimFloat.leb;
  s_fits32 := fits_float32;
  s_round32 := round_float32
|}.

(** ** Exceptions *)

Inductive exn : Type :=
| ValueError (msg : string)
| IndexError
| TypeError
| RuntimeError.

Inductive result (X : Type) : Type :=
| Ok (x : X)
| Raise (e : exn).
Arguments Ok {X} x.
Arguments Raise {X} e.

Definition rbind {X Y : Type} (r : result X) (k : X -> result Y) : result Y :=
  match r with
  | Ok x => k x
  | Raise e => Raise e
  end.

Declare Scope result_scope.
Delimit Scope result_scope with res.
Notation "'do' x <- r ;; k" := (rbind r (fun x => k))
  (at level 10, x name, r at level 100, k at level 200) : result_scope.

(** A [for] loop over [idx] whose body may raise. *)
Fixpoint for_each {S : Type} (body : S -> Z -> result S) (idx : list Z) (s : S)
  : result S :=
  match idx with
  | [] => Ok s
  | i :: rest => rbind (body s i) (for_each body rest)
  end.

(** A list comprehension whose element expression may raise. *)
Fixpoint comprehension {X : Type} (elt : Z -> result X) (idx : list Z)
  : result (list X) :=
  match idx with
  | [] => Ok []
  | i :: rest =>
      rbind (elt i) (fun x => rbind (comprehension elt rest) (fun xs => Ok (x :: xs)))
  end.

(** ** Dtypes *)

(** What an array is made of: [torch.zeros] gives a tensor of dtype
    float32, [np.zeros] an array of dtype float64. *)
Inductive dtype : Type := torch_float32 | numpy_float64.

(** [column[i] = x] converts [x] to the dtype of the column: a float32
    tensor takes the rounded number, or raises [RuntimeError] ("value
    cannot be converted to type float without overflow"); a float64 array
    takes a Python float as it is. *)
Definition convert {A : Type} `{Scalar A} (d : dtype) (x : A) : result A :=
  match d with
  | torch_float32 => if s_fits32 x then Ok (s_round32 x) else Raise RuntimeError
  | numpy_float64 => Ok x
  end.

(** ** Python and numpy sequences *)

Module Py.
Section Seq.
Context {X : Type}.

Definition len (xs : list X) : Z := Z.of_nat (List.length xs).

(** [range(k)]: empty when [k <= 0]. *)
Definition range (k : Z) : list Z := List.map Z.of_nat (List.seq 0 (Z.to_nat k)).

(** The position an index denotes: a negative index counts from the end. *)
Definition position (xs : list X) (i : Z) : option nat :=
  if (0 <=? i) && (i <? len xs) then Some (Z.to_nat i)
  else if (i <? 0) && (- len xs <=? i) then Some (Z.to_nat (len xs + i))
  else None.

(** [xs[i]] *)
Definition getitem (xs : list X) (i : Z) : result X :=
  match position xs i with
  | Some k =>
      match List.nth_error xs k with
      | Some x => Ok x
      | None => Raise IndexError
      end
  | None => Raise IndexError
  end.

Fixpoint update (xs : list X) (k : nat) (v : X) : list X :=
  match xs, k with
  | [], _ => []
  | _ :: tl, O => v :: tl
  | x :: tl, S k' => x :: update tl k' v
  end.

(** [xs[i] = v] *)
Definition setitem (xs : list X) (i : Z) (v : X) : result (list X) :=
  match position xs i with
  | Some k => Ok (update xs k v)
  | None => Raise IndexError
  end.

(** A slice bound: negative bounds count from the end, and every bound
    is clipped to the sequence. *)
Definition bound (xs : list X) (i : Z) : nat :=
  if i <? 0 then Z.to_nat (Z.max 0 (len xs + i))
  else Z.to_nat (Z.min i (len xs)).

(** [xs[lo:hi]] *)
Definition slice (xs : list X) (lo hi : Z) : list X :=
  List.firstn (bound xs hi - bound xs lo) (List.skipn (bound xs lo) xs).

(** [xs[lo:]] *)
Definition slice_from (xs : list X) (lo : Z) : list X :=
  List.skipn (bound xs lo) xs.

(** [xs[:hi]] *)
Definition slice_to (xs : list X) (hi : Z) : list X :=
  List.firstn (bound xs hi) xs.

(** [xs[:hi] = ys] on a numpy array: [ys] must have the length of the
    target slice, or length one (it is then broadcast). *)
Definition setslice_to (xs : list X) (hi : Z) (ys : list X) : result (list X) :=
  let k := bound xs hi in
  if Nat.eqb (List.length ys) k then Ok (ys ++ List.skipn k xs)
  else
    match ys with
    | [y] => Ok (List.repeat y k ++ List.skipn k xs)
    | _ => Raise (ValueError "could not broadcast input array")
    end.
End Seq.

Section Num.
Context {A : Type} `{Scalar A}.

(** [np.zeros(k)] *)
Definition zeros (k : Z) : result (list A) :=
  if k <? 0 then Raise (ValueError "negative dimensions are not allowed")
  else Ok (List.repeat s_zero (Z.to_nat k)).

(** The builtin [max] of a sequence: the first maximal element, and a
    [ValueError] on an empty sequence. *)
Definition max (xs : list A) : result A :=
  match xs with
  | [] => Raise (ValueError "max() arg is an empty sequence")
  | x :: tl => Ok (List.fold_left (fun m y => if s_ltb m y then y else m) tl x)
  end.

(** [torch.sub(xs, ys)] on one-dimensional tensors, with broadcasting. *)
Definition torch_sub (xs ys : list A) : result (list A) :=
  if Nat.eqb (List.length xs) (List.length ys)
  then Ok (List.map (fun p => s_sub (fst p) (snd p)) (List.combine xs ys))
  else
    match xs, ys with
    | [x], _ => Ok (List.map (fun y => s_sub x y) ys)
    | _, [y] => Ok (List.map (fun x => s_sub x y) xs)
    | _, _ => Raise RuntimeError
    end.
End Num.
End Py.

(** ** The return estimators (static methods) *)

Section Estimators.
Context {A : Type} `{Scalar A}.
Local Open Scope scalar_scope.

Definition compute_n_step_return (rewards : list A) (gamma : A) : A :=
  List.fold_left (fun n_step_return reward => reward + gamma * n_step_return)
    (List.rev rewards) s_zero.

(** One iteration of the loop of [compute_MC_returns], on the pair
    [(cum_return, MC_returns)]. *)
Definition MC_step (gamma : A) (st : A * list A) (reward : A) : A * list A :=
  let cum_return := reward + gamma * fst st in
  (cum_return, snd st ++ [cum_return]).

Definition MC_loop (rewards : list A) (gamma : A) : A * list A :=
  List.fold_left (MC_step gamma) (List.rev rewards) (s_zero, []).

Definition compute_MC_returns (rewards : list A) (gamma : A) : list A :=
  let MC_returns := snd (MC_loop rewards gamma) in
  List.rev MC_returns.

Definition compute_next_return (last_return R_0 R_N gamma : A) (n_steps : Z) : A :=
  ((last_return - R_0) / gamma) + ((gamma ^ n_steps) * R_N).

Definition compute_all_n_step_returns
    (rewards : list A) (gamma : A) (buffer_size n_steps : Z) : list A :=
  List.map
    (fun j =>
       let rewards_list :=
         Py.slice rewards j (Z.min (j + n_steps) (Py.len rewards)) in
       compute_n_step_return rewards_list gamma)
    (Py.range buffer_size).

Definition compute_returns
    (rewards : list A) (gamma : A) (buffer_size n_steps : Z) : result (list A) :=
  let G_0 := compute_n_step_return (Py.slice rewards 0 (0 + n_steps)) gamma in
  for_each
    (fun returns i =>
       (do last_return <- Py.getitem returns i ;;
        do R_0 <- Py.getitem rewards i ;;
        do R_N <- Py.getitem rewards (i + n_steps) ;;
        Ok (returns ++ [compute_next_return last_return R_0 R_N gamma (n_steps - 1)]))%res)
    (Py.range (buffer_size - 1)) [G_0].

(** [np.append(values[n_steps:], last_val)]: [last_val] is [None] when the
    caller left it out, and arithmetic on [None] is a [TypeError].  The
    message of the [ValueError] is kept without the formatted number. *)
Definition compute_advantages
    (returns values dones : list A) (gamma : A) (last_val : option A) (n_steps : Z)
  : result (list A) :=
  let next_values := List.map Some (Py.slice_from values n_steps) ++ [last_val] in
  if 0 <? n_steps then
    comprehension
      (fun i =>
         (do r <- Py.getitem returns i ;;
          do d <- Py.getitem dones i ;;
          do nv <- Py.getitem next_values i ;;
          do nv <- match nv with Some x => Ok x | None => Raise TypeError end ;;
          do v <- Py.getitem values i ;;
          Ok (r + (s_one - d) * (gamma ^ n_steps) * nv - v))%res)
      (Py.range (Py.len values - n_steps + 1))
  else Raise (ValueError "Invalid steps number : ").

(** [torch.sub(torch.tensor(returns), values)]: the second argument must
    be a tensor, or [torch.sub] raises [TypeError]. *)
Definition compute_MC_advantages (returns : list A) (values_dtype : dtype)
    (values : list A) : result (list A) :=
  match values_dtype with
  | torch_float32 => Py.torch_sub returns values
  | numpy_float64 => Raise TypeError
  end.
End Estimators.

(** ** The buffer *)

(** The attributes of a [RolloutBuffer] object.  The six columns are numpy
    arrays or torch tensors of scalars in the source; [rewards], [dones]
    and [KL_divergences] are always numpy arrays of dtype float64, and
    what [values], [log_probs] and [entropies] are is kept beside them.
    [advantages] and [_returns] are [None] until [update_advantages] fills
    them. *)
Record RolloutBuffer (A : Type) : Type := {
  setting : string;
  _n_steps : Z;
  _buffer_size : Z;
  gamma : A;
  rewards : list A;
  dones : list A;
  KL_divergences : list A;
  values : list A;
  log_probs : list A;
  entropies : list A;
  advantages : option (list A);
  _returns : option (list A);
  __len__ : Z;
  values_dtype : dtype;
  log_probs_dtype : dtype;
  entropies_dtype : dtype
}.
Arguments setting {A} _.
Arguments _n_steps {A} _.
Arguments _buffer_size {A} _.
Arguments gamma {A} _.
Arguments rewards {A} _.
Arguments dones {A} _.
Arguments KL_divergences {A} _.
Arguments values {A} _.
Arguments log_probs {A} _.
Arguments entropies {A} _.
Arguments advantages {A} _.
Arguments _returns {A} _.
Arguments __len__ {A} _.
Arguments values_dtype {A} _.
Arguments log_probs_dtype {A} _.
Arguments entropies_dtype {A} _.

Section Attributes.
Context {A : Type}.

Definition set_rewards (v : list A) (self : RolloutBuffer A) : RolloutBuffer A :=
  {| setting := setting self;
     _n_steps := _n_steps self;
     _buffer_size := _buffer_size self;
     gamma := gamma self;
     rewards := v;
     dones := dones self;
     KL_divergences := KL_divergences self;
     values := values self;
     log_probs := log_probs self;
     entropies := entropies self;
     advantages := advantages self;
     _returns := _returns self;
     __len__ := __len__ self;
     values_dtype := values_dtype self;
     log_probs_dtype := log_probs_dtype self;
     entropies_dtype := entropies_dtype self |}.

Definition set_dones (v : list A) (self : RolloutBuffer A) : RolloutBuffer A :=
  {| setting := setting self;
     _n_steps := _n_steps self;
     _buffer_size := _buffer_size self;
     gamma := gamma self;
     rewards := rewards self;
     dones := v;
     KL_divergences := KL_divergences self;
     values := values self;
     log_probs := log_probs self;
     entropies := entropies self;
     advantages := advantages self;
     _returns := _returns self;
     __len__ := __len__ self;
     values_dtype := values_dtype self;
     log_probs_dtype := log_probs_dtype self;
     entropies_dtype := entropies_dtype self |}.

Definition set_KL_divergences (v : list A) (self : RolloutBuffer A) : RolloutBuffer A :=
  {| setting := setting self;
     _n_steps := _n_steps self;
     _buffer_size := _buffer_size self;
     gamma := gamma self;
     rewards := rewards self;
     dones := dones self;
     KL_divergences := v;
     values := values self;
     log_probs := log_probs self;
     entropies := entropies self;
     advantages := advantages self;
     _returns := _returns self;
     __len__ := __len__ self;
     values_dtype := values_dtype self;
     log_probs_dtype := log_probs_dtype self;
     entropies_dtype := entropies_dtype self |}.

Definition set_values (v : list A) (self : RolloutBuffer A) : RolloutBuffer A :=
  {| setting := setting self;
     _n_steps := _n_steps self;
     _buffer_size := _buffer_size self;
     gamma := gamma self;
     rewards := rewards self;
     dones := dones self;
     KL_divergences := KL_divergences self;
     values := v;
     log_probs := log_probs self;
     entropies := entropies self;
     advantages := advantages self;
     _returns := _returns self;
     __len__ := __len__ self;
     values_dtype := values_dtype self;
     log_probs_dtype := log_probs_dtype self;
     entropies_dtype := entropies_dtype self |}.

Definition set_log_probs (v : list A) (self : RolloutBuffer A) : RolloutBuffer A :=
  {| setting := setting self;
     _n_steps := _n_steps self;
     _buffer_size := _buffer_size self;
     gamma := gamma self;
     rewards := rewards self;
     dones := dones self;
     KL_divergences := KL_divergences self;
     values := values self;
     log_probs := v;
     entropies := entropies self;
     advantages := advantages self;
     _returns := _returns self;
     __len__ := __len__ self;
     values_dtype := values_dtype self;
     log_probs_dtype := log_probs_dtype self;
     entropies_dtype := entropies_dtype self |}.

Definition set_entropies (v : list A) (self : RolloutBuffer A) : RolloutBuffer A :=
  {| setting := setting self;
     _n_steps := _n_steps self;
     _buffer_size := _buffer_size self;
     gamma := gamma self;
     rewards := rewards self;
     dones := dones self;
     KL_divergences := KL_divergences self;
     values := values self;
     log_probs := log_probs self;
     entropies := v;
     advantages := advantages self;
     _returns := _returns self;
     __len__ := __len__ self;
     values_dtype := values_dtype self;
     log_probs_dtype := log_probs_dtype self;
     entropies_dtype := entropies_dtype self |}.

Definition set_advantages (v : option (list A)) (self : RolloutBuffer A) : RolloutBuffer A :=
  {| setting := setting self;
     _n_steps := _n_steps self;
     _buffer_size := _buffer_size self;
     gamma := gamma self;
     rewards := rewards self;
     dones := dones self;
     KL_divergences := KL_divergences self;
     values := values self;
     log_probs := log_probs self;
     entropies := entropies self;
     advantages := v;
     _returns := _returns self;
     __len__ := __len__ self;
     values_dtype := values_dtype self;
     log_probs_dtype := log_probs_dtype self;
     entropies_dtype := entropies_dtype self |}.

Definition set_returns (v : option (list A)) (self : RolloutBuffer A) : RolloutBuffer A :=
  {| setting := setting self;
     _n_steps := _n_steps self;
     _buffer_size := _buffer_size self;
     gamma := gamma self;
     rewards := rewards self;
     dones := dones self;
     KL_divergences := KL_divergences self;
     values := values self;
     log_probs := log_probs self;
     entropies := entropies self;
     advantages := advantages self;
     _returns := v;
     __len__ := __len__ self;
     values_dtype := values_dtype self;
     log_probs_dtype := log_probs_dtype self;
     entropies_dtype := entropies_dtype self |}.

Definition set_len (v : Z) (self : RolloutBuffer A) : RolloutBuffer A :=
  {| setting := setting self;
     _n_steps := _n_steps self;
     _buffer_size := _buffer_size self;
     gamma := gamma self;
     rewards := rewards self;
     dones := dones self;
     KL_divergences := KL_divergences self;
     values := values self;
     log_probs := log_probs self;
     entropies := entropies self;
     advantages := advantages self;
     _returns := _returns self;
     __len__ := v;
     values_dtype := values_dtype self;
     log_probs_dtype := log_probs_dtype self;
     entropies_dtype := entropies_dtype self |}.

(** [self.values = torch.zeros(k)] or [self.values = np.zeros(k)]: a new
    column, of the dtype of its library. *)
Definition new_values (d : dtype) (v : list A) (self : RolloutBuffer A)
  : RolloutBuffer A :=
  {| setting := setting self;
     _n_steps := _n_steps self;
     _buffer_size := _buffer_size self;
     gamma := gamma self;
     rewards := rewards self;
     dones := dones self;
     KL_divergences := KL_divergences self;
     values := v;
     log_probs := log_probs self;
     entropies := entropies self;
     advantages := advantages self;
     _returns := _returns self;
     __len__ := __len__ self;
     values_dtype := d;
     log_probs_dtype := log_probs_dtype self;
     entropies_dtype := entropies_dtype self |}.

Definition new_log_probs (d : dtype) (v : list A) (self : RolloutBuffer A)
  : RolloutBuffer A :=
  {| setting := setting self;
     _n_steps := _n_steps self;
     _buffer_size := _buffer_size self;
     gamma := gamma self;
     rewards := rewards self;
     dones := dones self;
     KL_divergences := KL_divergences self;
     values := values self;
     log_probs := v;
     entropies := entropies self;
     advantages := advantages self;
     _returns := _returns self;
     __len__ := __len__ self;
     values_dtype := values_dtype self;
     log_probs_dtype := d;
     entropies_dtype := entropies_dtype self |}.

Definition new_entropies (d : dtype) (v : list A) (self : RolloutBuffer A)
  : RolloutBuffer A :=
  {| setting := setting self;
     _n_steps := _n_steps self;
     _buffer_size := _buffer_size self;
     gamma := gamma self;
     rewards := rewards self;
     dones := dones self;
     KL_divergences := KL_divergences self;
     values := values self;
     log_probs := log_probs self;
     entropies := v;
     advantages := advantages self;
     _returns := _returns self;
     __len__ := __len__ self;
     values_dtype := values_dtype self;
     log_probs_dtype := log_probs_dtype self;
     entropies_dtype := d |}.

End Attributes.

(** ** Methods *)

(** A method runs on the object and either returns or raises; in both cases
    the object is left as the statements executed so far have made it. *)
Definition M (A X : Type) : Type := RolloutBuffer A -> result X * RolloutBuffer A.

Section Monad.
Context {A : Type}.

Definition ret {X : Type} (x : X) : M A X := fun self => (Ok x, self).

Definition raise {X : Type} (e : exn) : M A X := fun self => (Raise e, self).

Definition bind {X Y : Type} (m : M A X) (k : X -> M A Y) : M A Y :=
  fun self =>
    match m self with
    | (Ok x, self') => k x self'
    | (Raise e, self') => (Raise e, self')
    end.

(** Read an attribute. *)
Definition attr {X : Type} (f : RolloutBuffer A -> X) : M A X :=
  fun self => (Ok (f self), self).

(** Assign an attribute. *)
Definition assign (f : RolloutBuffer A -> RolloutBuffer A) : M A unit :=
  fun self => (Ok tt, f self).

(** Evaluate an expression that does not touch the object. *)
Definition expr {X : Type} (r : result X) : M A X := fun self => (r, self).
End Monad.

Declare Scope method_scope.
Delimit Scope method_scope with meth.
Notation "'do' x <- m ;; k" := (bind m (fun x => k))
  (at level 10, x name, m at level 100, k at level 200) : method_scope.
Notation "'run' m ;; k" := (bind m (fun _ => k))
  (at level 10, m at level 100, k at level 200) : method_scope.

Section Methods.
Context {A : Type} `{Scalar A}.
Local Open Scope method_scope.

Definition n_steps : M A Z := attr _n_steps.

Definition buffer_size : M A Z := attr _buffer_size.

Definition done : M A bool :=
  do ds <- attr dones ;;
  do m <- expr (Py.max ds) ;;
  ret (s_eqb m s_one).

Definition full : M A bool :=
  do l <- attr __len__ ;;
  do bs <- buffer_size ;;
  do n <- n_steps ;;
  if bs + n - 1 <=? l then ret true
  else
    do d <- done ;;
    if d then ret true else ret false.

Definition reset : M A unit :=
  do bs <- buffer_size ;;
  do n <- n_steps ;;
  let buffer_size := bs + n - 1 in
  do z <- expr (Py.zeros buffer_size) ;; run assign (set_rewards z) ;;
  do z <- expr (Py.zeros buffer_size) ;; run assign (set_dones z) ;;
  do z <- expr (Py.zeros buffer_size) ;; run assign (set_KL_divergences z) ;;
  do z <- expr (Py.zeros buffer_size) ;; run assign (new_values torch_float32 z) ;;
  do z <- expr (Py.zeros buffer_size) ;; run assign (new_log_probs torch_float32 z) ;;
  do z <- expr (Py.zeros buffer_size) ;; run assign (new_entropies torch_float32 z) ;;
  run assign (set_advantages None) ;;
  run assign (set_returns None) ;;
  assign (set_len 0).

(** The object when [__init__] calls [reset]: the configuration is set
    and no column exists yet ([reset] creates them all, with their
    dtypes). *)
Definition blank (buffer_size : Z) (gamma : A) (n_steps : Z) (setting : string)
  : RolloutBuffer A :=
  {| setting := setting; _n_steps := n_steps; _buffer_size := buffer_size;
     gamma := gamma; rewards := []; dones := []; KL_divergences := [];
     values := []; log_probs := []; entropies := [];
     advantages := None; _returns := None; __len__ := 0;
     values_dtype := torch_float32; log_probs_dtype := torch_float32;
     entropies_dtype := torch_float32 |}.

Definition __init__ (buffer_size : Z) (gamma : A) (n_steps : Z) (setting : string)
  : result (RolloutBuffer A) :=
  if buffer_size <? 1 then Raise (ValueError "Buffer size must be positive")
  else if negb (s_leb s_zero gamma && s_leb gamma s_one)
  then Raise (ValueError "Gamma must be between 0 and 1")
  else if n_steps <? 1 then Raise (ValueError "Number of steps must be positive")
  else
    match reset (blank buffer_size gamma n_steps setting) with
    | (Ok _, self) => Ok self
    | (Raise e, _) => Raise e
    end.

Definition clean : M A unit :=
  do bs <- buffer_size ;;
  do n <- n_steps ;;
  let buffer_size := bs + n - 1 in
  do rs <- attr rewards ;;
  let old_rewards := Py.slice_from rs (- n + 1) in
  do z <- expr (Py.zeros buffer_size) ;; run assign (set_rewards z) ;;
  do rs <- attr rewards ;;
  do rs' <- expr (Py.setslice_to rs (n - 1) old_rewards) ;;
  run assign (set_rewards rs') ;;
  do z <- expr (Py.zeros buffer_size) ;; run assign (set_dones z) ;;
  do z <- expr (Py.zeros buffer_size) ;; run assign (set_KL_divergences z) ;;
  do z <- expr (Py.zeros buffer_size) ;; run assign (new_values numpy_float64 z) ;;
  do z <- expr (Py.zeros buffer_size) ;; run assign (new_log_probs numpy_float64 z) ;;
  do z <- expr (Py.zeros buffer_size) ;; run assign (new_entropies numpy_float64 z) ;;
  run assign (set_advantages None) ;;
  run assign (set_returns None) ;;
  assign (set_len (n - 1)).

(** [col[self.__len__] = v], on a column of dtype [dt]: the number is
    converted, then stored. *)
Definition store (col : RolloutBuffer A -> list A) (dt : RolloutBuffer A -> dtype)
    (set : list A -> RolloutBuffer A -> RolloutBuffer A) (v : A) : M A unit :=
  do l <- attr __len__ ;;
  do xs <- attr col ;;
  do d <- attr dt ;;
  do x <- expr (convert d v) ;;
  do xs' <- expr (Py.setitem xs l x) ;;
  assign (set xs').

(** The dtype of [rewards], [dones] and [KL_divergences]. *)
Definition numpy_column (self : RolloutBuffer A) : dtype := numpy_float64.

(** A [bool] stored in a float array. *)
Definition of_bool (b : bool) : A := if b then s_one else s_zero.

Definition add (reward : A) (done : bool) (value log_prob entropy KL_divergence : A)
  : M A unit :=
  do f <- full ;;
  if f then raise (ValueError "Buffer is already full, cannot add anymore")
  else
    run store dones numpy_column set_dones (of_bool done) ;;
    run store values values_dtype set_values value ;;
    run store log_probs log_probs_dtype set_log_probs log_prob ;;
    run store entropies entropies_dtype set_entropies entropy ;;
    run store KL_divergences numpy_column set_KL_divergences KL_divergence ;;
    run store rewards numpy_column set_rewards reward ;;
    do l <- attr __len__ ;;
    assign (set_len (l + 1)).

Definition update_advantages (last_val : option A) (fast MC : bool) : M A unit :=
  do n <- n_steps ;;
  do bs <- buffer_size ;;
  do rs <- attr rewards ;;
  do g <- attr gamma ;;
  run (if (2 <? n) && fast then
         do returns <- expr (compute_returns rs g bs n) ;;
         assign (set_returns (Some returns))
       else if MC then
         assign (set_returns (Some (compute_MC_returns rs g)))
       else
         assign (set_returns (Some (compute_all_n_step_returns rs g bs n)))) ;;
  do returns <- attr _returns ;;
  let returns := match returns with Some r => r | None => [] end in
  do vs <- attr values ;;
  if MC then
    do d <- attr values_dtype ;;
    do adv <- expr (compute_MC_advantages returns d vs) ;;
    run assign (set_advantages (Some adv)) ;;
    do l <- attr __len__ ;;
    run assign (set_advantages (Some (Py.slice_to adv l))) ;;
    do lp <- attr log_probs ;;
    assign (set_log_probs (Py.slice_to lp l))
  else
    do ds <- attr dones ;;
    do adv <- expr (compute_advantages returns vs ds g last_val n) ;;
    assign (set_advantages (Some adv)).

Definition get_steps : M A (option (list A) * list A * list A * list A) :=
  do adv <- attr advantages ;;
  do lp <- attr log_probs ;;
  do en <- attr entropies ;;
  do kl <- attr KL_divergences ;;
  ret (adv, lp, en, kl).

Definition clear : M A unit :=
  do bs <- buffer_size ;;
  do xs <- attr rewards ;; run assign (set_rewards (Py.slice_from xs bs)) ;;
  do xs <- attr dones ;; run assign (set_dones (Py.slice_from xs bs)) ;;
  do xs <- attr KL_divergences ;; run assign (set_KL_divergences (Py.slice_from xs bs)) ;;
  do xs <- attr values ;; run assign (set_values (Py.slice_from xs bs)) ;;
  do xs <- attr log_probs ;; run assign (set_log_probs (Py.slice_from xs bs)) ;;
  do xs <- attr entropies ;; assign (set_entropies (Py.slice_from xs bs)).
End Methods.

(** ** Calls and reachable states *)

(** The calls a client can make on a constructed buffer. *)
Inductive call (A : Type) : Type :=
| Add (reward : A) (done : bool) (value log_prob entropy KL_divergence : A)
| Reset
| Clean
| Clear
| UpdateAdvantages (last_val : option A) (fast MC : bool).
Arguments Add {A}.
Arguments Reset {A}.
Arguments Clean {A}.
Arguments Clear {A}.
Arguments UpdateAdvantages {A}.

Definition perform {A : Type} `{Scalar A} (c : call A) : M A unit :=
  match c with
  | Add r d v lp e kl => add r d v lp e kl
  | Reset => reset
  | Clean => clean
  | Clear => clear
  | UpdateAdvantages last_val fast MC => update_advantages last_val fast MC
  end.

(** The object after a call, whether the call returned or raised. *)
Definition after {A : Type} `{Scalar A} (c : call A) (self : RolloutBuffer A)
  : RolloutBuffer A :=
  snd (perform c self).

Inductive reachable {A : Type} `{Scalar A} : RolloutBuffer A -> Prop :=
| reachable_init buffer_size gamma n_steps setting self :
    __init__ buffer_size gamma n_steps setting = Ok self -> reachable self
| reachable_call c self :
    reachable self -> reachable (after c self).

(** The object after a sequence of calls. *)
Definition after_all {A : Type} `{Scalar A} (cs : list (call A)) (self : RolloutBuffer A)
  : RolloutBuffer A :=
  List.fold_left (fun s c => after c s) cs self.

(** The buffer [RolloutBuffer(buffer_size, gamma, n_steps)], with the
    default setting; the blank object when the constructor raises. *)
Definition construct {A : Type} `{Scalar A} (buffer_size : Z) (gamma : A) (n_steps : Z)
  : RolloutBuffer A :=
  match __init__ buffer_size gamma n_steps "MC" with
  | Ok self => self
  | Raise _ => blank buffer_size gamma n_steps "MC"
  end.

(** The capacity of the columns. *)
Definition capacity {A : Type} (self : RolloutBuffer A) : Z :=
  _buffer_size self + _n_steps self - 1.

(** ** What the order and equality tests must do on the two flag values *)

(** [dones] holds [0.0] and [1.0]; [full] compares them with [<] (inside
    [max]) and [==].  Exact rationals and binary64 both satisfy these
    equations. *)
Class Flags (A : Type) `{Scalar A} : Prop := {
  zero_lt_one : s_ltb s_zero s_one = true;
  one_lt_zero : s_ltb s_one s_zero = false;
  zero_lt_zero : s_ltb s_zero s_zero = false;
  one_lt_one : s_ltb s_one s_one = false;
  one_eq_one : s_eqb s_one s_one = true;
  zero_eq_one : s_eqb s_zero s_one = false
}.


(** ** Scenarios *)

Module Scenario.
Definition rational (n : Z) (d : positive) : Qc := Q2Qc (n # d).

(** A step with the given reward and done flag; value [10 * reward],
    log-probability [100 * reward], no entropy, no divergence. *)
Definition step (reward : Z) (done : bool) : call Qc :=
  Add (rational reward 1) done (rational (10 * reward) 1)
    (rational (100 * reward) 1) (rational 0 1) (rational 0 1).

Definition fstep (reward : float) : call float :=
  Add reward false 0%float 0%float 0%float 0%float.

(** [buffer_size=3, n_steps=2, gamma=0.9], rewards [1, 2, 3, 4], the last
    step done. *)
Definition window_3_2 : RolloutBuffer Qc :=
  after_all [step 1 false; step 2 false; step 3 false; step 4 true]
    (construct 3 (rational 9 10) 2).

(** [buffer_size=2, n_steps=3, gamma=0.5], rewards [1, 2, 3, 4]. *)
Definition window_2_3 : RolloutBuffer Qc :=
  after_all [step 1 false; step 2 false; step 3 false; step 4 false]
    (construct 2 (rational 1 2) 3).

(** Rewards [0.1, 0.2, 0.3, 0.1, ...] in binary64. *)
#[warnings="-inexact-float"] Definition cycling_rewards (k : nat) : list float :=
  List.map (fun i => List.nth (Nat.modulo i 3) [0.1; 0.2; 0.3]%float 0%float)
    (List.seq 0 k).

(** [buffer_size=2, n_steps=3, gamma=0.0] in binary64, rewards [1, 2, 3, 4]. *)
Definition undiscounted_2_3 : RolloutBuffer float :=
  after_all [fstep 1; fstep 2; fstep 3; fstep 4] (construct 2 0%float 3).

(** An episode of one step in a buffer of two: [buffer_size=2, n_steps=1]. *)
Definition episode_2_1 : RolloutBuffer Qc :=
  after_all [step 1 true] (construct 2 (rational 1 2) 1).

(** [buffer_size=2, n_steps=1], cleared before any step. *)
Definition cleared_2_1 : RolloutBuffer Qc :=
  after Clear (construct 2 (rational 1 2) 1).
End Scenario.

(** ** The state invariant *)

(** A stored done flag is [0.0] or [1.0]. *)
Definition is_flag {A : Type} `{Scalar A} (d : A) : Prop := d = s_zero \/ d = s_one.

(** What every call keeps: a valid configuration, a cursor inside the
    capacity, and flags in the [dones] column. *)
Definition invariant {A : Type} `{Scalar A} (self : RolloutBuffer A) : Prop :=
  1 <= _buffer_size self /\
  1 <= _n_steps self /\
  0 <= __len__ self <= capacity self /\
  List.Forall is_flag (dones self).

(** Every column has the capacity as its length. *)
Definition at_capacity {A : Type} (self : RolloutBuffer A) : Prop :=
  Py.len (rewards self) = capacity self /\
  Py.len (dones self) = capacity self /\
  Py.len (KL_divergences self) = capacity self /\
  Py.len (values self) = capacity self /\
  Py.len (log_probs self) = capacity self /\
  Py.len (entropies self) = capacity self.

(** ** Comparing floating-point results *)

(** Absolute tolerance [1e-9]; false when either side is NaN. *)
#[warnings="-inexact-float"] Definition within_tolerance (x y : float) : bool :=
  PrimFloat.leb (PrimFloat.abs (PrimFloat.sub x y)) 1e-9%float.

(** ** The bootstrap value of a position *)

(** The bootstrap value the code pairs with position [i]: the value
    [n_steps] ahead at every position but the last, [last_val] at the last. *)
Definition next_value {A : Type} `{Scalar A}
    (values : list A) (last_val : A) (buffer_size n_steps : Z) (i : nat) : A :=
  if Z.of_nat i <? buffer_size - 1
  then List.nth (i + Z.to_nat n_steps) values s_zero
  else last_val.

(** ** Draining the buffer *)

(** A generator consumed to its end: the items it yields, and the
    exception that ends it, if one does. *)
Fixpoint yield_each {X : Type} (elt : Z -> result X) (idx : list Z)
  : list X * option exn :=
  match idx with
  | [] => ([], None)
  | i :: rest =>
      match elt i with
      | Ok x => let (xs, e) := yield_each elt rest in (x :: xs, e)
      | Raise e => ([], Some e)
      end
  end.

(** [get_steps_list], consumed on an object that is not modified
    meanwhile.  [len(None)] is a [TypeError]. *)
Definition get_steps_list {A : Type} (self : RolloutBuffer A)
  : list (A * A * A * A) * option exn :=
  match advantages self with
  | None => ([], Some TypeError)
  | Some adv =>
      yield_each
        (fun i =>
           (do a <- Py.getitem adv i ;;
            do lp <- Py.getitem (log_probs self) i ;;
            do en <- Py.getitem (entropies self) i ;;
            do kl <- Py.getitem (KL_divergences self) i ;;
            Ok (a, lp, en, kl))%res)
        (Py.range (Py.len adv))
  end.

(** ** The buffer after steps that are not done *)

(** The buffer [RolloutBuffer(buffer_size, g, n_steps, s)] once the steps
    [steps], given as [(reward, value, log_prob, entropy, KL_divergence)],
    are stored: each column holds what was stored, then zeros. *)
Definition filled {A : Type} `{Scalar A}
    (buffer_size : Z) (g : A) (n_steps : Z) (s : string)
    (steps : list (A * A * A * A * A)) : RolloutBuffer A :=
  let cap := Z.to_nat (buffer_size + n_steps - 1) in
  let pad := List.repeat s_zero (cap - List.length steps) in
  {| setting := s; _n_steps := n_steps; _buffer_size := buffer_size; gamma := g;
     rewards := List.map (fun '(r, _, _, _, _) => r) steps ++ pad;
     dones := List.repeat s_zero cap;
     KL_divergences := List.map (fun '(_, _, _, _, kl) => kl) steps ++ pad;
     values := List.map (fun '(_, v, _, _, _) => v) steps ++ pad;
     log_probs := List.map (fun '(_, _, lp, _, _) => lp) steps ++ pad;
     entropies := List.map (fun '(_, _, _, e, _) => e) steps ++ pad;
     advantages := None; _returns := None;
     __len__ := Z.of_nat (List.length steps);
     values_dtype := torch_float32; log_probs_dtype := torch_float32;
     entropies_dtype := torch_float32 |}.

(** What the columns hold of a step given to [add] while the value,
    log-probability and entropy columns are float32 tensors, and whether
    the three conversions are accepted. *)
Definition stored_step {A : Type} `{Scalar A} (step : A * A * A * A * A)
  : A * A * A * A * A :=
  let '(r, v, lp, e, kl) := step in (r, s_round32 v, s_round32 lp, s_round32 e, kl).

Definition fits_step {A : Type} `{Scalar A} (step : A * A * A * A * A) : bool :=
  let '(_, v, lp, e, _) := step in s_fits32 v && s_fits32 lp && s_fits32 e.

(** ** The discounted sum *)

(** [gamma^k * r_0 + gamma^(k+1) * r_1 + ...], term by term. *)
Fixpoint discounted_sum (gamma : Qc) (k : nat) (rewards : list Qc) : Qc :=
  match rewards with
  | [] => 0%Qc
  | r :: rest => (Qcpower gamma k * r + discounted_sum gamma (S k) rest)%Qc
  end.

(** ** The step memory of the first agent *)

(** Class [Memory] of [n_step_A2C.py]: the dictionary [steps] has the five
    fixed keys below, each with a list. *)
Module Memory.
Section Memory.
Context {S Act Hid A : Type} `{Scalar A}.

Record t : Type := {
  states : list S;
  actions : list Act;
  rewards : list A;
  dones : list bool;
  hiddens : list Hid;
  n_steps : Z;
  GAMMA : A
}.

Definition __init__ (n_steps : Z) (GAMMA : A) : t :=
  {| states := []; actions := []; rewards := []; dones := []; hiddens := [];
     n_steps := n_steps; GAMMA := GAMMA |}.

Definition add (state : S) (action : Act) (reward : A) (done : bool) (hidden : Hid)
    (self : t) : t :=
  {| states := states self ++ [state];
     actions := actions self ++ [action];
     rewards := rewards self ++ [reward];
     dones := dones self ++ [done];
     hiddens := hiddens self ++ [hidden];
     n_steps := n_steps self; GAMMA := GAMMA self |}.

Definition clear (self : t) : t :=
  {| states := []; actions := []; rewards := []; dones := []; hiddens := [];
     n_steps := n_steps self; GAMMA := GAMMA self |}.

Definition remove_first_step (self : t) : t :=
  {| states := Py.slice_from (states self) 1;
     actions := Py.slice_from (actions self) 1;
     rewards := Py.slice_from (rewards self) 1;
     dones := Py.slice_from (dones self) 1;
     hiddens := Py.slice_from (hiddens self) 1;
     n_steps := n_steps self; GAMMA := GAMMA self |}.

(** The [return] statement is inside the loop body: the loop over the
    reversed rewards ends in its first iteration, where [i = 0] and
    [reward] is the last reward; on an empty memory the body never runs
    and the method returns [None]. *)
Definition compute_return (self : t) : result (option (A * S * Act * bool * Hid)) :=
  match List.rev (rewards self) with
  | [] => Ok None
  | reward :: _ =>
      let i := 0 in
      let n_step_return := s_zero in
      (do d <- Py.getitem (dones self) i ;;
       let n_step_return :=
         (n_step_return
          + (reward
             + (s_one - (if d then s_one else s_zero)) * GAMMA self ^ i
               * n_step_return))%sc in
       do state <- Py.getitem (states self) 0 ;;
       do action <- Py.getitem (actions self) 0 ;;
       do done <- Py.getitem (dones self) 0 ;;
       do hidden <- Py.getitem (hiddens self) 0 ;;
       Ok (Some (n_step_return, state, action, done, hidden)))%res
  end.

Definition get_step (i : Z) (self : t) : result (S * Act * A * bool * Hid) :=
  (do state <- Py.getitem (states self) i ;;
   do action <- Py.getitem (actions self) i ;;
   do reward <- Py.getitem (rewards self) i ;;
   do done <- Py.getitem (dones self) i ;;
   do hidden <- Py.getitem (hiddens self) i ;;
   Ok (state, action, reward, done, hidden))%res.

Definition __len__ (self : t) : Z := Py.len (rewards self).

(** The five lists have one length. *)
Definition aligned (self : t) : Prop :=
  List.length (states self) = List.length (rewards self) /\
  List.length (actions self) = List.length (rewards self) /\
  List.length (dones self) = List.length (rewards self) /\
  List.length (hiddens self) = List.length (rewards self).
End Memory.
Arguments t : clear implicits.
End Memory.

(** ** The end of an episode *)

(** The attributes of [Agent] that [save_if_best] and [early_stopping]
    read and write, with the rewards at which the network was saved. *)
Module Agent.
Section Agent.
Context {A : Type} `{Scalar A}.

Record t : Type := {
  best_episode_reward : A;
  old_reward_sum : A;
  constant_reward_counter : Z;
  episode : Z;
  saved : list A
}.

Definition save_if_best (reward_sum : A) (self : t) : t :=
  if s_leb (best_episode_reward self) reward_sum then
    {| best_episode_reward := reward_sum;
       old_reward_sum := old_reward_sum self;
       constant_reward_counter := constant_reward_counter self;
       episode := episode self;
       saved := saved self ++ [reward_sum] |}
  else self.

(** [early_stopping_steps] is the integer of the configuration. *)
Definition early_stopping (early_stopping_steps : Z) (reward_sum : A) (self : t)
  : bool * t :=
  if s_eqb reward_sum (old_reward_sum self) then
    let self' :=
      {| best_episode_reward := best_episode_reward self;
         old_reward_sum := old_reward_sum self;
         constant_reward_counter := constant_reward_counter self + 1;
         episode := episode self;
         saved := saved self |} in
    if early_stopping_steps <? constant_reward_counter self' then (true, self')
    else (false, self')
  else
    (false,
     {| best_episode_reward := best_episode_reward self;
        old_reward_sum := old_reward_sum self;
        constant_reward_counter := 0;
        episode := episode self;
        saved := saved self |}).

(** The end of the episode loop of [train_MC] and [train_TD0], over the
    reward sums of the successive episodes: save if best, stop early or
    record the reward sum and count the episode.  The result tells
    whether the loop was left by [break]. *)
Fixpoint episodes (early_stopping_steps : Z) (reward_sums : list A) (self : t)
  : bool * t :=
  match reward_sums with
  | [] => (false, self)
  | reward_sum :: rest =>
      let self := save_if_best reward_sum self in
      let (stop, self) := early_stopping early_stopping_steps reward_sum self in
      if stop then (true, self)
      else
        episodes early_stopping_steps rest
          {| best_episode_reward := best_episode_reward self;
             old_reward_sum := reward_sum;
             constant_reward_counter := constant_reward_counter self;
             episode := episode self + 1;
             saved := saved self |}
  end.

(** The state in which the next episode starts when the loop goes on:
    the reward sum is recorded and the episode counted. *)
Definition next_episode (reward_sum : A) (counter : Z) (self : t) : t :=
  {| best_episode_reward := best_episode_reward (save_if_best reward_sum self);
     old_reward_sum := reward_sum;
     constant_reward_counter := counter;
     episode := episode self + 1;
     saved := saved (save_if_best reward_sum self) |}.

(** No reward sum equals the one before it, starting from [old]. *)
Fixpoint changing (old : A) (reward_sums : list A) : Prop :=
  match reward_sums with
  | [] => True
  | reward_sum :: rest => s_eqb reward_sum old = false /\ changing reward_sum rest
  end.
End Agent.
Arguments t : clear implicits.
End Agent.

(** ** More scenarios *)

Module Sample.
(** What [Scenario.step] stores for a reward: the reward, the value, the
    log-probability, the entropy and the divergence. *)
Definition stored (reward : Z) : Qc * Qc * Qc * Qc * Qc :=
  (Scenario.rational reward 1, Scenario.rational (10 * reward) 1,
   Scenario.rational (100 * reward) 1, Scenario.rational 0 1, Scenario.rational 0 1).

(** The fresh buffer with [buffer_size=3, n_steps=2, gamma=0.9]. *)
Definition fresh_3_2 : RolloutBuffer Qc := construct 3 (Scenario.rational 9 10) 2.

(** The fresh buffer of [train_MC] for episodes of at most 4 steps:
    [buffer_size=4, n_steps=1, gamma=0.5]. *)
Definition fresh_4_1 : RolloutBuffer Qc := construct 4 (Scenario.rational 1 2) 1.

(** The rewards [1, 2, 3]. *)
Definition rewards_123 : list Qc :=
  [Scenario.rational 1 1; Scenario.rational 2 1; Scenario.rational 3 1].

(** A memory of two steps, with [n_steps = 2] and [GAMMA = 0.5]: states
    [5, 7], actions [0, 1], rewards [1, 2], the second step done. *)
Definition memory_2 : Memory.t Z Z unit Qc :=
  Memory.add 7 1 (Scenario.rational 2 1) true tt
    (Memory.add 5 0 (Scenario.rational 1 1) false tt
       (Memory.__init__ 2 (Scenario.rational 1 2))).

(** The agent as [train_MC] starts it, in binary64. *)
Definition agent_start : Agent.t float :=
  {| Agent.best_episode_reward := neg_infinity;
     Agent.old_reward_sum := 0%float;
     Agent.constant_reward_counter := 0;
     Agent.episode := 1;
     Agent.saved := [] |}.

(** The fresh buffer with [buffer_size=2, n_steps=1, gamma=0.5] in
    binary64. *)
Definition fresh_binary64 : RolloutBuffer float := construct 2 0.5%float 1.

(** The binary64 number nearest to 0.1, the binary32 number nearest to
    it, and a number beyond the binary32 range. *)
Definition tenth : float := 0x1.999999999999ap-4%float.
Definition tenth_float32 : float := 0x1.99999ap-4%float.
Definition beyond_float32 : float := 0x1p+130%float.

(** An agent whose best reward sum so far is [-100], in exact arithmetic. *)
Definition agent_behind : Agent.t Qc :=
  {| Agent.best_episode_reward := Scenario.rational (-100) 1;
     Agent.old_reward_sum := Scenario.rational 0 1;
     Agent.constant_reward_counter := 0;
     Agent.episode := 1;
     Agent.saved := [] |}.
End Sample.

(** * Properties *)

(** ** The flag values at the two instances *)

#[export] Instance exact_flags : Flags Qc.
Proof. split; reflexivity. Qed.

#[export] Instance binary64_flags : Flags float.
Proof. split; reflexivity. Qed.

(** ** Sequences *)

Section SeqFacts.
Context {X : Type}.
Implicit Types xs ys : list X.

Lemma len_nonneg xs : 0 <= Py.len xs.
Proof. unfold Py.len. lia. Qed.

Lemma len_app xs ys : Py.len (xs ++ ys) = Py.len xs + Py.len ys.
Proof. unfold Py.len. rewrite List.length_app. lia. Qed.

Lemma range_of_nat (k : nat) :
  Py.range (Z.of_nat k) = List.map Z.of_nat (List.seq 0 k).
Proof. unfold Py.range. now rewrite Nat2Z.id. Qed.

Lemma position_in_range xs (k : nat) :
  (k < List.length xs)%nat -> Py.position xs (Z.of_nat k) = Some k.
Proof.
  intros Hk. unfold Py.position, Py.len.
  replace (0 <=? Z.of_nat k) with true by (symmetry; apply Z.leb_le; lia).
  replace (Z.of_nat k <? Z.of_nat (List.length xs)) with true
    by (symmetry; apply Z.ltb_lt; lia).
  simpl. now rewrite Nat2Z.id.
Qed.

Lemma getitem_in_range xs (k : nat) (d : X) :
  (k < List.length xs)%nat -> Py.getitem xs (Z.of_nat k) = Ok (List.nth k xs d).
Proof.
  intros Hk. unfold Py.getitem. rewrite position_in_range by exact Hk.
  now rewrite (List.nth_error_nth' xs d Hk).
Qed.

Lemma bound_in_range xs (k : nat) :
  (k <= List.length xs)%nat -> Py.bound xs (Z.of_nat k) = k.
Proof.
  intros Hk. unfold Py.bound, Py.len.
  replace (Z.of_nat k <? 0) with false by (symmetry; apply Z.ltb_ge; lia).
  lia.
Qed.

Lemma slice_in_range xs (lo hi : nat) :
  (lo <= hi)%nat -> (hi <= List.length xs)%nat ->
  Py.slice xs (Z.of_nat lo) (Z.of_nat hi) = List.firstn (hi - lo) (List.skipn lo xs).
Proof.
  intros Hlo Hhi. unfold Py.slice.
  rewrite !bound_in_range by lia. reflexivity.
Qed.

Lemma slice_from_in_range xs (k : nat) :
  (k <= List.length xs)%nat -> Py.slice_from xs (Z.of_nat k) = List.skipn k xs.
Proof. intros Hk. unfold Py.slice_from. now rewrite bound_in_range. Qed.

Lemma slice_to_in_range xs (k : nat) :
  (k <= List.length xs)%nat -> Py.slice_to xs (Z.of_nat k) = List.firstn k xs.
Proof. intros Hk. unfold Py.slice_to. now rewrite bound_in_range. Qed.

(** A window of [n + 1] elements starts with the element at its left end. *)
Lemma window_head xs (j n : nat) (d : X) :
  (j < List.length xs)%nat ->
  List.firstn (S n) (List.skipn j xs)
  = List.nth j xs d :: List.firstn n (List.skipn (S j) xs).
Proof.
  revert j. induction xs as [|x xs IH]; intros j Hj; simpl in Hj; [lia|].
  destruct j as [|j]; [reflexivity|].
  simpl List.skipn. simpl List.nth. apply IH. lia.
Qed.

(** ... and ends with the element at its right end. *)
Lemma window_last xs (j n : nat) (d : X) :
  (j + n < List.length xs)%nat ->
  List.firstn (S n) (List.skipn j xs)
  = List.firstn n (List.skipn j xs) ++ [List.nth (j + n) xs d].
Proof.
  revert j xs. induction n as [|n IH]; intros j xs Hj.
  - rewrite Nat.add_0_r. rewrite (window_head xs j 0 d) by lia.
    now rewrite !List.firstn_0.
  - rewrite (window_head xs j (S n) d) by lia.
    rewrite (window_head xs j n d) by lia.
    rewrite (IH (S j) xs) by lia.
    replace (S j + n)%nat with (j + S n)%nat by lia. reflexivity.
Qed.

Lemma window_length xs (j n : nat) :
  (j + n <= List.length xs)%nat ->
  List.length (List.firstn n (List.skipn j xs)) = n.
Proof.
  intros Hj. rewrite List.length_firstn, List.length_skipn. lia.
Qed.
End SeqFacts.

Lemma for_each_ok {S : Type} (body : S -> Z -> result S) i rest s s' :
  body s i = Ok s' -> for_each body (i :: rest) s = for_each body rest s'.
Proof. intros Hb. simpl. now rewrite Hb. Qed.

Lemma comprehension_map {X : Type} (elt : Z -> result X) (f : Z -> X) idx :
  (forall i, List.In i idx -> elt i = Ok (f i)) ->
  comprehension elt idx = Ok (List.map f idx).
Proof.
  induction idx as [|i idx IH]; intros Helt; [reflexivity|].
  simpl. rewrite (Helt i) by (now left). simpl.
  rewrite IH by (intros; apply Helt; now right). reflexivity.
Qed.

Lemma comprehension_range {X : Type} (elt : Z -> result X) (f : nat -> X) (k : nat) :
  (forall i : nat, (i < k)%nat -> elt (Z.of_nat i) = Ok (f i)) ->
  comprehension elt (List.map Z.of_nat (List.seq 0 k)) = Ok (List.map f (List.seq 0 k)).
Proof.
  intros Helt.
  rewrite (comprehension_map elt (fun z => f (Z.to_nat z))).
  - rewrite List.map_map. f_equal. apply List.map_ext. intros i. now rewrite Nat2Z.id.
  - intros z Hz. apply List.in_map_iff in Hz as (i & <- & Hi).
    apply List.in_seq in Hi. rewrite Nat2Z.id. apply Helt. lia.
Qed.

(** ** The estimators, over any scalar type *)

Section EstimatorFacts.
Context {A : Type} `{Scalar A}.
Local Open Scope scalar_scope.

Lemma compute_n_step_return_nil (gamma : A) :
  compute_n_step_return [] gamma = s_zero.
Proof. reflexivity. Qed.

Lemma compute_n_step_return_cons (r : A) rs gamma :
  compute_n_step_return (r :: rs) gamma = r + gamma * compute_n_step_return rs gamma.
Proof.
  unfold compute_n_step_return. simpl List.rev.
  now rewrite List.fold_left_app.
Qed.

Lemma MC_loop_cons (r : A) rs gamma :
  MC_loop (r :: rs) gamma = MC_step gamma (MC_loop rs gamma) r.
Proof.
  unfold MC_loop. simpl List.rev. now rewrite List.fold_left_app.
Qed.

Lemma compute_MC_returns_nil (gamma : A) : compute_MC_returns [] gamma = [].
Proof. reflexivity. Qed.

(** The running sum is the return collected last, which ends up first. *)
Lemma MC_loop_fst rs (gamma : A) :
  fst (MC_loop rs gamma) = List.hd s_zero (compute_MC_returns rs gamma).
Proof.
  destruct rs as [|r rs]; [reflexivity|].
  unfold compute_MC_returns. rewrite MC_loop_cons. unfold MC_step. simpl.
  now rewrite List.rev_app_distr.
Qed.

Lemma compute_MC_returns_cons (r : A) rs gamma :
  compute_MC_returns (r :: rs) gamma
  = (r + gamma * List.hd s_zero (compute_MC_returns rs gamma))
      :: compute_MC_returns rs gamma.
Proof.
  unfold compute_MC_returns at 1. rewrite MC_loop_cons. unfold MC_step. simpl.
  rewrite List.rev_app_distr. simpl. now rewrite MC_loop_fst.
Qed.

Lemma compute_MC_returns_length rs (gamma : A) :
  List.length (compute_MC_returns rs gamma) = List.length rs.
Proof.
  induction rs as [|r rs IH]; [reflexivity|].
  rewrite compute_MC_returns_cons. simpl. now rewrite IH.
Qed.

(** Every return but the last is the reward plus the discounted next return. *)
Lemma compute_MC_returns_step rs (gamma : A) (i : nat) :
  (S i < List.length rs)%nat ->
  List.nth i (compute_MC_returns rs gamma) s_zero
  = List.nth i rs s_zero
    + gamma * List.nth (S i) (compute_MC_returns rs gamma) s_zero.
Proof.
  revert i. induction rs as [|r rs IH]; intros i Hi; simpl in Hi; [lia|].
  rewrite compute_MC_returns_cons.
  destruct i as [|i].
  - simpl. destruct (compute_MC_returns rs gamma); reflexivity.
  - simpl List.nth at 1 2. rewrite IH by lia. reflexivity.
Qed.

(** The last return is the last reward plus the discounted initial sum. *)
Lemma compute_MC_returns_last rs (gamma : A) :
  rs <> [] ->
  List.nth (List.length rs - 1) (compute_MC_returns rs gamma) s_zero
  = List.nth (List.length rs - 1) rs s_zero + gamma * s_zero.
Proof.
  induction rs as [|r rs IH]; intros Hne; [congruence|].
  rewrite compute_MC_returns_cons.
  destruct rs as [|r' rs]; [reflexivity|].
  replace (List.length (r :: r' :: rs) - 1)%nat
    with (S (List.length (r' :: rs) - 1)) by (simpl; lia).
  simpl List.nth at 1 2. apply IH. discriminate.
Qed.
End EstimatorFacts.

(** ** Exact arithmetic *)

Section Exact.
Local Open Scope scalar_scope.

Lemma exact_add_zero_r (x gamma : Qc) : x + gamma * s_zero = x.
Proof. simpl. change (Q2Qc 0) with 0%Qc. ring. Qed.

Lemma exact_pow_of_nat (gamma : Qc) (k : nat) :
  gamma ^ Z.of_nat k = Qcpower gamma k.
Proof.
  simpl. unfold Qc_pow.
  replace (Z.of_nat k <? 0) with false by (symmetry; apply Z.ltb_ge; lia).
  now rewrite Nat2Z.id.
Qed.

(** Appending a reward to a window adds it at the window's full discount. *)
Lemma compute_n_step_return_snoc (rs : list Qc) (x gamma : Qc) :
  compute_n_step_return (rs ++ [x]) gamma
  = compute_n_step_return rs gamma + Qcpower gamma (List.length rs) * x.
Proof.
  induction rs as [|r rs IH].
  - simpl List.app. rewrite compute_n_step_return_cons, !compute_n_step_return_nil.
    simpl. change (Q2Qc 0) with 0%Qc. ring.
  - simpl List.app. rewrite !compute_n_step_return_cons, IH.
    simpl. ring.
Qed.

(** Sliding the window by one position: the recurrence of [compute_returns]. *)
Lemma compute_next_return_slides (r x gamma : Qc) (mid : list Qc) :
  gamma <> 0%Qc ->
  compute_next_return (compute_n_step_return (r :: mid) gamma) r x gamma
    (Z.of_nat (List.length mid))
  = compute_n_step_return (mid ++ [x]) gamma.
Proof.
  intros Hg. unfold compute_next_return.
  rewrite exact_pow_of_nat, compute_n_step_return_snoc, compute_n_step_return_cons.
  simpl. field. exact Hg.
Qed.
End Exact.

(** *** The incremental recurrence against the direct sum *)

Section Sliding.

(** [S b] is the buffer size, [S m] the number of steps, and the reward
    column has the [S b + S m - 1] entries of a buffer of that shape. *)
Variables (rewards : list Qc) (gamma : Qc) (b m : nat).
Hypothesis gamma_nonzero : gamma <> 0%Qc.
Hypothesis rewards_length : List.length rewards = S (b + m).

(** The direct [S m]-step return from position [j]. *)
Let window (j : nat) : Qc :=
  compute_n_step_return (List.firstn (S m) (List.skipn j rewards)) gamma.

Let body (returns : list Qc) (i : Z) : result (list Qc) :=
  (do last_return <- Py.getitem returns i ;;
   do R_0 <- Py.getitem rewards i ;;
   do R_N <- Py.getitem rewards (i + Z.of_nat (S m)) ;;
   Ok (returns ++
       [compute_next_return last_return R_0 R_N gamma (Z.of_nat (S m) - 1)]))%res.

Lemma window_slides (j : nat) :
  (j < b)%nat ->
  compute_next_return (window j) (List.nth j rewards s_zero)
    (List.nth (j + S m) rewards s_zero) gamma (Z.of_nat (S m) - 1)
  = window (S j).
Proof.
  intros Hj. unfold window.
  rewrite (window_head rewards j m s_zero) by lia.
  rewrite (window_last rewards (S j) m s_zero) by lia.
  replace (S j + m)%nat with (j + S m)%nat by lia.
  replace (Z.of_nat (S m) - 1) with
    (Z.of_nat (List.length (List.firstn m (List.skipn (S j) rewards))))
    by (rewrite window_length by lia; lia).
  now apply compute_next_return_slides.
Qed.

Lemma body_extends (j : nat) :
  (j < b)%nat ->
  body (List.map window (List.seq 0 (S j))) (Z.of_nat j)
  = Ok (List.map window (List.seq 0 (S (S j)))).
Proof.
  intros Hj. unfold body.
  rewrite (getitem_in_range _ j (window 0))
    by (rewrite List.length_map, List.length_seq; lia).
  rewrite (List.map_nth window (List.seq 0 (S j)) 0%nat j).
  rewrite List.seq_nth by lia. simpl Nat.add at 1.
  rewrite (getitem_in_range rewards j s_zero) by lia.
  replace (Z.of_nat j + Z.of_nat (S m)) with (Z.of_nat (j + S m)) by lia.
  rewrite (getitem_in_range rewards (j + S m) s_zero) by lia.
  cbn [rbind]. rewrite window_slides by exact Hj.
  rewrite (List.seq_S (S j) 0), List.map_app. reflexivity.
Qed.

Lemma loop_extends (k : nat) : forall j : nat,
  (j + k <= b)%nat ->
  for_each body (List.map Z.of_nat (List.seq j k)) (List.map window (List.seq 0 (S j)))
  = Ok (List.map window (List.seq 0 (S (j + k)))).
Proof.
  induction k as [|k IH]; intros j Hj.
  - now rewrite Nat.add_0_r.
  - cbn [List.seq List.map].
    rewrite (for_each_ok body _ _ _ _ (body_extends j ltac:(lia))).
    rewrite IH by lia. now replace (S j + k)%nat with (j + S k)%nat by lia.
Qed.

Lemma direct_sum_windows :
  compute_all_n_step_returns rewards gamma (Z.of_nat (S b)) (Z.of_nat (S m))
  = List.map window (List.seq 0 (S b)).
Proof.
  unfold compute_all_n_step_returns. rewrite range_of_nat, List.map_map.
  apply List.map_ext_in. intros j Hj. apply List.in_seq in Hj.
  unfold window, Py.len. rewrite rewards_length.
  replace (Z.min (Z.of_nat j + Z.of_nat (S m)) (Z.of_nat (S (b + m))))
    with (Z.of_nat (j + S m)) by lia.
  rewrite slice_in_range by lia.
  now replace (j + S m - j)%nat with (S m) by lia.
Qed.

Lemma recurrence_windows :
  compute_returns rewards gamma (Z.of_nat (S b)) (Z.of_nat (S m))
  = Ok (List.map window (List.seq 0 (S b))).
Proof.
  unfold compute_returns.
  replace (Z.of_nat (S b) - 1) with (Z.of_nat b) by lia.
  rewrite range_of_nat.
  replace (0 + Z.of_nat (S m)) with (Z.of_nat (S m)) by lia.
  change (Py.slice rewards 0 (Z.of_nat (S m)))
    with (Py.slice rewards (Z.of_nat 0) (Z.of_nat (S m))).
  rewrite (slice_in_range rewards 0 (S m)) by lia.
  replace (S m - 0)%nat with (S m) by lia.
  change (for_each body (List.map Z.of_nat (List.seq 0 b))
            (List.map window (List.seq 0 1))
          = Ok (List.map window (List.seq 0 (S b)))).
  now rewrite loop_extends by lia.
Qed.
End Sliding.

(** ** The methods, run *)

(** Running a method on an object given by its attributes: the object is
    split into its fields, so that every attribute read and every
    assignment computes. *)
Ltac unfold_method :=
  cbv [bind attr assign expr ret raise n_steps buffer_size store capacity
       set_rewards set_dones set_KL_divergences set_values set_log_probs
       set_entropies set_advantages set_returns set_len
       new_values new_log_probs new_entropies numpy_column
       setting _n_steps _buffer_size gamma rewards dones KL_divergences values
       log_probs entropies advantages _returns __len__
       values_dtype log_probs_dtype entropies_dtype] in *.

Ltac effect_done :=
  cbn; repeat split; try reflexivity;
  first [ left; reflexivity
        | right; eexists; reflexivity
        | right; split; reflexivity ].

(** The ways the stores of [add] can go: a conversion is refused or an
    index is out of range. *)
Ltac store_cases_by finish :=
  repeat first
    [ solve [finish]
    | match goal with
      | |- context [if s_fits32 ?x then _ else _] => destruct (s_fits32 x)
      | |- context [match Py.position ?xs ?l with _ => _ end] =>
          destruct (Py.position xs l)
      end ].

Ltac store_cases := store_cases_by effect_done.

Ltac run_method self :=
  destruct self as [cfg n_ b_ g_ rs_ ds_ kl_ vs_ lp_ en_ adv_ ret_ len_ vd_ ld_ ed_];
  unfold_method.

Section MethodFacts.
Context {A : Type} `{Scalar A}.

Lemma skipn_repeat (v : A) (k n : nat) :
  List.skipn k (List.repeat v n) = List.repeat v (n - k).
Proof.
  revert k. induction n as [|n IH]; intros [|k]; simpl; try reflexivity.
  apply IH.
Qed.

Lemma zeros_ok (k : Z) : 0 <= k -> Py.zeros k = Ok (List.repeat s_zero (Z.to_nat k)).
Proof.
  intros Hk. unfold Py.zeros.
  now replace (k <? 0) with false by (symmetry; apply Z.ltb_ge; lia).
Qed.

Lemma reset_run (self : RolloutBuffer A) :
  0 <= capacity self ->
  reset self =
  (Ok tt,
   let z := List.repeat s_zero (Z.to_nat (capacity self)) in
   {| setting := setting self; _n_steps := _n_steps self;
      _buffer_size := _buffer_size self; gamma := gamma self;
      rewards := z; dones := z; KL_divergences := z; values := z;
      log_probs := z; entropies := z;
      advantages := None; _returns := None; __len__ := 0;
      values_dtype := torch_float32; log_probs_dtype := torch_float32;
      entropies_dtype := torch_float32 |}).
Proof.
  intros Hc. unfold reset. run_method self.
  rewrite (zeros_ok _ Hc). reflexivity.
Qed.

Lemma clear_run (self : RolloutBuffer A) :
  clear self =
  (Ok tt,
   let bs := _buffer_size self in
   {| setting := setting self; _n_steps := _n_steps self;
      _buffer_size := _buffer_size self; gamma := gamma self;
      rewards := Py.slice_from (rewards self) bs;
      dones := Py.slice_from (dones self) bs;
      KL_divergences := Py.slice_from (KL_divergences self) bs;
      values := Py.slice_from (values self) bs;
      log_probs := Py.slice_from (log_probs self) bs;
      entropies := Py.slice_from (entropies self) bs;
      advantages := advantages self; _returns := _returns self;
      __len__ := __len__ self;
      values_dtype := values_dtype self;
      log_probs_dtype := log_probs_dtype self;
      entropies_dtype := entropies_dtype self |}).
Proof. unfold clear. run_method self. reflexivity. Qed.

Lemma clean_run (self : RolloutBuffer A) :
  1 <= _buffer_size self -> 2 <= _n_steps self ->
  Py.len (rewards self) = capacity self ->
  clean self =
  (Ok tt,
   let z := List.repeat s_zero (Z.to_nat (capacity self)) in
   {| setting := setting self; _n_steps := _n_steps self;
      _buffer_size := _buffer_size self; gamma := gamma self;
      rewards := Py.slice_from (rewards self) (_buffer_size self)
                 ++ List.repeat s_zero (Z.to_nat (_buffer_size self));
      dones := z; KL_divergences := z; values := z;
      log_probs := z; entropies := z;
      advantages := None; _returns := None; __len__ := _n_steps self - 1;
      values_dtype := numpy_float64; log_probs_dtype := numpy_float64;
      entropies_dtype := numpy_float64 |}).
Proof.
  intros Hb Hn Hl. unfold clean. run_method self.
  rewrite (zeros_ok (b_ + n_ - 1)) by lia.
  assert (Hold : Py.slice_from rs_ (- n_ + 1) = Py.slice_from rs_ b_).
  { unfold Py.slice_from, Py.bound. rewrite Hl.
    replace (- n_ + 1 <? 0) with true by (symmetry; apply Z.ltb_lt; lia).
    replace (b_ <? 0) with false by (symmetry; apply Z.ltb_ge; lia).
    f_equal. lia. }
  rewrite Hold.
  unfold Py.setslice_to.
  assert (Hk : Py.bound (List.repeat (s_zero : A) (Z.to_nat (b_ + n_ - 1))) (n_ - 1)
               = Z.to_nat (n_ - 1)).
  { unfold Py.bound, Py.len. rewrite List.repeat_length.
    replace (n_ - 1 <? 0) with false by (symmetry; apply Z.ltb_ge; lia).
    lia. }
  rewrite Hk.
  assert (Hlen : List.length (Py.slice_from rs_ b_) = Z.to_nat (n_ - 1)).
  { unfold Py.slice_from, Py.bound. rewrite List.length_skipn.
    replace (b_ <? 0) with false by (symmetry; apply Z.ltb_ge; lia).
    unfold Py.len in *. lia. }
  rewrite Hlen, Nat.eqb_refl.
  rewrite skipn_repeat.
  replace (Z.to_nat (b_ + n_ - 1) - Z.to_nat (n_ - 1))%nat
    with (Z.to_nat b_) by lia.
  reflexivity.
Qed.

Lemma full_run (self : RolloutBuffer A) :
  full self =
  (if capacity self <=? __len__ self then Ok true
   else match Py.max (dones self) with
        | Ok m => Ok (s_eqb m s_one)
        | Raise e => Raise e
        end,
   self).
Proof.
  unfold full, done. run_method self.
  destruct (b_ + n_ - 1 <=? len_); [reflexivity|].
  destruct (Py.max ds_) as [m|err]; [|reflexivity].
  destruct (s_eqb m s_one); reflexivity.
Qed.

Lemma add_effect (self : RolloutBuffer A) r d v lp e kl :
  let self' := after (Add r d v lp e kl) self in
  _buffer_size self' = _buffer_size self /\
  _n_steps self' = _n_steps self /\
  (dones self' = dones self \/
   exists k, dones self' = Py.update (dones self) k (of_bool d)) /\
  (__len__ self' = __len__ self \/
   (__len__ self' = __len__ self + 1 /\ fst (full self) = Ok false)).
Proof.
  unfold after, perform, add, full, done. run_method self.
  unfold Py.setitem, convert.
  destruct (b_ + n_ - 1 <=? len_); [effect_done|].
  destruct (Py.max ds_) as [m|err]; [|effect_done].
  destruct (s_eqb m s_one); [effect_done|].
  destruct (Py.position ds_ len_); [|effect_done].
  destruct vd_, ld_, ed_; store_cases.
Qed.

Lemma update_advantages_effect (self : RolloutBuffer A) last_val fast MC :
  let out := update_advantages last_val fast MC self in
  let self' := snd out in
  setting self' = setting self /\
  _buffer_size self' = _buffer_size self /\
  _n_steps self' = _n_steps self /\
  gamma self' = gamma self /\
  rewards self' = rewards self /\
  dones self' = dones self /\
  KL_divergences self' = KL_divergences self /\
  values self' = values self /\
  entropies self' = entropies self /\
  __len__ self' = __len__ self /\
  (fst out = Ok tt ->
   log_probs self' =
   if MC then Py.slice_to (log_probs self) (__len__ self) else log_probs self).
Proof.
  unfold update_advantages. run_method self.
  destruct ((2 <? n_) && fast).
  - destruct (compute_returns _ _ _ _) as [returns|err]; [|cbn; intuition discriminate].
    destruct MC.
    + destruct (compute_MC_advantages _ _ _); cbn; intuition discriminate.
    + destruct (compute_advantages _ _ _ _ _ _); cbn; intuition discriminate.
  - destruct MC.
    + destruct (compute_MC_advantages _ _ _); cbn; intuition discriminate.
    + destruct (compute_advantages _ _ _ _ _ _); cbn; intuition discriminate.
Qed.
End MethodFacts.

(** ** The invariant of reachable states *)

Section InvariantFacts.
Context {A : Type} `{Flags A}.

Lemma is_flag_of_bool (b : bool) : is_flag (of_bool b).
Proof. destruct b; [right|left]; reflexivity. Qed.

Lemma Forall_update (P : A -> Prop) xs k v :
  List.Forall P xs -> P v -> List.Forall P (Py.update xs k v).
Proof.
  intros Hxs Hv. revert k. induction Hxs as [|x xs Hx Hxs IH]; intros k.
  - constructor.
  - destruct k; simpl; constructor; auto.
Qed.

Lemma Forall_skipn (P : A -> Prop) xs k :
  List.Forall P xs -> List.Forall P (List.skipn k xs).
Proof.
  intros Hxs. revert k. induction Hxs as [|x xs Hx Hxs IH]; intros k.
  - destruct k; constructor.
  - destruct k; simpl; [constructor|]; auto.
Qed.

Lemma Forall_repeat (P : A -> Prop) v k : P v -> List.Forall P (List.repeat v k).
Proof. intros Hv. induction k; simpl; constructor; auto. Qed.

(** The running maximum of flags is a flag, and it is [1] exactly when the
    start or some later element is. *)
Lemma running_max_flags (tl : list A) : forall m : A,
  is_flag m -> List.Forall is_flag tl ->
  let r := List.fold_left (fun m y => if s_ltb m y then y else m) tl m in
  is_flag r /\ (r = s_one <-> m = s_one \/ List.In s_one tl).
Proof.
  induction tl as [|y tl IH]; intros m Hm Htl; simpl.
  - tauto.
  - inversion Htl as [|y' tl' Hy Htl']; subst.
    assert (Hnext : is_flag (if s_ltb m y then y else m))
      by (destruct (s_ltb m y); assumption).
    destruct (IH _ Hnext Htl') as [Hr Hiff]. split; [exact Hr|].
    rewrite Hiff. clear Hiff Hr Hnext IH.
    destruct Hm as [-> | ->], Hy as [-> | ->];
      rewrite ?zero_lt_zero, ?zero_lt_one, ?one_lt_zero, ?one_lt_one; tauto.
Qed.

Lemma flag_eqb_one (m : A) : is_flag m -> (s_eqb m s_one = true <-> m = s_one).
Proof.
  intros [-> | ->].
  - rewrite zero_eq_one. split; [discriminate|].
    intros Heq. pose proof zero_eq_one as Hz. rewrite Heq, one_eq_one in Hz. discriminate.
  - rewrite one_eq_one. tauto.
Qed.

Lemma max_flags (xs : list A) :
  List.Forall is_flag xs -> xs <> [] ->
  exists m, Py.max xs = Ok m /\ (s_eqb m s_one = true <-> List.In s_one xs).
Proof.
  intros Hxs Hne. destruct xs as [|x tl]; [congruence|].
  inversion Hxs as [|x' tl' Hx Htl]; subst.
  destruct (running_max_flags tl x Hx Htl) as [Hr Hiff].
  eexists. split; [reflexivity|].
  rewrite (flag_eqb_one _ Hr), Hiff. simpl. intuition congruence.
Qed.

Lemma init_run (buffer_size : Z) (g : A) (n_steps : Z) (s : string) self :
  __init__ buffer_size g n_steps s = Ok self ->
  1 <= buffer_size /\ 1 <= n_steps /\
  (s_leb s_zero g && s_leb g s_one = true) /\
  self =
  let z := List.repeat s_zero (Z.to_nat (buffer_size + n_steps - 1)) in
  {| setting := s; _n_steps := n_steps; _buffer_size := buffer_size; gamma := g;
     rewards := z; dones := z; KL_divergences := z; values := z;
     log_probs := z; entropies := z;
     advantages := None; _returns := None; __len__ := 0;
     values_dtype := torch_float32; log_probs_dtype := torch_float32;
     entropies_dtype := torch_float32 |}.
Proof.
  unfold __init__.
  destruct (buffer_size <? 1) eqn:Hb; [discriminate|].
  destruct (s_leb s_zero g && s_leb g s_one) eqn:Hg; [|discriminate].
  destruct (n_steps <? 1) eqn:Hn; [discriminate|]. simpl negb. cbv iota.
  apply Z.ltb_ge in Hb, Hn.
  rewrite reset_run by (unfold capacity; simpl; lia).
  intros Heq. injection Heq as <-. auto.
Qed.

Lemma init_invariant buffer_size (g : A) n_steps s self :
  __init__ buffer_size g n_steps s = Ok self -> invariant self.
Proof.
  intros Hinit. apply init_run in Hinit as (Hb & Hn & _ & ->).
  unfold invariant, capacity. simpl. repeat split; try lia.
  apply Forall_repeat. now left.
Qed.

Lemma clean_effect (self : RolloutBuffer A) :
  0 <= capacity self ->
  let self' := after Clean self in
  _buffer_size self' = _buffer_size self /\
  _n_steps self' = _n_steps self /\
  ((dones self' = dones self /\ __len__ self' = __len__ self) \/
   (dones self' = List.repeat s_zero (Z.to_nat (capacity self)) /\
    __len__ self' = _n_steps self - 1)).
Proof.
  intros Hc. unfold after, perform, clean. unfold_method.
  cbn [_buffer_size _n_steps rewards]. fold (capacity self).
  rewrite (zeros_ok _ Hc). cbn [rewards].
  destruct (Py.setslice_to _ _ _); cbn; tauto.
Qed.

Lemma invariant_after (c : call A) (self : RolloutBuffer A) :
  invariant self -> invariant (after c self).
Proof.
  intros (Hb & Hn & Hl & Hd). destruct c as [r d v lp e kl| | | |last_val fast MC].
  - destruct (add_effect self r d v lp e kl)
      as (Eb & En & Ed & El).
    unfold invariant, capacity in *. rewrite Eb, En. repeat split; try lia.
    + destruct El as [-> | [-> Hfull]]; [lia|].
      rewrite full_run in Hfull. cbn [fst] in Hfull. unfold capacity in Hfull.
      destruct (_ <=? _) eqn:Hcap; [discriminate|].
      apply Z.leb_gt in Hcap. lia.
    + destruct Ed as [-> | [k ->]]; [assumption|].
      apply Forall_update; [assumption|apply is_flag_of_bool].
  - unfold after, perform. rewrite reset_run by (unfold capacity; lia).
    unfold invariant, capacity. simpl. repeat split; try lia.
    apply Forall_repeat. now left.
  - destruct (clean_effect self) as (Eb & En & E); [unfold capacity; lia|].
    unfold invariant, capacity in *. rewrite Eb, En.
    destruct E as [[-> ->] | [-> ->]]; repeat split; try lia; try assumption.
    apply Forall_repeat. now left.
  - unfold after, perform. rewrite clear_run.
    unfold invariant, capacity in *. simpl. repeat split; try lia.
    unfold Py.slice_from. now apply Forall_skipn.
  - destruct (update_advantages_effect self last_val fast MC)
      as (_ & Eb & En & _ & _ & Ed & _ & _ & _ & El & _).
    unfold after, perform, invariant, capacity in *.
    rewrite Eb, En, Ed, El. repeat split; try lia; assumption.
Qed.

Lemma reachable_invariant (self : RolloutBuffer A) : reachable self -> invariant self.
Proof.
  induction 1 as [bs g n s self Hinit | c self _ IH].
  - eapply init_invariant; eassumption.
  - now apply invariant_after.
Qed.

Lemma reachable_after_all (cs : list (call A)) : forall self : RolloutBuffer A,
  reachable self -> reachable (after_all cs self).
Proof.
  induction cs as [|c cs IH]; intros self Hr; [exact Hr|].
  apply IH. now constructor.
Qed.
End InvariantFacts.

(** ** Advantages in n-step mode *)

Section Advantages.
Context {A : Type} `{Scalar A}.
Variables (returns values dones : list A) (gamma last_val : A).
Variables (buffer_size n_steps : Z).
Hypothesis buffer_size_pos : 1 <= buffer_size.
Hypothesis n_steps_pos : 1 <= n_steps.
Hypothesis values_length : Py.len values = buffer_size + n_steps - 1.
Hypothesis returns_length : buffer_size <= Py.len returns.
Hypothesis dones_length : buffer_size <= Py.len dones.

Let advantage (i : nat) : A :=
  (List.nth i returns s_zero
   + (s_one - List.nth i dones s_zero) * gamma ^ n_steps
     * next_value values last_val buffer_size n_steps i
   - List.nth i values s_zero)%sc.

Lemma next_values_getitem (i : nat) :
  Z.of_nat i < buffer_size ->
  Py.getitem (List.map Some (Py.slice_from values n_steps) ++ [Some last_val])
    (Z.of_nat i)
  = Ok (Some (next_value values last_val buffer_size n_steps i)).
Proof.
  intros Hi. unfold Py.len in *.
  replace n_steps with (Z.of_nat (Z.to_nat n_steps)) at 1 by lia.
  rewrite slice_from_in_range by lia.
  assert (Hskip : List.length (List.skipn (Z.to_nat n_steps) values)
                  = Z.to_nat (buffer_size - 1))
    by (rewrite List.length_skipn; lia).
  rewrite (getitem_in_range _ i None)
    by (rewrite List.length_app, List.length_map, Hskip; simpl; lia).
  unfold next_value. f_equal.
  destruct (Z.of_nat i <? buffer_size - 1) eqn:Hlast.
  - apply Z.ltb_lt in Hlast.
    rewrite List.app_nth1 by (rewrite List.length_map; lia).
    rewrite (List.nth_indep _ None (Some s_zero)) by (rewrite List.length_map; lia).
    rewrite (List.map_nth Some). f_equal.
    rewrite List.nth_skipn. f_equal. lia.
  - apply Z.ltb_ge in Hlast.
    rewrite List.app_nth2 by (rewrite List.length_map; lia).
    rewrite List.length_map, Hskip.
    now replace (i - Z.to_nat (buffer_size - 1))%nat with 0%nat by lia.
Qed.

Lemma compute_advantages_run :
  compute_advantages returns values dones gamma (Some last_val) n_steps
  = Ok (List.map advantage (List.seq 0 (Z.to_nat buffer_size))).
Proof.
  unfold compute_advantages.
  replace (0 <? n_steps) with true by (symmetry; apply Z.ltb_lt; lia).
  replace (Py.len values - n_steps + 1) with buffer_size by lia.
  unfold Py.range. apply comprehension_range. intros i Hi.
  unfold Py.len in *.
  rewrite (getitem_in_range returns i s_zero) by lia.
  rewrite (getitem_in_range dones i s_zero) by lia.
  rewrite next_values_getitem by lia.
  rewrite (getitem_in_range values i s_zero) by lia.
  reflexivity.
Qed.
End Advantages.

(** [compute_advantages] on a value column of [buffer_size + n_steps - 1]
    entries: [buffer_size] advantages, the last one bootstrapped with
    [last_val]. *)
Lemma compute_advantages_n_step {A : Type} `{Scalar A}
    (returns values dones : list A) (gamma last_val : A) (buffer_size n_steps : Z) :
  1 <= buffer_size -> 1 <= n_steps ->
  Py.len values = buffer_size + n_steps - 1 ->
  buffer_size <= Py.len returns ->
  buffer_size <= Py.len dones ->
  exists adv : list A,
    compute_advantages returns values dones gamma (Some last_val) n_steps = Ok adv /\
    Py.len adv = buffer_size /\
    forall i : nat, Z.of_nat i < buffer_size ->
      List.nth i adv s_zero
      = (List.nth i returns s_zero
         + (s_one - List.nth i dones s_zero) * gamma ^ n_steps
           * next_value values last_val buffer_size n_steps i
         - List.nth i values s_zero)%sc.
Proof.
  intros Hb Hn Hv Hr Hd. eexists. split.
  - apply (compute_advantages_run returns values dones gamma last_val buffer_size n_steps);
      assumption.
  - split.
    + unfold Py.len. rewrite List.length_map, List.length_seq. lia.
    + intros i Hi.
      set (f := fun i : nat => _) at 1.
      rewrite (List.nth_indep _ s_zero (f 0%nat))
        by (rewrite List.length_map, List.length_seq; lia).
      rewrite (List.map_nth f), List.seq_nth by lia. reflexivity.
Qed.

(** ** The number of returns *)

Section ReturnsLength.
Context {A : Type} `{Scalar A}.
Variables (rewards : list A) (gamma : A) (n_steps : Z).
Hypothesis n_steps_pos : 1 <= n_steps.

Let body (returns : list A) (i : Z) : result (list A) :=
  (do last_return <- Py.getitem returns i ;;
   do R_0 <- Py.getitem rewards i ;;
   do R_N <- Py.getitem rewards (i + n_steps) ;;
   Ok (returns ++ [compute_next_return last_return R_0 R_N gamma (n_steps - 1)]))%res.

(** The loop of [compute_returns] appends one return per iteration as long
    as the reward [n_steps] ahead exists. *)
Lemma recurrence_loop_length (k : nat) : forall (j : nat) (returns : list A),
  List.length returns = S j ->
  Z.of_nat (j + k) + n_steps <= Py.len rewards ->
  exists returns',
    for_each body (List.map Z.of_nat (List.seq j k)) returns = Ok returns' /\
    List.length returns' = S (j + k).
Proof.
  induction k as [|k IH]; intros j returns Hlen Hroom.
  - exists returns. rewrite Nat.add_0_r. now split.
  - unfold Py.len in Hroom. cbn [List.seq List.map for_each]. unfold body at 1.
    rewrite (getitem_in_range returns j s_zero) by lia.
    rewrite (getitem_in_range rewards j s_zero) by lia.
    replace (Z.of_nat j + n_steps) with (Z.of_nat (j + Z.to_nat n_steps)) by lia.
    rewrite (getitem_in_range rewards _ s_zero) by lia.
    cbn [rbind].
    destruct (IH (S j) (returns ++
                [compute_next_return (List.nth j returns s_zero)
                   (List.nth j rewards s_zero)
                   (List.nth (j + Z.to_nat n_steps) rewards s_zero) gamma
                   (n_steps - 1)]))
      as (returns' & Hrun & Hlen').
    + rewrite List.length_app, Hlen. simpl. lia.
    + unfold Py.len. lia.
    + exists returns'. split; [exact Hrun|]. rewrite Hlen'. lia.
Qed.

Lemma compute_returns_length (buffer_size : Z) :
  1 <= buffer_size ->
  buffer_size + n_steps - 1 <= Py.len rewards ->
  exists returns,
    compute_returns rewards gamma buffer_size n_steps = Ok returns /\
    Py.len returns = buffer_size.
Proof.
  intros Hb Hroom. unfold compute_returns, Py.range.
  destruct (recurrence_loop_length (Z.to_nat (buffer_size - 1)) 0
              [compute_n_step_return (Py.slice rewards 0 (0 + n_steps)) gamma])
    as (returns & Hrun & Hlen); [reflexivity|lia|].
  exists returns. split; [exact Hrun|]. unfold Py.len. lia.
Qed.

Lemma compute_all_n_step_returns_length (buffer_size : Z) :
  0 <= buffer_size ->
  Py.len (compute_all_n_step_returns rewards gamma buffer_size n_steps) = buffer_size.
Proof.
  intros Hb. unfold compute_all_n_step_returns, Py.range, Py.len.
  rewrite !List.length_map, List.length_seq. lia.
Qed.
End ReturnsLength.

(** * The claims *)

(** ** Construction *)

Lemma exact_leb_le (x y : Qc) : s_leb x y = true <-> (x <= y)%Qc.
Proof. simpl. unfold Qc_leb, Qcle. apply Qle_bool_iff. Qed.

Lemma exact_unit_interval (gamma : Qc) :
  s_leb s_zero gamma && s_leb gamma s_one = true <-> (0 <= gamma /\ gamma <= 1)%Qc.
Proof. rewrite andb_true_iff, !exact_leb_le. reflexivity. Qed.

(** C10.  Construction raises a [ValueError] if and only if
    [buffer_size < 1], or [gamma] lies outside [[0, 1]], or [n_steps < 1];
    otherwise it returns a buffer that stores the configuration, whose six
    columns are zero and of length [buffer_size + n_steps - 1] (the value,
    log-probability and entropy columns being float32 tensors), with no
    advantages or returns and the cursor at 0. *)
Theorem init_validates (buffer_size : Z) (g : Qc) (n_steps : Z) (s : string) :
  let invalid :=
    buffer_size < 1 \/ ~ (0 <= g /\ g <= 1)%Qc \/ n_steps < 1 in
  let zeros := List.repeat 0%Qc (Z.to_nat (buffer_size + n_steps - 1)) in
  ((exists msg, __init__ buffer_size g n_steps s = Raise (ValueError msg))
   <-> invalid) /\
  (~ invalid ->
   __init__ buffer_size g n_steps s
   = Ok {| setting := s; _n_steps := n_steps;
           _buffer_size := buffer_size; gamma := g;
           rewards := zeros; dones := zeros; KL_divergences := zeros;
           values := zeros; log_probs := zeros; entropies := zeros;
           advantages := None; _returns := None; __len__ := 0;
           values_dtype := torch_float32; log_probs_dtype := torch_float32;
           entropies_dtype := torch_float32 |} /\
   Py.len zeros = buffer_size + n_steps - 1).
Proof.
  cbv zeta.
  pose proof (exact_unit_interval g) as Hunit.
  unfold __init__.
  destruct (buffer_size <? 1) eqn:Hb.
  { apply Z.ltb_lt in Hb. split; [split; eauto|]. intros Hv. exfalso. apply Hv. now left. }
  apply Z.ltb_ge in Hb.
  destruct (s_leb s_zero g && s_leb g s_one) eqn:Hg; cbn [negb].
  2: { assert (Hout : ~ (0 <= g /\ g <= 1)%Qc)
         by (intros Hin; apply Hunit in Hin; discriminate).
       split; [split; eauto|]. intros Hv. exfalso. apply Hv. right. now left. }
  destruct (n_steps <? 1) eqn:Hn.
  { apply Z.ltb_lt in Hn. split; [split; eauto|]. intros Hv. exfalso. apply Hv. right. now right. }
  apply Z.ltb_ge in Hn.
  rewrite reset_run by (unfold capacity; cbn; lia).
  unfold capacity, blank. cbn.
  split.
  - split; [intros [msg Hmsg]; discriminate|].
    intros [Hlt | [Hout | Hlt]]; [lia| |lia].
    exfalso. apply Hout. now apply Hunit.
  - intros _. split; [reflexivity|].
    unfold Py.len. rewrite List.repeat_length. lia.
Qed.

(** Three rejected constructions: [buffer_size = 0], [gamma = 1.5] and
    [n_steps = 0]. *)
Example init_rejects :
  __init__ 0 (Scenario.rational 1 2) 1 "MC"
  = Raise (ValueError "Buffer size must be positive") /\
  __init__ 1 (Scenario.rational 3 2) 1 "MC"
  = Raise (ValueError "Gamma must be between 0 and 1") /\
  __init__ 1 (Scenario.rational 1 2) 0 "MC"
  = Raise (ValueError "Number of steps must be positive").
Proof. repeat split. Qed.

(** ** The lifecycle *)

(** *** What [update_advantages] leaves alone *)

(** C6, amended.  A call of [update_advantages] that returns changes the
    advantage and return arrays and, in Monte-Carlo mode, replaces the
    log-probability column by its first [__len__] entries; the rewards,
    dones, values, entropies and KL divergences, the cursor and the
    configuration are unchanged, and so is the log-probability column in
    n-step mode. *)
Theorem update_advantages_frame {A : Type} `{Scalar A}
    (self self' : RolloutBuffer A) (last_val : option A) (fast MC : bool) :
  update_advantages last_val fast MC self = (Ok tt, self') ->
  rewards self' = rewards self /\
  dones self' = dones self /\
  values self' = values self /\
  entropies self' = entropies self /\
  KL_divergences self' = KL_divergences self /\
  __len__ self' = __len__ self /\
  _buffer_size self' = _buffer_size self /\
  _n_steps self' = _n_steps self /\
  gamma self' = gamma self /\
  log_probs self'
  = (if MC then Py.slice_to (log_probs self) (__len__ self) else log_probs self).
Proof.
  intros Hrun.
  pose proof (update_advantages_effect self last_val fast MC) as Heff.
  cbv zeta in Heff. rewrite Hrun in Heff. cbn [fst snd] in Heff.
  destruct Heff as (_ & Eb & En & Eg & Er & Ed & Ek & Ev & Ee & El & Elp).
  repeat split; try assumption. now apply Elp.
Qed.

Lemma update_advantages_frame_witness :
  let self := Scenario.window_3_2 in
  let self' := after (UpdateAdvantages (Some (Scenario.rational 7 1)) true false) self in
  rewards self' = rewards self /\ log_probs self' = log_probs self.
Proof.
  cbv zeta.
  pose proof (update_advantages_frame Scenario.window_3_2
                (after (UpdateAdvantages (Some (Scenario.rational 7 1)) true false)
                   Scenario.window_3_2)
                (Some (Scenario.rational 7 1)) true false
                ltac:(vm_compute; reflexivity)) as Hframe.
  split; apply Hframe.
Defined.

(** C6, as stated, fails in Monte-Carlo mode.  After an episode of one
    step in a buffer of capacity 2, [update_advantages(MC=True)] returns
    and the log-probability column has one entry where it had two. *)
Lemma update_advantages_MC_truncates_log_probs :
  let self := Scenario.episode_2_1 in
  let out := update_advantages None true true self in
  fst out = Ok tt /\
  Py.len (log_probs self) = 2 /\
  Py.len (log_probs (snd out)) = 1 /\
  log_probs (snd out) <> log_probs self.
Proof.
  cbv zeta. repeat split.
  intros Heq. apply (f_equal (@List.length Qc)) in Heq.
  vm_compute in Heq. discriminate.
Qed.

(** *** A full buffer *)

(** C8.  When [full] returns true, [add] raises the [ValueError] of a
    full buffer and leaves every attribute of the buffer as it was. *)
Theorem add_when_full {A : Type} `{Scalar A} (self : RolloutBuffer A)
    (reward : A) (done : bool) (value log_prob entropy KL_divergence : A) :
  fst (full self) = Ok true ->
  add reward done value log_prob entropy KL_divergence self
  = (Raise (ValueError "Buffer is already full, cannot add anymore"), self).
Proof.
  intros Hfull. unfold add, bind.
  destruct (full self) as [res self0] eqn:Hrun.
  pose proof (full_run self) as Hpure. rewrite Hrun in Hpure.
  injection Hpure as _ ->. cbn [fst] in Hfull. now subst res.
Qed.

Lemma add_when_full_witness :
  fst (full Scenario.window_3_2) = Ok true /\
  perform (Scenario.step 5 false) Scenario.window_3_2
  = (Raise (ValueError "Buffer is already full, cannot add anymore"),
     Scenario.window_3_2).
Proof.
  split; [reflexivity|].
  apply (add_when_full Scenario.window_3_2). reflexivity.
Defined.

(** Where [full] is right.  In every reachable state, [full] leaves the
    buffer unchanged and returns true if and only if the cursor equals
    [buffer_size + n_steps - 1] or some stored done flag is [1]; when
    neither holds and the [dones] column is not empty, it returns false. *)
Lemma full_characterised {A : Type} `{Flags A} (self : RolloutBuffer A) :
  reachable self ->
  let P := __len__ self = capacity self \/ List.In s_one (dones self) in
  snd (full self) = self /\
  (fst (full self) = Ok true <-> P) /\
  (~ P -> dones self <> [] -> fst (full self) = Ok false).
Proof.
  intros Hreach. cbv zeta.
  destruct (reachable_invariant self Hreach) as (Hb & Hn & Hl & Hflags).
  rewrite full_run. cbn [fst snd]. split; [reflexivity|].
  destruct (capacity self <=? __len__ self) eqn:Hcap.
  - apply Z.leb_le in Hcap. split; [|intros HnP; exfalso; apply HnP; left; lia].
    split; [intros _; left; lia|reflexivity].
  - apply Z.leb_gt in Hcap.
    destruct (dones self) as [|d ds] eqn:Hdones.
    + simpl. split; [|congruence].
      split; [discriminate|intros [Heq|[]]; lia].
    + destruct (max_flags (d :: ds) Hflags ltac:(discriminate)) as (m & -> & Hm).
      split.
      * rewrite <- Hm. split; [intros [= ->]; tauto|].
        intros [Heq|Heq]; [lia|now rewrite Heq].
      * intros HnP _. destruct (s_eqb m s_one); [|reflexivity].
        exfalso. apply HnP. right. now apply Hm.
Qed.

Lemma reachable_window_3_2 : reachable Scenario.window_3_2.
Proof.
  apply reachable_after_all.
  apply (reachable_init 3 (Scenario.rational 9 10) 2 "MC"). reflexivity.
Defined.

Lemma full_characterised_witness :
  fst (full Scenario.window_3_2) = Ok true <->
  __len__ Scenario.window_3_2 = capacity Scenario.window_3_2 \/
  List.In s_one (dones Scenario.window_3_2).
Proof.
  exact (proj1 (proj2 (full_characterised Scenario.window_3_2 reachable_window_3_2))).
Defined.

(** C9, at a failing input.  The buffer with [buffer_size = 2] and
    [n_steps = 1], cleared before any step, is reachable, its cursor is
    below the capacity and it stores no done flag, and [full] raises the
    [ValueError] of [max] on an empty sequence instead of returning
    false: the predicate has no answer there, and [add], which asks it,
    fails with the same error. *)
Theorem full_raises_after_clear :
  reachable Scenario.cleared_2_1 /\
  __len__ Scenario.cleared_2_1 <> capacity Scenario.cleared_2_1 /\
  dones Scenario.cleared_2_1 = [] /\
  fst (full Scenario.cleared_2_1)
  = Raise (ValueError "max() arg is an empty sequence") /\
  fst (perform (Scenario.step 1 false) Scenario.cleared_2_1)
  = Raise (ValueError "max() arg is an empty sequence").
Proof.
  split.
  - apply reachable_call.
    apply (reachable_init 2 (Scenario.rational 1 2) 1 "MC"). reflexivity.
  - repeat split. discriminate.
Qed.

(** *** Advantages in n-step mode *)

(** C4, amended.  On a buffer whose columns have capacity length,
    [update_advantages] in n-step mode with a bootstrap value [last_val]
    returns and stores exactly [buffer_size] returns and [buffer_size]
    advantages, with
    [advantage[i] = return[i] + (1 - done[i]) * gamma^n_steps * next_value[i] - value[i]],
    where [next_value[i] = value[i + n_steps]] for every [i < buffer_size - 1]
    and only the last position, [buffer_size - 1], uses [last_val]. *)
Theorem update_advantages_n_step {A : Type} `{Scalar A}
    (self : RolloutBuffer A) (last_val : A) (fast : bool) :
  1 <= _buffer_size self -> 1 <= _n_steps self -> at_capacity self ->
  let out := update_advantages (Some last_val) fast false self in
  exists returns adv : list A,
    fst out = Ok tt /\
    _returns (snd out) = Some returns /\
    advantages (snd out) = Some adv /\
    Py.len returns = _buffer_size self /\
    Py.len adv = _buffer_size self /\
    forall i : nat, Z.of_nat i < _buffer_size self ->
      List.nth i adv s_zero
      = (List.nth i returns s_zero
         + (s_one - List.nth i (dones self) s_zero) * gamma self ^ _n_steps self
           * next_value (values self) last_val (_buffer_size self) (_n_steps self) i
         - List.nth i (values self) s_zero)%sc.
Proof.
  intros Hb Hn (Hr & Hd & _ & Hv & _ & _). cbv zeta.
  assert (Hreturns : exists returns,
            (if (2 <? _n_steps self) && fast
             then compute_returns (rewards self) (gamma self)
                    (_buffer_size self) (_n_steps self)
             else Ok (compute_all_n_step_returns (rewards self) (gamma self)
                        (_buffer_size self) (_n_steps self)))
            = Ok returns /\ Py.len returns = _buffer_size self).
  { destruct ((2 <? _n_steps self) && fast).
    - apply compute_returns_length; [exact Hn|exact Hb|]. rewrite Hr.
      unfold capacity. lia.
    - eexists. split; [reflexivity|].
      apply compute_all_n_step_returns_length. lia. }
  destruct Hreturns as (returns & Hrun & Hlen).
  destruct (compute_advantages_n_step returns (values self) (dones self)
              (gamma self) last_val (_buffer_size self) (_n_steps self))
    as (adv & Hadv & Hlen' & Hformula); try assumption; try lia.
  { rewrite Hd. unfold capacity. lia. }
  exists returns, adv.
  unfold update_advantages. run_method self.
  destruct ((2 <? n_) && fast).
  - rewrite Hrun, Hadv. cbn. repeat split; assumption.
  - injection Hrun as Hrun. rewrite Hrun, Hadv. cbn. repeat split; assumption.
Qed.

Lemma update_advantages_n_step_witness :
  let self := Scenario.window_3_2 in
  let out := update_advantages (Some (Scenario.rational 7 1)) true false self in
  fst out = Ok tt /\
  option_map (List.map this) (_returns (snd out)) = Some [14 # 5; 47 # 10; 33 # 5]%Q /\
  option_map (List.map this) (advantages (snd out))
  = Some [171 # 10; 171 # 10; - 1773 # 100]%Q.
Proof.
  cbv zeta.
  destruct (update_advantages_n_step Scenario.window_3_2 (Scenario.rational 7 1) true
              ltac:(vm_compute; discriminate) ltac:(vm_compute; discriminate)
              ltac:(repeat split))
    as (returns & adv & Hrun & _).
  split; [exact Hrun|]. split; vm_compute; reflexivity.
Defined.

(** C4, as stated, fails.  With [buffer_size = 3], [n_steps = 2],
    [gamma = 0.9], values [10, 20, 30, 40] and [last_val = 7], position 1 is
    one of the final [n_steps] positions, and its advantage is computed
    with [value[3] = 40], not with [last_val]: it is [17.1], where
    [last_val] would give [-9.63]. *)
Lemma compute_advantages_bootstraps_last_only :
  let self := after (UpdateAdvantages (Some (Scenario.rational 7 1)) true false)
                Scenario.window_3_2 in
  let before := Scenario.window_3_2 in
  let claimed :=
    (Scenario.rational 47 10
     + (s_one - List.nth 1 (dones before) s_zero) * gamma before ^ 2
       * Scenario.rational 7 1
     - List.nth 1 (values before) s_zero)%sc in
  option_map (List.map this) (_returns self) = Some [14 # 5; 47 # 10; 33 # 5]%Q /\
  option_map (List.map this) (advantages self)
  = Some [171 # 10; 171 # 10; - 1773 # 100]%Q /\
  this claimed = (- 963 # 100)%Q /\
  option_map (fun adv => List.nth 1 adv s_zero) (advantages self) <> Some claimed.
Proof.
  cbv zeta. repeat split; try (vm_compute; reflexivity).
  intros Heq. apply (f_equal (option_map this)) in Heq.
  vm_compute in Heq. discriminate.
Qed.

(** *** Trimming *)

(** What the two methods do.  On a buffer with [n_steps >= 2] whose
    columns have capacity length, [clean()] returns and leaves the last
    [n_steps - 1] rewards in the first [n_steps - 1] reward slots, zero
    everywhere else, every column at capacity length, no advantages or
    returns, and the cursor at [n_steps - 1]: it trims and the buffer can
    go on.  [clear()] returns and keeps of every column the entries from
    index [buffer_size] on, which are its last [n_steps - 1] entries: it
    leaves columns of length [n_steps - 1], and the cursor, the
    advantages and the returns as they were. *)
Lemma clean_and_clear {A : Type} `{Scalar A} (self : RolloutBuffer A) :
  1 <= _buffer_size self -> 2 <= _n_steps self -> at_capacity self ->
  let last (column : RolloutBuffer A -> list A) :=
    Py.slice_from (column self) (_buffer_size self) in
  let zeros k := List.repeat s_zero (Z.to_nat k) in
  (fst (clean self) = Ok tt /\
   rewards (after Clean self) = last rewards ++ zeros (_buffer_size self) /\
   Py.len (last rewards) = _n_steps self - 1 /\
   dones (after Clean self) = zeros (capacity self) /\
   KL_divergences (after Clean self) = zeros (capacity self) /\
   values (after Clean self) = zeros (capacity self) /\
   log_probs (after Clean self) = zeros (capacity self) /\
   entropies (after Clean self) = zeros (capacity self) /\
   at_capacity (after Clean self) /\
   advantages (after Clean self) = None /\
   _returns (after Clean self) = None /\
   __len__ (after Clean self) = _n_steps self - 1) /\
  (fst (clear self) = Ok tt /\
   rewards (after Clear self) = last rewards /\
   dones (after Clear self) = last dones /\
   KL_divergences (after Clear self) = last KL_divergences /\
   values (after Clear self) = last values /\
   log_probs (after Clear self) = last log_probs /\
   entropies (after Clear self) = last entropies /\
   (forall column, Py.len (column self) = capacity self ->
      Py.len (last column) = _n_steps self - 1) /\
   advantages (after Clear self) = advantages self /\
   _returns (after Clear self) = _returns self /\
   __len__ (after Clear self) = __len__ self).
Proof.
  intros Hb Hn Hcap. cbv zeta.
  assert (Hlast : forall column : RolloutBuffer A -> list A,
             Py.len (column self) = capacity self ->
             Py.len (Py.slice_from (column self) (_buffer_size self))
             = _n_steps self - 1).
  { intros column Hlen. unfold Py.slice_from, Py.bound, Py.len, capacity in *.
    replace (_buffer_size self <? 0) with false by (symmetry; apply Z.ltb_ge; lia).
    rewrite List.length_skipn. lia. }
  pose proof Hcap as (Hr & _).
  assert (Hz : Py.len (List.repeat (s_zero : A) (Z.to_nat (capacity self)))
               = capacity self)
    by (unfold Py.len, capacity; rewrite List.repeat_length; lia).
  split.
  - unfold after, perform. rewrite (clean_run self Hb Hn Hr).
    unfold at_capacity, capacity in *. cbn.
    repeat split; try reflexivity; try exact Hz; try (apply Hlast; exact Hr).
    rewrite len_app, (Hlast rewards Hr). unfold Py.len.
    rewrite List.repeat_length. lia.
  - unfold after, perform. rewrite (clear_run self). cbn.
    repeat split. exact Hlast.
Qed.

Lemma clean_and_clear_witness :
  let self := Scenario.window_3_2 in
  List.map this (rewards (after Clean self)) = [4 # 1; 0; 0; 0]%Q /\
  __len__ (after Clean self) = 1 /\
  List.map this (rewards (after Clear self)) = [4 # 1]%Q /\
  __len__ (after Clear self) = __len__ self.
Proof.
  cbv zeta.
  pose proof (clean_and_clear Scenario.window_3_2
                ltac:(vm_compute; discriminate) ltac:(vm_compute; discriminate)
                ltac:(repeat split)) as [Hclean Hclear].
  cbv zeta in Hclean, Hclear.
  split; [vm_compute; reflexivity|]. split; [apply Hclean|].
  split; [vm_compute; reflexivity|]. apply Hclear.
Defined.

(** C5, at a failing input.  On the full buffer with [buffer_size = 3],
    [n_steps = 2] and rewards [1, 2, 3, 4], whose six columns have the
    capacity length 4, [clear()] returns and leaves columns of length 1,
    not 4, the value [40] in the value column, not zero, and the cursor
    at 4, not at [n_steps - 1 = 1]; the buffer cannot go on, as the next
    [add] is refused as on a full buffer.  [clean()], on the same buffer,
    leaves what the claim says, and the next [add] returns. *)
Theorem clear_truncates_columns :
  let self := Scenario.window_3_2 in
  let cleared := after Clear self in
  let cleaned := after Clean self in
  (at_capacity self /\ capacity self = 4 /\ _n_steps self - 1 = 1) /\
  (fst (clear self) = Ok tt /\
   List.map this (rewards cleared) = [4 # 1]%Q /\
   List.map this (values cleared) = [40 # 1]%Q /\
   Py.len (dones cleared) = 1 /\
   Py.len (KL_divergences cleared) = 1 /\
   Py.len (log_probs cleared) = 1 /\
   Py.len (entropies cleared) = 1 /\
   __len__ cleared = 4 /\
   perform (Scenario.step 5 false) cleared
   = (Raise (ValueError "Buffer is already full, cannot add anymore"), cleared)) /\
  (fst (clean self) = Ok tt /\
   List.map this (rewards cleaned) = [4 # 1; 0; 0; 0]%Q /\
   List.map this (values cleaned) = [0; 0; 0; 0]%Q /\
   at_capacity cleaned /\
   __len__ cleaned = 1 /\
   fst (perform (Scenario.step 5 false) cleaned) = Ok tt).
Proof. cbv zeta. repeat split. Qed.

(** ** The estimators *)

(** *** Monte-Carlo returns *)

(** C7.  For a non-empty reward sequence of length [L] and any [gamma], in
    exact arithmetic, [compute_MC_returns] yields [L] returns [G] with
    [G[L-1] = rewards[L-1]] and [G[i] = rewards[i] + gamma * G[i+1]] for
    every [i < L-1]. *)
Theorem compute_MC_returns_recurrence (rewards : list Qc) (gamma : Qc) :
  rewards <> [] ->
  let G := compute_MC_returns rewards gamma in
  let L := List.length rewards in
  List.length G = L /\
  List.nth (L - 1) G 0%Qc = List.nth (L - 1) rewards 0%Qc /\
  forall i : nat, (S i < L)%nat ->
    List.nth i G 0%Qc = (List.nth i rewards 0 + gamma * List.nth (S i) G 0)%Qc.
Proof.
  intros Hne. cbv zeta. split; [apply compute_MC_returns_length|]. split.
  - change 0%Qc with (s_zero (A:=Qc)).
    rewrite compute_MC_returns_last by exact Hne. apply exact_add_zero_r.
  - intros i Hi. exact (compute_MC_returns_step rewards gamma i Hi).
Qed.

Lemma compute_MC_returns_recurrence_witness :
  let rewards := [Scenario.rational 1 1; Scenario.rational 1 1; Scenario.rational 1 1] in
  let gamma := Scenario.rational 1 2 in
  List.map this (compute_MC_returns rewards gamma) = [7 # 4; 3 # 2; 1 # 1]%Q /\
  List.nth 2 (compute_MC_returns rewards gamma) 0%Qc = List.nth 2 rewards 0%Qc.
Proof.
  cbv zeta. split; [reflexivity|].
  refine (proj1 (proj2 (compute_MC_returns_recurrence
           [Scenario.rational 1 1; Scenario.rational 1 1; Scenario.rational 1 1]
           (Scenario.rational 1 2) _))).
  discriminate.
Defined.

(** *** The incremental recurrence *)

(** What the recurrence is after.  In exact arithmetic, for every buffer
    size and number of steps of at least one (so for [n_steps > 2]), every
    non-zero [gamma] (so every [gamma] in (0, 1]) and every reward array of
    length [buffer_size + n_steps - 1], [compute_returns] returns exactly
    the [buffer_size] returns of [compute_all_n_step_returns]. *)
Lemma compute_returns_exact
    (rewards : list Qc) (gamma : Qc) (buffer_size n_steps : Z) :
  gamma <> 0%Qc -> 1 <= buffer_size -> 1 <= n_steps ->
  Py.len rewards = buffer_size + n_steps - 1 ->
  compute_returns rewards gamma buffer_size n_steps
  = Ok (compute_all_n_step_returns rewards gamma buffer_size n_steps) /\
  Py.len (compute_all_n_step_returns rewards gamma buffer_size n_steps) = buffer_size.
Proof.
  intros Hg Hb Hn Hlen.
  replace buffer_size with (Z.of_nat (S (Z.to_nat (buffer_size - 1)))) in * by lia.
  replace n_steps with (Z.of_nat (S (Z.to_nat (n_steps - 1)))) in * by lia.
  set (b := Z.to_nat (buffer_size - 1)) in *.
  set (m := Z.to_nat (n_steps - 1)) in *.
  assert (Hl : List.length rewards = S (b + m)) by (unfold Py.len in Hlen; lia).
  rewrite (recurrence_windows rewards gamma b m Hg Hl).
  rewrite (direct_sum_windows rewards gamma b m Hl).
  split; [reflexivity|].
  unfold Py.len. now rewrite List.length_map, List.length_seq.
Qed.

Lemma compute_returns_exact_witness :
  let rewards := List.map (fun r => Scenario.rational r 1) [1; 2; 3; 4] in
  let gamma := Scenario.rational 9 10 in
  compute_returns rewards gamma 2 3 = Ok (compute_all_n_step_returns rewards gamma 2 3) /\
  Py.len (compute_all_n_step_returns rewards gamma 2 3) = 2.
Proof.
  cbv zeta.
  apply (compute_returns_exact
           (List.map (fun r => Scenario.rational r 1) [1; 2; 3; 4])
           (Scenario.rational 9 10) 2 3).
  - discriminate.
  - lia.
  - lia.
  - reflexivity.
Defined.

(** C1, at a failing input.  In binary64, which is what the code
    computes in, with [gamma = 0.5], [n_steps = 3], [buffer_size = 2] and
    rewards [1e16, 1, 1, 1] the recurrence returns [0.25] at index 1
    where the direct sum returns the 3-step return [1.75].  The drift does
    not need large rewards: with rewards cycling through [0.1, 0.2, 0.3],
    [gamma = 0.5], [n_steps = 3] and [buffer_size = 48], the recurrence
    returns and its result at index 47 is further from the direct sum
    than the tolerance.  The two branches of [update_advantages] are meant
    to differ in speed only. *)
Theorem compute_returns_binary64_disagrees :
  (compute_returns [1e16; 1; 1; 1]%float 0.5%float 2 3 = Ok [1e16; 0.25]%float /\
   compute_all_n_step_returns [1e16; 1; 1; 1]%float 0.5%float 2 3 = [1e16; 1.75]%float /\
   within_tolerance 0.25 1.75 = false) /\
  (let rewards := Scenario.cycling_rewards 50 in
   exists fast : list float,
     compute_returns rewards 0.5%float 48 3 = Ok fast /\
     within_tolerance (List.nth 47 fast 0%float)
       (List.nth 47 (compute_all_n_step_returns rewards 0.5%float 48 3) 0%float)
     = false).
Proof.
  split.
  - repeat split; vm_compute; reflexivity.
  - cbv zeta. eexists. split; vm_compute; reflexivity.
Qed.

(** *** Monte-Carlo mode *)

(** C2, at a failing input.  On the buffer with [buffer_size = 2],
    [n_steps = 3], [gamma = 0.5] and rewards [1, 2, 3, 4],
    [update_advantages(MC=True)] (with [fast] at its default) stores the two
    returns of the incremental recurrence, not the four Monte-Carlo
    returns, and then raises on subtracting four values from two returns. *)
Theorem update_advantages_MC_after_fast :
  let self := Scenario.window_2_3 in
  let out := update_advantages None true true self in
  fst out = Raise RuntimeError /\
  option_map (List.map this) (_returns (snd out)) = Some [11 # 4; 9 # 2]%Q /\
  List.map this (compute_MC_returns (rewards self) (gamma self))
  = [13 # 4; 9 # 2; 5 # 1; 4 # 1]%Q /\
  _returns (snd out) <> Some (compute_MC_returns (rewards self) (gamma self)).
Proof.
  cbv zeta. repeat split; try (vm_compute; reflexivity).
  intros Heq. apply (f_equal (option_map (@List.length Qc))) in Heq.
  vm_compute in Heq. discriminate.
Qed.

(** When the recurrence is not selected, Monte-Carlo mode does store the
    Monte-Carlo returns of the whole reward column. *)
Lemma update_advantages_MC_returns {A : Type} `{Scalar A}
    (self : RolloutBuffer A) (last_val : option A) (fast : bool) :
  (2 <? _n_steps self) && fast = false ->
  _returns (snd (update_advantages last_val fast true self))
  = Some (compute_MC_returns (rewards self) (gamma self)).
Proof.
  intros Hsel. unfold update_advantages. run_method self. rewrite Hsel.
  destruct (compute_MC_advantages _ _); reflexivity.
Qed.

(** *** Zero discount *)

(** C3, at a failing input.  In binary64, on the buffer with
    [buffer_size = 2], [n_steps = 3], [gamma = 0.0] and rewards
    [1, 2, 3, 4], [update_advantages] in n-step mode divides by [gamma]:
    it returns normally and the return at index 1 is NaN, not the reward
    [2]. *)
Theorem update_advantages_zero_gamma :
  let self := Scenario.undiscounted_2_3 in
  let out := update_advantages (Some 0%float) true false self in
  rewards self = [1; 2; 3; 4]%float /\
  fst out = Ok tt /\
  _returns (snd out) = Some [1; nan]%float /\
  advantages (snd out) = Some [1; nan]%float.
Proof. cbv zeta. repeat split; vm_compute; reflexivity. Qed.

(** The direct sum, which [update_advantages] uses for [n_steps <= 2],
    does reduce to the rewards at [gamma = 0]. *)
Lemma compute_n_step_return_undiscounted (r : Qc) (rs : list Qc) :
  compute_n_step_return (r :: rs) 0%Qc = r.
Proof. rewrite compute_n_step_return_cons. simpl. ring. Qed.

Lemma compute_all_n_step_returns_undiscounted
    (rewards : list Qc) (buffer_size n_steps : Z) (i : nat) :
  1 <= n_steps -> Z.of_nat i < buffer_size -> buffer_size <= Py.len rewards ->
  List.nth i (compute_all_n_step_returns rewards 0%Qc buffer_size n_steps) 0%Qc
  = List.nth i rewards 0%Qc.
Proof.
  intros Hn Hi Hlen. unfold compute_all_n_step_returns, Py.range, Py.len in *.
  assert (Hi' : (i < Z.to_nat buffer_size)%nat) by lia.
  pose (f := fun j : Z =>
    compute_n_step_return
      (Py.slice rewards j (Z.min (j + n_steps) (Z.of_nat (List.length rewards))))
      0%Qc).
  change (List.nth i (List.map f (List.map Z.of_nat (List.seq 0 (Z.to_nat buffer_size)))) 0%Qc
          = List.nth i rewards 0%Qc).
  rewrite List.map_map.
  rewrite (List.nth_indep _ 0%Qc (f (Z.of_nat 0)))
    by (rewrite List.length_map, List.length_seq; exact Hi').
  rewrite (List.map_nth (fun j => f (Z.of_nat j))), List.seq_nth by exact Hi'.
  simpl Nat.add. unfold f.
  set (hi := Z.min (Z.of_nat i + n_steps) (Z.of_nat (List.length rewards))).
  replace hi with (Z.of_nat (Z.to_nat hi)) by lia.
  rewrite slice_in_range by lia.
  replace (Z.to_nat hi - i)%nat with (S (Z.to_nat hi - i - 1)) by lia.
  rewrite (window_head rewards i _ 0%Qc) by lia.
  apply compute_n_step_return_undiscounted.
Qed.

(** * Further properties *)

(** ** More on sequences *)

Section MoreSeqFacts.
Context {X : Type}.
Implicit Types xs ys : list X.

Lemma position_sound xs (i : Z) (k : nat) :
  Py.position xs i = Some k -> (k < List.length xs)%nat.
Proof.
  unfold Py.position, Py.len.
  destruct ((0 <=? i) && (i <? Z.of_nat (List.length xs))) eqn:Hin.
  - apply andb_true_iff in Hin as [Hlo Hhi].
    apply Z.leb_le in Hlo. apply Z.ltb_lt in Hhi. intros [= <-]. lia.
  - destruct ((i <? 0) && (- Z.of_nat (List.length xs) <=? i)) eqn:Hneg; [|discriminate].
    apply andb_true_iff in Hneg as [Hlo Hhi].
    apply Z.ltb_lt in Hlo. apply Z.leb_le in Hhi. intros [= <-]. lia.
Qed.

Lemma getitem_out_of_range xs (k : nat) :
  (List.length xs <= k)%nat -> Py.getitem xs (Z.of_nat k) = Raise IndexError.
Proof.
  intros Hk. unfold Py.getitem.
  destruct (Py.position xs (Z.of_nat k)) as [j|] eqn:Hpos; [|reflexivity].
  pose proof (position_sound _ _ _ Hpos) as Hj.
  unfold Py.position, Py.len in Hpos.
  replace (Z.of_nat k <? Z.of_nat (List.length xs)) with false in Hpos
    by (symmetry; apply Z.ltb_ge; lia).
  replace (Z.of_nat k <? 0) with false in Hpos by (symmetry; apply Z.ltb_ge; lia).
  rewrite andb_false_r in Hpos. discriminate.
Qed.

Lemma update_length xs (k : nat) (v : X) :
  List.length (Py.update xs k v) = List.length xs.
Proof.
  revert k. induction xs as [|x xs IH]; intros [|k]; simpl; try reflexivity.
  now rewrite IH.
Qed.

Lemma update_nth_same xs (k : nat) (v d : X) :
  (k < List.length xs)%nat -> List.nth k (Py.update xs k v) d = v.
Proof.
  revert k. induction xs as [|x xs IH]; intros [|k] Hk; simpl in *; try lia.
  - reflexivity.
  - apply IH. lia.
Qed.

Lemma update_nth_other xs (k j : nat) (v d : X) :
  j <> k -> List.nth j (Py.update xs k v) d = List.nth j xs d.
Proof.
  revert k j. induction xs as [|x xs IH]; intros [|k] [|j] Hjk; simpl;
    try reflexivity; try congruence.
  apply IH. congruence.
Qed.

Lemma update_In xs (k : nat) (v : X) :
  (k < List.length xs)%nat -> List.In v (Py.update xs k v).
Proof.
  revert k. induction xs as [|x xs IH]; intros [|k] Hk; simpl in *; try lia.
  - now left.
  - right. apply IH. lia.
Qed.

(** Writing just after a stored prefix, into a padding of [m + 1] copies. *)
Lemma update_after_prefix xs (pad v : X) (m : nat) :
  Py.update (xs ++ List.repeat pad (S m)) (List.length xs) v
  = (xs ++ [v]) ++ List.repeat pad m.
Proof.
  induction xs as [|x xs IH]; [reflexivity|].
  cbn [List.app List.length Py.update]. now rewrite IH.
Qed.

Lemma setitem_in_range xs (k : nat) (v : X) :
  (k < List.length xs)%nat -> Py.setitem xs (Z.of_nat k) v = Ok (Py.update xs k v).
Proof. intros Hk. unfold Py.setitem. now rewrite position_in_range. Qed.

Lemma for_each_app {St : Type} (body : St -> Z -> result St) idx1 idx2 s :
  for_each body (idx1 ++ idx2) s = rbind (for_each body idx1 s) (for_each body idx2).
Proof.
  revert s. induction idx1 as [|i idx1 IH]; intros s; simpl; [reflexivity|].
  destruct (body s i); simpl; [apply IH|reflexivity].
Qed.
End MoreSeqFacts.

(** ** The configuration is fixed at construction *)

Section ConfigFacts.
Context {A : Type} `{Scalar A}.

Ltac same_config := cbn; repeat split; reflexivity.

Lemma config_after (c : call A) (self : RolloutBuffer A) :
  setting (after c self) = setting self /\
  _n_steps (after c self) = _n_steps self /\
  _buffer_size (after c self) = _buffer_size self /\
  gamma (after c self) = gamma self.
Proof.
  destruct c as [r d v lp e kl| | | |last_val fast MC]; unfold after, perform.
  - unfold add, full, done. run_method self. unfold Py.setitem, convert.
    destruct (b_ + n_ - 1 <=? len_); [same_config|].
    destruct (Py.max ds_) as [m|err]; [|same_config].
    destruct (s_eqb m s_one); [same_config|].
    destruct (Py.position ds_ len_); [|same_config].
    destruct vd_, ld_, ed_; store_cases_by same_config.
  - unfold reset. run_method self.
    destruct (Py.zeros (b_ + n_ - 1)); same_config.
  - unfold clean. run_method self.
    destruct (Py.zeros (b_ + n_ - 1)) as [z|err]; [|same_config].
    destruct (Py.setslice_to z (n_ - 1) _); same_config.
  - rewrite clear_run. same_config.
  - pose proof (update_advantages_effect self last_val fast MC) as Heff.
    cbv zeta in Heff. tauto.
Qed.

Lemma config_after_all (cs : list (call A)) : forall self : RolloutBuffer A,
  setting (after_all cs self) = setting self /\
  _n_steps (after_all cs self) = _n_steps self /\
  _buffer_size (after_all cs self) = _buffer_size self /\
  gamma (after_all cs self) = gamma self.
Proof.
  induction cs as [|c cs IH]; intros self; [simpl; tauto|].
  simpl. destruct (IH (after c self)) as (-> & -> & -> & ->). apply config_after.
Qed.
End ConfigFacts.

(** X1.  [reset()] undoes every call: whatever was called on a constructed
    buffer, and whether the calls returned or raised, [reset()] returns
    and the buffer is the constructed one again. *)
Theorem reset_restores {A : Type} `{Scalar A}
    (buffer_size : Z) (g : A) (n_steps : Z) (s : string)
    (self : RolloutBuffer A) (cs : list (call A)) :
  __init__ buffer_size g n_steps s = Ok self ->
  reset (after_all cs self) = (Ok tt, self).
Proof.
  intros Hinit.
  apply init_run in Hinit as (Hb & Hn & _ & ->). cbv zeta.
  match goal with |- reset (after_all cs ?init) = _ =>
    destruct (config_after_all cs init) as (Es & En & Eb & Eg);
    cbn [setting _n_steps _buffer_size gamma] in Es, En, Eb, Eg;
    set (st := after_all cs init) in *
  end.
  rewrite reset_run by (unfold capacity; rewrite En, Eb; lia).
  unfold capacity. rewrite Es, En, Eb, Eg. reflexivity.
Qed.

Lemma reset_restores_witness :
  let cs := [Scenario.step 1 false; Scenario.step 2 true; Clear;
             Scenario.step 5 false; Clean] in
  reset (after_all cs (construct 3 (Scenario.rational 9 10) 2))
  = (Ok tt, construct 3 (Scenario.rational 9 10) 2).
Proof.
  cbv zeta.
  refine (reset_restores 3 (Scenario.rational 9 10) 2 "MC"
            (construct 3 (Scenario.rational 9 10) 2) _ _).
  vm_compute. reflexivity.
Defined.

(** ** Storing steps *)

Section AddFacts.
Context {A : Type} `{Scalar A}.

Lemma setitem_at_cursor (xs : list A) (i : Z) (v : A) :
  0 <= i < Py.len xs -> Py.setitem xs i v = Ok (Py.update xs (Z.to_nat i) v).
Proof.
  intros Hi. unfold Py.len in Hi.
  replace i with (Z.of_nat (Z.to_nat i)) at 1 by lia.
  apply setitem_in_range. lia.
Qed.

Lemma getitem_at_cursor (xs : list A) (i : Z) (v : A) :
  0 <= i < Py.len xs -> Py.getitem (Py.update xs (Z.to_nat i) v) i = Ok v.
Proof.
  intros Hi. unfold Py.len in Hi.
  replace i with (Z.of_nat (Z.to_nat i)) at 2 by lia.
  rewrite (getitem_in_range _ _ v) by (rewrite update_length; lia).
  now rewrite update_nth_same by lia.
Qed.

Lemma convert_numpy (x : A) : convert numpy_float64 x = Ok x.
Proof. reflexivity. Qed.

(** A conversion fails with [RuntimeError] only. *)
Lemma convert_raises (d : dtype) (x : A) (err : exn) :
  convert d x = Raise err -> err = RuntimeError.
Proof.
  unfold convert. destruct d; [|discriminate].
  destruct (s_fits32 x); [discriminate|]. now intros [= <-].
Qed.

(** [add] when the three conversions are accepted. *)
Lemma add_run (self : RolloutBuffer A) (r : A) (d : bool) (v lp e kl v' lp' e' : A) :
  at_capacity self -> 0 <= __len__ self -> fst (full self) = Ok false ->
  convert (values_dtype self) v = Ok v' ->
  convert (log_probs_dtype self) lp = Ok lp' ->
  convert (entropies_dtype self) e = Ok e' ->
  add r d v lp e kl self
  = (Ok tt,
     let k := Z.to_nat (__len__ self) in
     {| setting := setting self; _n_steps := _n_steps self;
        _buffer_size := _buffer_size self; gamma := gamma self;
        rewards := Py.update (rewards self) k r;
        dones := Py.update (dones self) k (of_bool d);
        KL_divergences := Py.update (KL_divergences self) k kl;
        values := Py.update (values self) k v';
        log_probs := Py.update (log_probs self) k lp';
        entropies := Py.update (entropies self) k e';
        advantages := advantages self; _returns := _returns self;
        __len__ := __len__ self + 1;
        values_dtype := values_dtype self;
        log_probs_dtype := log_probs_dtype self;
        entropies_dtype := entropies_dtype self |}).
Proof.
  intros Hcap Hlen Hfull Hv' Hlp' He'.
  unfold at_capacity in Hcap. unfold add, full, done in *.
  run_method self. destruct Hcap as (Hr & Hd & Hk & Hv & Hlp & He).
  destruct (b_ + n_ - 1 <=? len_) eqn:Hroom; [discriminate|].
  apply Z.leb_gt in Hroom.
  destruct (Py.max ds_) as [m|err]; [|discriminate].
  destruct (s_eqb m s_one); [discriminate|].
  repeat (rewrite ?convert_numpy, ?Hv', ?Hlp', ?He';
          rewrite setitem_at_cursor by lia; unfold_method).
  reflexivity.
Qed.

(** [add] when a conversion is refused: the [dones] column is written
    already, and the columns before the refused one. *)
Lemma add_refused (self : RolloutBuffer A) (r : A) (d : bool) (v lp e kl : A) :
  at_capacity self -> 0 <= __len__ self -> fst (full self) = Ok false ->
  let k := Z.to_nat (__len__ self) in
  let marked := set_dones (Py.update (dones self) k (of_bool d)) self in
  add r d v lp e kl self
  = match convert (values_dtype self) v with
    | Raise _ => (Raise RuntimeError, marked)
    | Ok v' =>
        let valued := set_values (Py.update (values self) k v') marked in
        match convert (log_probs_dtype self) lp with
        | Raise _ => (Raise RuntimeError, valued)
        | Ok lp' =>
            let logged := set_log_probs (Py.update (log_probs self) k lp') valued in
            match convert (entropies_dtype self) e with
            | Raise _ => (Raise RuntimeError, logged)
            | Ok e' =>
                (Ok tt,
                 set_len (__len__ self + 1)
                   (set_rewards (Py.update (rewards self) k r)
                      (set_KL_divergences (Py.update (KL_divergences self) k kl)
                         (set_entropies (Py.update (entropies self) k e') logged))))
            end
        end
    end.
Proof.
  intros Hcap Hlen Hfull. cbv zeta.
  destruct (convert (values_dtype self) v) as [v'|errv] eqn:Hv';
    [|apply convert_raises in Hv' as Ev; subst errv].
  1: destruct (convert (log_probs_dtype self) lp) as [lp'|errl] eqn:Hlp';
    [|apply convert_raises in Hlp' as El; subst errl].
  1: destruct (convert (entropies_dtype self) e) as [e'|erre] eqn:He';
    [|apply convert_raises in He' as Ee; subst erre].
  1: { rewrite (add_run self r d v lp e kl v' lp' e') by assumption.
       destruct self. reflexivity. }
  all: unfold at_capacity in Hcap; unfold add, full, done in *;
    run_method self; destruct Hcap as (Hr & Hd & Hk & Hv & Hlp & He);
    (destruct (b_ + n_ - 1 <=? len_) eqn:Hroom; [discriminate|]);
    apply Z.leb_gt in Hroom;
    (destruct (Py.max ds_) as [m|err]; [|discriminate]);
    (destruct (s_eqb m s_one); [discriminate|]);
    repeat (rewrite ?convert_numpy, ?Hv', ?Hlp', ?He';
            rewrite setitem_at_cursor by lia; unfold_method);
    rewrite ?Hv', ?Hlp', ?He'; reflexivity.
Qed.

(** What a call of [add] that returns has done to the [dones] column. *)
Lemma add_marks (self self' : RolloutBuffer A) (r : A) (d : bool) (v lp e kl : A) :
  add r d v lp e kl self = (Ok tt, self') ->
  exists k : nat,
    (k < List.length (dones self))%nat /\
    dones self' = Py.update (dones self) k (of_bool d).
Proof.
  unfold add, full, done. run_method self. unfold Py.setitem, convert.
  destruct (b_ + n_ - 1 <=? len_); [discriminate|].
  destruct (Py.max ds_) as [m|err]; [|discriminate].
  destruct (s_eqb m s_one); [discriminate|].
  destruct (Py.position ds_ len_) as [k|] eqn:Hpos; [|discriminate].
  assert (Hk : (k < List.length ds_)%nat) by (eapply position_sound; eassumption).
  destruct vd_, ld_, ed_;
    store_cases_by
      ltac:(first [ discriminate
                  | intros [= <-]; exists k; split; [exact Hk|reflexivity] ]).
Qed.
End AddFacts.

(** X2.  On a buffer whose columns have capacity length and whose cursor
    is not negative, when [full] returns false, [add] converts the value,
    the log-probability and the entropy to the dtype of their columns (a
    float32 tensor rounds them and refuses what overflows, a float64 array
    takes them as they are).  When the three conversions are accepted it
    returns, writes the reward, the done flag, the divergence and the
    three converted numbers at the cursor of the six columns, leaves every
    other entry, the advantages and the returns as they were, and
    advances the cursor by one; what was written can be read back at the
    old cursor.  When a conversion is refused it raises [RuntimeError]
    with the done flag written already, the rewards, the divergences and
    the cursor as they were; if it is the value that is refused, nothing
    but the done flag is written. *)
Theorem add_stores {A : Type} `{Scalar A}
    (self : RolloutBuffer A) (reward : A) (done : bool)
    (value log_prob entropy KL_divergence : A) :
  at_capacity self -> 0 <= __len__ self -> fst (full self) = Ok false ->
  let out := add reward done value log_prob entropy KL_divergence self in
  let self' := snd out in
  let k := Z.to_nat (__len__ self) in
  match convert (values_dtype self) value,
        convert (log_probs_dtype self) log_prob,
        convert (entropies_dtype self) entropy with
  | Ok v, Ok lp, Ok e =>
      fst out = Ok tt /\
      __len__ self' = __len__ self + 1 /\
      rewards self' = Py.update (rewards self) k reward /\
      dones self' = Py.update (dones self) k (of_bool done) /\
      values self' = Py.update (values self) k v /\
      log_probs self' = Py.update (log_probs self) k lp /\
      entropies self' = Py.update (entropies self) k e /\
      KL_divergences self' = Py.update (KL_divergences self) k KL_divergence /\
      Py.getitem (rewards self') (__len__ self) = Ok reward /\
      Py.getitem (dones self') (__len__ self) = Ok (of_bool done) /\
      Py.getitem (values self') (__len__ self) = Ok v /\
      Py.getitem (log_probs self') (__len__ self) = Ok lp /\
      Py.getitem (entropies self') (__len__ self) = Ok e /\
      Py.getitem (KL_divergences self') (__len__ self) = Ok KL_divergence /\
      advantages self' = advantages self /\
      _returns self' = _returns self /\
      at_capacity self'
  | v, _, _ =>
      fst out = Raise RuntimeError /\
      __len__ self' = __len__ self /\
      dones self' = Py.update (dones self) k (of_bool done) /\
      rewards self' = rewards self /\
      KL_divergences self' = KL_divergences self /\
      ((forall x, v <> Ok x) ->
       self' = set_dones (Py.update (dones self) k (of_bool done)) self)
  end.
Proof.
  intros Hcap Hlen Hfull. cbv zeta.
  pose proof (add_refused self reward done value log_prob entropy KL_divergence
                Hcap Hlen Hfull) as Hrun.
  cbv zeta in Hrun. rewrite Hrun. clear Hrun.
  assert (Hroom : __len__ self < capacity self).
  { rewrite full_run in Hfull. cbn [fst] in Hfull.
    destruct (capacity self <=? __len__ self) eqn:Hroom; [discriminate|].
    now apply Z.leb_gt in Hroom. }
  destruct (convert (values_dtype self) value) as [v|errv].
  2: { cbn. repeat split. }
  destruct (convert (log_probs_dtype self) log_prob) as [lp|errl].
  2: { cbn. repeat split. intros Hno. now destruct (Hno v). }
  destruct (convert (entropies_dtype self) entropy) as [e|erre].
  2: { cbn. repeat split. intros Hno. now destruct (Hno v). }
  destruct Hcap as (Hr & Hd & Hk & Hv & Hlp & He).
  cbn. unfold at_capacity, capacity, Py.len in *. cbn.
  rewrite !update_length.
  repeat split; try reflexivity; try assumption;
    apply getitem_at_cursor; unfold Py.len; lia.
Qed.

(** In binary64, on the fresh buffer with [buffer_size = 2] and
    [n_steps = 1]: the value [0.1] is stored as the binary32 number nearest
    to it. *)
Lemma add_stores_witness :
  let self' :=
    snd (add 1%float false Sample.tenth 0%float 0%float 0%float Sample.fresh_binary64) in
  __len__ self' = 1 /\
  Py.getitem (rewards self') 0 = Ok 1%float /\
  Py.getitem (values self') 0 = Ok Sample.tenth_float32.
Proof.
  cbv zeta.
  pose proof (@add_stores float binary64 Sample.fresh_binary64 1%float false
                Sample.tenth 0%float 0%float 0%float
                ltac:(repeat split) ltac:(vm_compute; discriminate)
                ltac:(reflexivity)) as Hstore.
  cbv zeta in Hstore. vm_compute convert in Hstore.
  repeat split; apply Hstore.
Defined.

(** A value beyond the binary32 range: [add] raises [RuntimeError] when
    the done flag is written already, and the cursor has not moved. *)
Example add_refuses_overflow :
  let out :=
    add 1%float true Sample.beyond_float32 0%float 0%float 0%float
      Sample.fresh_binary64 in
  fst out = Raise RuntimeError /\
  dones (snd out) = [1; 0]%float /\
  values (snd out) = [0; 0]%float /\
  __len__ (snd out) = 0.
Proof. cbv zeta. repeat split. Qed.

(** X3.  Once a step with [done = True] has been stored, the buffer is
    full: in a state that satisfies the invariant of reachable states,
    after a call [add(..., done=True, ...)] that returns, [full] returns
    true. *)
Theorem done_step_fills {A : Type} `{Flags A}
    (self self' : RolloutBuffer A) (reward value log_prob entropy KL_divergence : A) :
  reachable self ->
  add reward true value log_prob entropy KL_divergence self = (Ok tt, self') ->
  fst (full self') = Ok true.
Proof.
  intros Hreach Hadd.
  assert (Hinv : invariant self').
  { replace self' with (after (Add reward true value log_prob entropy KL_divergence) self)
      by (unfold after, perform; now rewrite Hadd).
    apply invariant_after. now apply reachable_invariant. }
  destruct Hinv as (_ & _ & _ & Hflags).
  destruct (add_marks _ _ _ _ _ _ _ _ Hadd) as (k & Hk & Hdones).
  assert (Hin : List.In s_one (dones self'))
    by (rewrite Hdones; now apply update_In).
  rewrite full_run. cbn [fst].
  destruct (capacity self' <=? __len__ self'); [reflexivity|].
  destruct (max_flags (dones self') Hflags) as (m & -> & Hm).
  { intros Hnil. rewrite Hnil in Hin. contradiction. }
  f_equal. now apply Hm.
Qed.

Lemma done_step_fills_witness :
  let self := construct 3 (Scenario.rational 9 10) 2 in
  fst (full (snd (perform (Scenario.step 1 true) self))) = Ok true.
Proof.
  cbv zeta.
  refine (done_step_fills (construct 3 (Scenario.rational 9 10) 2) _
            (Scenario.rational 1 1) (Scenario.rational 10 1) (Scenario.rational 100 1)
            (Scenario.rational 0 1) (Scenario.rational 0 1) _ _).
  - apply (reachable_init 3 (Scenario.rational 9 10) 2 "MC"). vm_compute. reflexivity.
  - vm_compute. reflexivity.
Defined.

(** ** Filling a constructed buffer *)

Section FillFacts.
Context {A : Type} `{Flags A}.
Variables (buffer_size : Z) (g : A) (n_steps : Z) (s : string).
Hypothesis buffer_size_pos : 1 <= buffer_size.
Hypothesis n_steps_pos : 1 <= n_steps.

Let cap : nat := Z.to_nat (buffer_size + n_steps - 1).

Lemma update_repeat_same (v : A) (n k : nat) :
  Py.update (List.repeat v n) k v = List.repeat v n.
Proof.
  revert k. induction n as [|n IH]; intros [|k]; simpl; try reflexivity.
  now rewrite IH.
Qed.

Lemma update_after_map {B : Type} (f : B -> A) (steps : list B) (pad v : A) (m : nat) :
  Py.update (List.map f steps ++ List.repeat pad (S m)) (List.length steps) v
  = (List.map f steps ++ [v]) ++ List.repeat pad m.
Proof.
  rewrite <- (List.length_map f steps). apply update_after_prefix.
Qed.

Lemma max_zeros (n : nat) : Py.max (List.repeat (s_zero : A) (S n)) = Ok s_zero.
Proof.
  simpl. f_equal. induction n as [|n IH]; simpl; [reflexivity|].
  now rewrite zero_lt_zero.
Qed.

Lemma filled_at_capacity steps :
  (List.length steps <= cap)%nat ->
  at_capacity (filled buffer_size g n_steps s steps).
Proof.
  intros Hlen. unfold at_capacity, capacity, Py.len, filled. cbn. fold cap.
  rewrite !List.length_app, !List.length_map, !List.repeat_length.
  subst cap. repeat split; lia.
Qed.

Lemma filled_not_full steps :
  (List.length steps < cap)%nat ->
  fst (full (filled buffer_size g n_steps s steps)) = Ok false.
Proof.
  intros Hlen. rewrite full_run. unfold capacity, filled. cbn. fold cap.
  replace (buffer_size + n_steps - 1 <=? Z.of_nat (List.length steps)) with false
    by (symmetry; apply Z.leb_gt; subst cap; lia).
  destruct cap as [|n] eqn:Hcap; [lia|].
  rewrite max_zeros. now rewrite zero_eq_one.
Qed.

Lemma convert_fits (x : A) :
  s_fits32 x = true -> convert torch_float32 x = Ok (s_round32 x).
Proof. intros Hfit. unfold convert. now rewrite Hfit. Qed.

(** One more step, done or not. *)
Lemma filled_snoc_any steps (r : A) (d : bool) (v lp e kl : A) :
  (List.length steps < cap)%nat ->
  fits_step (r, v, lp, e, kl) = true ->
  after (Add r d v lp e kl) (filled buffer_size g n_steps s steps)
  = set_dones (Py.update (List.repeat s_zero cap) (List.length steps) (of_bool d))
      (filled buffer_size g n_steps s (steps ++ [stored_step (r, v, lp, e, kl)])).
Proof using All.
  intros Hlen Hfit. unfold after, perform.
  cbn [fits_step] in Hfit. apply andb_true_iff in Hfit as [Hfit He].
  apply andb_true_iff in Hfit as [Hv Hlp].
  rewrite (add_run _ r d v lp e kl (s_round32 v) (s_round32 lp) (s_round32 e));
    [|apply filled_at_capacity; lia|unfold filled; cbn; lia|now apply filled_not_full
     |now apply convert_fits|now apply convert_fits|now apply convert_fits].
  unfold filled, set_dones, stored_step. cbn. fold cap.
  rewrite Nat2Z.id, List.length_app, !List.map_app. cbn.
  replace (cap - List.length steps)%nat with (S (cap - (List.length steps + 1))) by lia.
  replace (Z.of_nat (List.length steps) + 1) with (Z.of_nat (List.length steps + 1)) by lia.
  now rewrite !update_after_map.
Qed.

Lemma filled_snoc steps (r v lp e kl : A) :
  (List.length steps < cap)%nat ->
  fits_step (r, v, lp, e, kl) = true ->
  after (Add r false v lp e kl) (filled buffer_size g n_steps s steps)
  = filled buffer_size g n_steps s (steps ++ [stored_step (r, v, lp, e, kl)]).
Proof using All.
  intros Hlen Hfit. rewrite filled_snoc_any by assumption.
  cbn [of_bool]. rewrite update_repeat_same.
  unfold filled, set_dones. cbn. reflexivity.
Qed.

Lemma after_all_filled (steps : list (A * A * A * A * A)) :
  (List.length steps <= cap)%nat ->
  List.Forall (fun step => fits_step step = true) steps ->
  after_all (List.map (fun '(r, v, lp, e, kl) => Add r false v lp e kl) steps)
    (filled buffer_size g n_steps s [])
  = filled buffer_size g n_steps s (List.map stored_step steps).
Proof using All.
  induction steps as [|[[[[r v] lp] e] kl] steps IH] using List.rev_ind;
    intros Hlen Hfit; [reflexivity|].
  rewrite List.length_app in Hlen. simpl in Hlen.
  apply List.Forall_app in Hfit as [Hfit Hlast].
  inversion Hlast as [|step rest Hstep _]; subst.
  unfold after_all in *. rewrite !List.map_app, List.fold_left_app.
  cbn [List.map List.fold_left].
  rewrite IH by (assumption || lia).
  apply filled_snoc; [rewrite List.length_map; lia|exact Hstep].
Qed.

Lemma init_filled (self : RolloutBuffer A) :
  __init__ buffer_size g n_steps s = Ok self ->
  self = filled buffer_size g n_steps s [].
Proof.
  intros Hinit. apply init_run in Hinit as (_ & _ & _ & ->).
  unfold filled. cbn. subst cap. now rewrite Nat.sub_0_r.
Qed.
End FillFacts.

(** X4.  A constructed buffer takes as many steps without a done flag as
    its capacity [buffer_size + n_steps - 1], provided the float32 tensors
    accept every value, log-probability and entropy: every [add] returns,
    the reward and divergence columns hold what was given and the value,
    log-probability and entropy columns what was given rounded to
    binary32, in order and followed by zeros, the cursor counts the
    steps, and [full] returns true exactly when the capacity is reached. *)
Theorem fill_constructed {A : Type} `{Flags A}
    (buffer_size : Z) (g : A) (n_steps : Z) (s : string) (self : RolloutBuffer A)
    (steps : list (A * A * A * A * A)) :
  __init__ buffer_size g n_steps s = Ok self ->
  Z.of_nat (List.length steps) <= buffer_size + n_steps - 1 ->
  List.Forall (fun step => fits_step step = true) steps ->
  let self' :=
    after_all (List.map (fun '(r, v, lp, e, kl) => Add r false v lp e kl) steps) self in
  let pad :=
    List.repeat s_zero (Z.to_nat (buffer_size + n_steps - 1) - List.length steps) in
  __len__ self' = Z.of_nat (List.length steps) /\
  rewards self' = List.map (fun '(r, _, _, _, _) => r) steps ++ pad /\
  values self' = List.map (fun '(_, v, _, _, _) => s_round32 v) steps ++ pad /\
  log_probs self' = List.map (fun '(_, _, lp, _, _) => s_round32 lp) steps ++ pad /\
  entropies self' = List.map (fun '(_, _, _, e, _) => s_round32 e) steps ++ pad /\
  KL_divergences self' = List.map (fun '(_, _, _, _, kl) => kl) steps ++ pad /\
  dones self' = List.repeat s_zero (Z.to_nat (buffer_size + n_steps - 1)) /\
  at_capacity self' /\
  fst (full self') = Ok (buffer_size + n_steps - 1 <=? Z.of_nat (List.length steps)).
Proof.
  intros Hinit Hlen Hfit. cbv zeta.
  pose proof (init_run _ _ _ _ _ Hinit) as (Hb & Hn & _ & _).
  rewrite (init_filled buffer_size g n_steps s self Hinit).
  rewrite (after_all_filled buffer_size g n_steps s Hb Hn steps) by (assumption || lia).
  assert (Hcap : at_capacity (filled buffer_size g n_steps s (List.map stored_step steps)))
    by (apply filled_at_capacity; try assumption; rewrite List.length_map; lia).
  unfold filled at 1 2 3 4 5 6 7.
  cbn [__len__ rewards values log_probs entropies KL_divergences dones].
  rewrite !List.map_map, List.length_map.
  repeat split; try apply Hcap.
  - f_equal. apply List.map_ext. now intros [[[[r v] lp] e] kl].
  - f_equal. apply List.map_ext. now intros [[[[r v] lp] e] kl].
  - f_equal. apply List.map_ext. now intros [[[[r v] lp] e] kl].
  - f_equal. apply List.map_ext. now intros [[[[r v] lp] e] kl].
  - f_equal. apply List.map_ext. now intros [[[[r v] lp] e] kl].
  - destruct (buffer_size + n_steps - 1 <=? Z.of_nat (List.length steps)) eqn:Hroom.
    + rewrite full_run. unfold capacity, filled. cbn. rewrite List.length_map.
      now rewrite Hroom.
    + apply Z.leb_gt in Hroom.
      apply (filled_not_full buffer_size g n_steps s);
        [assumption|assumption|rewrite List.length_map; lia].
Qed.

(** In binary64, on the fresh buffer with [buffer_size = 2] and
    [n_steps = 1]: one step with the value [0.1]. *)
Lemma fill_constructed_witness :
  let steps := [(1%float, Sample.tenth, 0%float, 0%float, 0%float)] in
  let self' :=
    after_all (List.map (fun '(r, v, lp, e, kl) => Add r false v lp e kl) steps)
      Sample.fresh_binary64 in
  __len__ self' = 1 /\
  values self' = [Sample.tenth_float32; 0%float] /\
  fst (full self') = Ok false.
Proof.
  cbv zeta.
  pose proof (@fill_constructed float binary64 binary64_flags 2 0.5%float 1 "MC"
                Sample.fresh_binary64
                [(1%float, Sample.tenth, 0%float, 0%float, 0%float)]
                ltac:(reflexivity) ltac:(vm_compute; discriminate)
                ltac:(repeat constructor)) as Hfill.
  cbv zeta in Hfill. repeat split; apply Hfill.
Defined.

(** ** Monte-Carlo mode *)

Section MonteCarloFacts.
Context {A : Type} `{Scalar A}.

Lemma torch_sub_same_length (xs ys : list A) :
  List.length xs = List.length ys ->
  Py.torch_sub xs ys
  = Ok (List.map (fun p => s_sub (fst p) (snd p)) (List.combine xs ys)).
Proof. intros Hlen. unfold Py.torch_sub. now rewrite Hlen, Nat.eqb_refl. Qed.

Lemma torch_sub_nth (xs ys : list A) (i : nat) :
  List.length xs = List.length ys -> (i < List.length xs)%nat ->
  List.nth i (List.map (fun p => s_sub (fst p) (snd p)) (List.combine xs ys)) s_zero
  = s_sub (List.nth i xs s_zero) (List.nth i ys s_zero).
Proof.
  intros Hlen Hi.
  set (f := fun p : A * A => s_sub (fst p) (snd p)).
  rewrite (List.nth_indep _ s_zero (f (s_zero, s_zero)))
    by (rewrite List.length_map, List.length_combine; lia).
  rewrite (List.map_nth f), List.combine_nth by exact Hlen. reflexivity.
Qed.

Lemma slice_to_cursor (xs : list A) (l : Z) :
  0 <= l <= Py.len xs ->
  Py.slice_to xs l = List.firstn (Z.to_nat l) xs /\ Py.len (Py.slice_to xs l) = l.
Proof.
  intros Hl. unfold Py.len in *.
  replace l with (Z.of_nat (Z.to_nat l)) at 1 3 by lia.
  rewrite slice_to_in_range by lia. split; [reflexivity|].
  rewrite List.length_firstn. lia.
Qed.

(** The state [update_advantages] leaves in Monte-Carlo mode when the
    recurrence is not selected and the values are a tensor. *)
Lemma update_advantages_MC_run (self : RolloutBuffer A) (last_val : option A) (fast : bool) :
  (2 <? _n_steps self) && fast = false ->
  values_dtype self = torch_float32 ->
  Py.len (rewards self) = Py.len (values self) ->
  let G := compute_MC_returns (rewards self) (gamma self) in
  let adv := List.map (fun p => s_sub (fst p) (snd p)) (List.combine G (values self)) in
  update_advantages last_val fast true self
  = (Ok tt,
     set_log_probs (Py.slice_to (log_probs self) (__len__ self))
       (set_advantages (Some (Py.slice_to adv (__len__ self)))
          (set_returns (Some G) self))).
Proof.
  intros Hsel Htorch Hlen. cbv zeta.
  unfold update_advantages, compute_MC_advantages. run_method self.
  rewrite Hsel, Htorch.
  rewrite torch_sub_same_length
    by (rewrite compute_MC_returns_length; unfold Py.len in Hlen; lia).
  reflexivity.
Qed.

(** ... and when they are a numpy array, which [torch.sub] refuses. *)
Lemma update_advantages_MC_numpy (self : RolloutBuffer A) (last_val : option A)
    (fast : bool) :
  (2 <? _n_steps self) && fast = false ->
  values_dtype self = numpy_float64 ->
  update_advantages last_val fast true self
  = (Raise TypeError,
     set_returns (Some (compute_MC_returns (rewards self) (gamma self))) self).
Proof.
  intros Hsel Hnumpy.
  unfold update_advantages, compute_MC_advantages. run_method self.
  rewrite Hsel, Hnumpy. reflexivity.
Qed.
End MonteCarloFacts.

(** X5.  In Monte-Carlo mode, when the recurrence is not selected
    ([n_steps <= 2] or [fast] false), on a buffer whose columns have
    capacity length and whose cursor lies within the capacity,
    [update_advantages] stores the Monte-Carlo returns of the whole reward
    column.  When the values are a tensor, as after [reset()], it then
    returns: there are exactly [__len__] advantages,
    [advantage[i] = return[i] - value[i]], and the log-probability column
    is cut to its first [__len__] entries.  When the values are a numpy
    array, as after [clean()], it raises [TypeError] instead, and has
    changed nothing but the returns. *)
Theorem monte_carlo_advantages {A : Type} `{Scalar A}
    (self : RolloutBuffer A) (last_val : option A) (fast : bool) :
  (2 <? _n_steps self) && fast = false ->
  at_capacity self ->
  0 <= __len__ self <= capacity self ->
  let out := update_advantages last_val fast true self in
  let G := compute_MC_returns (rewards self) (gamma self) in
  _returns (snd out) = Some G /\
  Py.len G = capacity self /\
  match values_dtype self with
  | torch_float32 =>
      exists adv : list A,
        fst out = Ok tt /\
        advantages (snd out) = Some adv /\
        Py.len adv = __len__ self /\
        (forall i : nat, Z.of_nat i < __len__ self ->
           List.nth i adv s_zero
           = (List.nth i G s_zero - List.nth i (values self) s_zero)%sc) /\
        log_probs (snd out) = List.firstn (Z.to_nat (__len__ self)) (log_probs self) /\
        Py.len (log_probs (snd out)) = __len__ self
  | numpy_float64 =>
      fst out = Raise TypeError /\ snd out = set_returns (Some G) self
  end.
Proof.
  intros Hsel (Hr & _ & _ & Hv & Hlp & _) Hlen. cbv zeta.
  set (G := compute_MC_returns (rewards self) (gamma self)).
  assert (HG : List.length G = List.length (values self)).
  { unfold G. rewrite compute_MC_returns_length. unfold Py.len in *. lia. }
  assert (HGlen : Py.len G = capacity self) by (unfold Py.len in *; lia).
  destruct (values_dtype self) eqn:Hdtype.
  - rewrite (update_advantages_MC_run self last_val fast Hsel Hdtype) by congruence.
    cbv zeta. fold G.
    set (adv := List.map _ (List.combine G (values self))).
    assert (Hadv : Py.len adv = capacity self).
    { unfold adv, Py.len in *. rewrite List.length_map, List.length_combine. lia. }
    destruct (slice_to_cursor adv (__len__ self)) as [Eadv Ladv]; [lia|].
    destruct (slice_to_cursor (log_probs self) (__len__ self)) as [Elp Llp]; [lia|].
    cbn. split; [reflexivity|]. split; [exact HGlen|].
    exists (Py.slice_to adv (__len__ self)).
    repeat split; try assumption.
    intros i Hi. rewrite Eadv.
    rewrite List.nth_firstn.
    replace (i <? Z.to_nat (__len__ self))%nat with true
      by (symmetry; apply Nat.ltb_lt; lia).
    apply torch_sub_nth; [exact HG|]. unfold Py.len in *. lia.
  - rewrite (update_advantages_MC_numpy self last_val fast Hsel Hdtype). fold G.
    cbn. repeat split. exact HGlen.
Qed.

Lemma monte_carlo_advantages_witness :
  let self := Scenario.episode_2_1 in
  let out := update_advantages None true true self in
  fst out = Ok tt /\
  option_map (List.map this) (advantages (snd out)) = Some [- 9 # 1]%Q.
Proof.
  cbv zeta.
  destruct (@monte_carlo_advantages Qc exact Scenario.episode_2_1 None true
              ltac:(reflexivity) ltac:(repeat split)
              ltac:(split; vm_compute; discriminate))
    as (_ & _ & adv & Hrun & _).
  split; [exact Hrun|]. vm_compute. reflexivity.
Defined.

(** After [clean()] the values are a numpy array: on the buffer with
    [buffer_size = 3] and [n_steps = 2], cleaned when full,
    [update_advantages(MC=True)] raises [TypeError]. *)
Example clean_then_monte_carlo_raises :
  fst (update_advantages None true true (after Clean Scenario.window_3_2))
  = Raise TypeError.
Proof. reflexivity. Qed.

(** ** Zero padding *)

Lemma compute_MC_returns_zeros (gamma : Qc) (k : nat) :
  compute_MC_returns (List.repeat 0%Qc k) gamma = List.repeat 0%Qc k.
Proof.
  induction k as [|k IH]; [reflexivity|].
  cbn [List.repeat]. rewrite compute_MC_returns_cons, IH. f_equal.
  destruct k; simpl; ring.
Qed.

(** A tail whose own first return is zero leaves the returns before it
    as they are. *)
Lemma compute_MC_returns_app (rewards tail : list Qc) (gamma : Qc) :
  List.hd 0%Qc (compute_MC_returns tail gamma) = 0%Qc ->
  compute_MC_returns (rewards ++ tail) gamma
  = compute_MC_returns rewards gamma ++ compute_MC_returns tail gamma.
Proof.
  intros Htail. induction rewards as [|r rewards IH]; [reflexivity|].
  cbn [List.app]. rewrite !compute_MC_returns_cons, IH. cbn [List.app].
  f_equal. f_equal. f_equal.
  destruct rewards as [|r' rewards].
  - exact Htail.
  - rewrite compute_MC_returns_cons. reflexivity.
Qed.

Lemma compute_MC_returns_zeros_hd (gamma : Qc) (k : nat) :
  List.hd 0%Qc (compute_MC_returns (List.repeat 0%Qc k) gamma) = 0%Qc.
Proof. rewrite compute_MC_returns_zeros. now destruct k. Qed.

(** X6.  In exact arithmetic, zero rewards after an episode do not change
    its Monte-Carlo returns: the returns of the rewards followed by [k]
    zeros are the returns of the rewards, followed by [k] zeros. *)
Theorem compute_MC_returns_padding (rewards : list Qc) (gamma : Qc) (k : nat) :
  compute_MC_returns (rewards ++ List.repeat 0%Qc k) gamma
  = compute_MC_returns rewards gamma ++ List.repeat 0%Qc k.
Proof.
  rewrite compute_MC_returns_app by apply compute_MC_returns_zeros_hd.
  f_equal. apply compute_MC_returns_zeros.
Qed.

(** ** Draining *)

Section DrainFacts.
Context {X : Type}.

Lemma yield_each_ok (elt : Z -> result X) (f : nat -> X) (k : nat) :
  forall (j : nat) (rest : list Z),
  (forall i : nat, (j <= i < j + k)%nat -> elt (Z.of_nat i) = Ok (f i)) ->
  yield_each elt (List.map Z.of_nat (List.seq j k) ++ rest)
  = (List.map f (List.seq j k) ++ fst (yield_each elt rest),
     snd (yield_each elt rest)).
Proof.
  induction k as [|k IH]; intros j rest Helt.
  - simpl. now destruct (yield_each elt rest).
  - cbn [List.seq List.map List.app yield_each].
    rewrite (Helt j) by lia.
    rewrite (IH (S j) rest) by (intros i Hi; apply Helt; lia).
    reflexivity.
Qed.

Lemma yield_each_all (elt : Z -> result X) (f : nat -> X) (k : nat) :
  (forall i : nat, (i < k)%nat -> elt (Z.of_nat i) = Ok (f i)) ->
  yield_each elt (List.map Z.of_nat (List.seq 0 k)) = (List.map f (List.seq 0 k), None).
Proof.
  intros Helt.
  pose proof (yield_each_ok elt f k 0 [] ltac:(intros i Hi; apply Helt; lia)) as Hrun.
  rewrite !List.app_nil_r in Hrun. exact Hrun.
Qed.

Lemma yield_each_until (elt : Z -> result X) (f : nat -> X) (m n : nat) (e : exn) :
  (m < n)%nat ->
  (forall i : nat, (i < m)%nat -> elt (Z.of_nat i) = Ok (f i)) ->
  elt (Z.of_nat m) = Raise e ->
  yield_each elt (List.map Z.of_nat (List.seq 0 n)) = (List.map f (List.seq 0 m), Some e).
Proof.
  intros Hmn Helt Hraise.
  replace n with (m + S (n - m - 1))%nat by lia.
  rewrite List.seq_app, List.map_app.
  rewrite (yield_each_ok elt f m 0) by (intros i Hi; apply Helt; lia).
  cbn [List.seq List.map yield_each Nat.add]. rewrite Hraise. cbn.
  now rewrite List.app_nil_r.
Qed.
End DrainFacts.

(** What [get_steps_list] yields once advantages are there. *)
Lemma get_steps_list_run {A : Type} `{Scalar A} (self : RolloutBuffer A) (adv : list A) :
  advantages self = Some adv ->
  let m :=
    Nat.min (List.length adv)
      (Nat.min (List.length (log_probs self))
         (Nat.min (List.length (entropies self))
            (List.length (KL_divergences self)))) in
  get_steps_list self
  = (List.map
       (fun i => (List.nth i adv s_zero, List.nth i (log_probs self) s_zero,
                  List.nth i (entropies self) s_zero,
                  List.nth i (KL_divergences self) s_zero))
       (List.seq 0 m),
     if (m <? List.length adv)%nat then Some IndexError else None).
Proof.
  intros Hadv. unfold get_steps_list. rewrite Hadv. cbv zeta.
  set (m := Nat.min _ _).
  set (tuple := fun i : nat => _).
  set (elt := fun i : Z => _).
  assert (Hok : forall i : nat, (i < m)%nat -> elt (Z.of_nat i) = Ok (tuple i)).
  { intros i Hi. unfold elt, tuple.
    rewrite (getitem_in_range adv i s_zero) by lia.
    rewrite (getitem_in_range (log_probs self) i s_zero) by lia.
    rewrite (getitem_in_range (entropies self) i s_zero) by lia.
    rewrite (getitem_in_range (KL_divergences self) i s_zero) by lia.
    reflexivity. }
  unfold Py.range, Py.len. rewrite Nat2Z.id.
  destruct (m <? List.length adv)%nat eqn:Hshort.
  - apply Nat.ltb_lt in Hshort.
    apply yield_each_until; [exact Hshort|exact Hok|].
    unfold elt. rewrite (getitem_in_range adv m s_zero) by lia. cbn [rbind].
    destruct (Nat.le_gt_cases (List.length (log_probs self)) m) as [Hlp|Hlp].
    { now rewrite getitem_out_of_range. }
    rewrite (getitem_in_range (log_probs self) m s_zero) by lia. cbn [rbind].
    destruct (Nat.le_gt_cases (List.length (entropies self)) m) as [Hen|Hen].
    { now rewrite getitem_out_of_range. }
    rewrite (getitem_in_range (entropies self) m s_zero) by lia. cbn [rbind].
    rewrite getitem_out_of_range by lia. reflexivity.
  - apply Nat.ltb_ge in Hshort.
    replace (List.length adv) with m by lia.
    now apply yield_each_all.
Qed.

(** X7.  [get_steps_list] raises [TypeError] at once when no advantages
    have been computed.  Otherwise it yields the tuples
    [(advantages[i], log_probs[i], entropies[i], KL_divergences[i])] in
    order for every [i] below the shortest of the four lengths, and then
    ends normally if that is the number of advantages, with [IndexError]
    if one of the three columns is shorter than the advantages. *)
Theorem get_steps_list_yields {A : Type} `{Scalar A} (self : RolloutBuffer A) :
  get_steps_list self
  = match advantages self with
    | None => ([], Some TypeError)
    | Some adv =>
        let m :=
          Nat.min (List.length adv)
            (Nat.min (List.length (log_probs self))
               (Nat.min (List.length (entropies self))
                  (List.length (KL_divergences self)))) in
        (List.map
           (fun i => (List.nth i adv s_zero, List.nth i (log_probs self) s_zero,
                      List.nth i (entropies self) s_zero,
                      List.nth i (KL_divergences self) s_zero))
           (List.seq 0 m),
         if (m <? List.length adv)%nat then Some IndexError else None)
    end.
Proof.
  destruct (advantages self) as [adv|] eqn:Hadv.
  - now apply get_steps_list_run.
  - unfold get_steps_list. now rewrite Hadv.
Qed.

Section NStepDrain.
Context {A : Type} `{Scalar A}.

(** The state [update_advantages] leaves in n-step mode. *)
Lemma n_step_update_run (self : RolloutBuffer A) (last_val : A) (fast : bool) :
  1 <= _buffer_size self -> 1 <= _n_steps self -> at_capacity self ->
  exists returns adv : list A,
    update_advantages (Some last_val) fast false self
    = (Ok tt, set_advantages (Some adv) (set_returns (Some returns) self)) /\
    Py.len adv = _buffer_size self.
Proof.
  intros Hb Hn (Hr & Hd & _ & Hv & _ & _).
  assert (Hreturns : exists returns,
            (if (2 <? _n_steps self) && fast
             then compute_returns (rewards self) (gamma self)
                    (_buffer_size self) (_n_steps self)
             else Ok (compute_all_n_step_returns (rewards self) (gamma self)
                        (_buffer_size self) (_n_steps self)))
            = Ok returns /\ Py.len returns = _buffer_size self).
  { destruct ((2 <? _n_steps self) && fast).
    - apply compute_returns_length; [exact Hn|exact Hb|]. rewrite Hr.
      unfold capacity. lia.
    - eexists. split; [reflexivity|].
      apply compute_all_n_step_returns_length. lia. }
  destruct Hreturns as (returns & Hrun & Hlen).
  destruct (compute_advantages_n_step returns (values self) (dones self)
              (gamma self) last_val (_buffer_size self) (_n_steps self))
    as (adv & Hadv & Hlen' & _); try assumption; try lia.
  { rewrite Hd. unfold capacity. lia. }
  exists returns, adv. split; [|exact Hlen'].
  unfold update_advantages. run_method self.
  destruct ((2 <? n_) && fast).
  - rewrite Hrun, Hadv. reflexivity.
  - injection Hrun as Hrun. rewrite Hrun, Hadv. reflexivity.
Qed.
End NStepDrain.

(** X8.  After [update_advantages] in n-step mode on a buffer whose
    columns have capacity length, [get_steps_list] yields exactly
    [buffer_size] tuples, the advantage at [i] with the log-probability,
    entropy and divergence stored at [i], and ends normally. *)
Theorem drain_n_step {A : Type} `{Scalar A}
    (self : RolloutBuffer A) (last_val : A) (fast : bool) :
  1 <= _buffer_size self -> 1 <= _n_steps self -> at_capacity self ->
  let self' := snd (update_advantages (Some last_val) fast false self) in
  exists adv : list A,
    advantages self' = Some adv /\
    get_steps_list self'
    = (List.map
         (fun i => (List.nth i adv s_zero, List.nth i (log_probs self) s_zero,
                    List.nth i (entropies self) s_zero,
                    List.nth i (KL_divergences self) s_zero))
         (List.seq 0 (Z.to_nat (_buffer_size self))),
       None).
Proof.
  intros Hb Hn Hcap. cbv zeta.
  destruct (n_step_update_run self last_val fast Hb Hn Hcap)
    as (returns & adv & -> & Hlen).
  exists adv. split; [reflexivity|].
  rewrite (get_steps_list_run _ adv) by reflexivity. cbn.
  destruct Hcap as (_ & _ & Hk & _ & Hlp & He).
  unfold Py.len, capacity in *.
  rewrite Nat.min_l by lia.
  assert (Hirr : forall n : nat,
             match n with 0%nat => false | S m' => (n <=? m')%nat end = false)
    by (intros [|n]; [reflexivity | apply Nat.leb_gt; lia]).
  rewrite Hirr.
  replace (List.length adv) with (Z.to_nat (_buffer_size self)) by lia.
  reflexivity.
Qed.

Lemma drain_n_step_witness :
  snd (get_steps_list
         (snd (update_advantages (Some (Scenario.rational 1 1)) true false
                 Scenario.window_2_3)))
  = None.
Proof.
  pose proof (@drain_n_step Qc exact Scenario.window_2_3 (Scenario.rational 1 1) true
                ltac:(vm_compute; discriminate) ltac:(vm_compute; discriminate)
                ltac:(repeat split)) as Hdrain.
  cbv zeta in Hdrain. destruct Hdrain as (adv & _ & Hdrain).
  rewrite Hdrain. reflexivity.
Defined.

(** ** The estimators against each other *)

Section Suffixes.
Context {A : Type} `{Scalar A}.
Local Open Scope scalar_scope.

(** The first Monte-Carlo return is the return of the whole sequence. *)
Lemma compute_MC_returns_hd (rs : list A) (gamma : A) :
  List.hd s_zero (compute_MC_returns rs gamma) = compute_n_step_return rs gamma.
Proof.
  induction rs as [|r rs IH]; [reflexivity|].
  rewrite compute_MC_returns_cons, compute_n_step_return_cons. simpl.
  now rewrite IH.
Qed.

(** The Monte-Carlo returns are the returns of the suffixes. *)
Lemma compute_MC_returns_as_suffixes (rs : list A) (gamma : A) :
  compute_MC_returns rs gamma
  = List.map (fun i => compute_n_step_return (List.skipn i rs) gamma)
      (List.seq 0 (List.length rs)).
Proof.
  induction rs as [|r rs IH]; [reflexivity|].
  rewrite compute_MC_returns_cons, compute_MC_returns_hd.
  cbn [List.length List.seq List.map List.skipn].
  rewrite compute_n_step_return_cons. f_equal.
  rewrite <- List.seq_shift, List.map_map. exact IH.
Qed.

(** A window that reaches the end of the rewards is a suffix. *)
Lemma slice_to_end (rs : list A) (j : nat) (n_steps : Z) :
  Py.len rs <= Z.of_nat j + n_steps -> (j <= List.length rs)%nat ->
  Py.slice rs (Z.of_nat j) (Z.min (Z.of_nat j + n_steps) (Py.len rs))
  = List.skipn j rs.
Proof.
  intros Hn Hj. rewrite Z.min_r by lia. unfold Py.len.
  rewrite slice_in_range by lia.
  apply List.firstn_all2. rewrite List.length_skipn. lia.
Qed.

(** A window that starts past the end of the rewards is empty. *)
Lemma slice_past_end (rs : list A) (j : nat) (n_steps : Z) :
  0 <= n_steps -> (List.length rs <= j)%nat ->
  Py.slice rs (Z.of_nat j) (Z.min (Z.of_nat j + n_steps) (Py.len rs)) = [].
Proof.
  intros Hn Hj. rewrite Z.min_r by (unfold Py.len; lia).
  unfold Py.slice, Py.bound, Py.len.
  replace (Z.of_nat (List.length rs) <? 0) with false by (symmetry; apply Z.ltb_ge; lia).
  replace (Z.of_nat j <? 0) with false by (symmetry; apply Z.ltb_ge; lia).
  rewrite Z.min_id, Z.min_r by lia. rewrite Nat2Z.id, Nat.sub_diag. reflexivity.
Qed.
End Suffixes.

(** X9.  Each Monte-Carlo return is the discounted return of the rewards
    from its position on, as [compute_n_step_return] computes it: the two
    loops give the same value, in any arithmetic. *)
Theorem compute_MC_returns_suffix {A : Type} `{Scalar A}
    (rewards : list A) (gamma : A) (i : nat) :
  (i < List.length rewards)%nat ->
  List.nth i (compute_MC_returns rewards gamma) s_zero
  = compute_n_step_return (List.skipn i rewards) gamma.
Proof.
  intros Hi. rewrite compute_MC_returns_as_suffixes.
  rewrite (List.nth_indep _ s_zero
             (compute_n_step_return (List.skipn 0 rewards) gamma))
    by (rewrite List.length_map, List.length_seq; exact Hi).
  rewrite (List.map_nth (fun i => compute_n_step_return (List.skipn i rewards) gamma)).
  now rewrite List.seq_nth.
Qed.

Lemma compute_MC_returns_suffix_witness :
  List.nth 1 (compute_MC_returns Sample.rewards_123 (Scenario.rational 1 2)) s_zero
  = compute_n_step_return (List.skipn 1 Sample.rewards_123) (Scenario.rational 1 2).
Proof.
  apply (compute_MC_returns_suffix Sample.rewards_123 (Scenario.rational 1 2) 1).
  simpl. lia.
Defined.

(** X10.  With a window at least as long as the reward sequence, the
    direct n-step returns of all positions are the Monte-Carlo returns;
    positions past the end of the rewards get the return zero. *)
Theorem compute_all_n_step_returns_long_window {A : Type} `{Scalar A}
    (rewards : list A) (gamma : A) (n_steps : Z) (extra : nat) :
  Py.len rewards <= n_steps ->
  compute_all_n_step_returns rewards gamma (Py.len rewards + Z.of_nat extra) n_steps
  = compute_MC_returns rewards gamma ++ List.repeat s_zero extra.
Proof.
  intros Hn. unfold compute_all_n_step_returns.
  replace (Py.len rewards + Z.of_nat extra)
    with (Z.of_nat (List.length rewards + extra)) by (unfold Py.len; lia).
  rewrite range_of_nat, List.seq_app, !List.map_app, !List.map_map. f_equal.
  - rewrite compute_MC_returns_as_suffixes. apply List.map_ext_in.
    intros j Hj. apply List.in_seq in Hj.
    rewrite slice_to_end by lia. reflexivity.
  - cbn [Nat.add].
    rewrite (List.map_ext_in _ (fun _ => s_zero)).
    + now rewrite List.map_const, List.length_seq.
    + intros j Hj. apply List.in_seq in Hj.
      rewrite slice_past_end by (unfold Py.len in Hn; lia). reflexivity.
Qed.

Lemma compute_all_n_step_returns_long_window_witness :
  compute_all_n_step_returns Sample.rewards_123 (Scenario.rational 1 2) (3 + 2) 4
  = compute_MC_returns Sample.rewards_123 (Scenario.rational 1 2) ++ [s_zero; s_zero].
Proof.
  apply (compute_all_n_step_returns_long_window Sample.rewards_123 (Scenario.rational 1 2) 4 2).
  vm_compute. discriminate.
Defined.

(** ** The closed form *)

Lemma discounted_sum_scales (gamma : Qc) (rs : list Qc) : forall k : nat,
  discounted_sum gamma k rs
  = (Qcpower gamma k * compute_n_step_return rs gamma)%Qc.
Proof.
  induction rs as [|r rs IH]; intros k.
  - rewrite compute_n_step_return_nil. simpl. change (Q2Qc 0) with 0%Qc. ring.
  - cbn [discounted_sum]. rewrite IH, compute_n_step_return_cons.
    simpl. ring.
Qed.

(** X11.  In exact arithmetic the loop of [compute_n_step_return] computes
    the discounted sum [r_0 + gamma r_1 + gamma^2 r_2 + ...] of the
    rewards it is given. *)
Theorem compute_n_step_return_discounted (rewards : list Qc) (gamma : Qc) :
  compute_n_step_return rewards gamma = discounted_sum gamma 0 rewards.
Proof.
  rewrite discounted_sum_scales. simpl. ring.
Qed.

(** X12.  In exact arithmetic, with [n_steps = 1] the direct n-step
    returns are the rewards themselves: the first [buffer_size] of them. *)
Theorem compute_all_n_step_returns_one_step
    (rewards : list Qc) (gamma : Qc) (buffer_size : Z) :
  0 <= buffer_size <= Py.len rewards ->
  compute_all_n_step_returns rewards gamma buffer_size 1
  = List.firstn (Z.to_nat buffer_size) rewards.
Proof.
  intros [Hb Hlen]. unfold compute_all_n_step_returns, Py.range. rewrite List.map_map.
  set (k := Z.to_nat buffer_size).
  assert (Hk : (k <= List.length rewards)%nat) by (unfold Py.len in Hlen; lia).
  clearbody k. clear Hb Hlen.
  transitivity (List.map (fun j => List.nth j rewards s_zero) (List.seq 0 k)).
  - apply List.map_ext_in. intros j Hj. apply List.in_seq in Hj.
    replace (Z.min (Z.of_nat j + 1) (Py.len rewards)) with (Z.of_nat (S j))
      by (unfold Py.len; lia).
    rewrite slice_in_range by lia.
    replace (S j - j)%nat with 1%nat by lia.
    rewrite (window_head rewards j 0 s_zero) by lia.
    rewrite List.firstn_0, compute_n_step_return_cons, compute_n_step_return_nil.
    simpl. change (Q2Qc 0) with 0%Qc. ring.
  - revert k Hk. induction rewards as [|r rewards IH]; intros k Hk.
    + simpl in Hk. replace k with 0%nat by lia. reflexivity.
    + destruct k as [|k]; [reflexivity|].
      cbn [List.seq List.map List.firstn List.nth]. f_equal.
      rewrite <- List.seq_shift, List.map_map. cbn [List.nth].
      apply IH. simpl in Hk. lia.
Qed.

Lemma compute_all_n_step_returns_one_step_witness :
  compute_all_n_step_returns Sample.rewards_123 (Scenario.rational 1 2) 2 1
  = List.firstn 2 Sample.rewards_123.
Proof.
  apply (compute_all_n_step_returns_one_step Sample.rewards_123 (Scenario.rational 1 2) 2).
  split; vm_compute; discriminate.
Defined.

(** ** The recurrence on a reward column that is too short *)

Section ShortRewards.
Context {A : Type} `{Scalar A}.
Variables (rewards : list A) (gamma : A) (n_steps : Z).
Hypothesis n_steps_pos : 1 <= n_steps.

Let body (returns : list A) (i : Z) : result (list A) :=
  (do last_return <- Py.getitem returns i ;;
   do R_0 <- Py.getitem rewards i ;;
   do R_N <- Py.getitem rewards (i + n_steps) ;;
   Ok (returns ++ [compute_next_return last_return R_0 R_N gamma (n_steps - 1)]))%res.

(** The iteration that looks past the end of the rewards raises. *)
Lemma recurrence_body_raises (j : nat) (returns : list A) :
  Py.len rewards <= Z.of_nat j + n_steps ->
  body returns (Z.of_nat j) = Raise IndexError.
Proof.
  intros Hend. unfold body, Py.len in *.
  destruct (Py.getitem returns (Z.of_nat j)) as [last_return|e] eqn:Hret.
  - cbn [rbind].
    destruct (Nat.le_gt_cases (List.length rewards) j) as [Hj|Hj].
    + now rewrite getitem_out_of_range.
    + rewrite (getitem_in_range rewards j s_zero) by lia. cbn [rbind].
      replace (Z.of_nat j + n_steps) with (Z.of_nat (j + Z.to_nat n_steps)) by lia.
      rewrite getitem_out_of_range by lia. reflexivity.
  - cbn [rbind]. unfold Py.getitem in Hret.
    destruct (Py.position returns (Z.of_nat j)); [|congruence].
    destruct (List.nth_error returns n); congruence.
Qed.

Lemma compute_returns_raises (buffer_size : Z) :
  2 <= buffer_size ->
  Py.len rewards < buffer_size + n_steps - 1 ->
  compute_returns rewards gamma buffer_size n_steps = Raise IndexError.
Proof.
  intros Hb Hshort. unfold compute_returns, Py.range.
  set (G_0 := compute_n_step_return _ gamma).
  change (for_each body (List.map Z.of_nat (List.seq 0 (Z.to_nat (buffer_size - 1)))) [G_0]
          = Raise IndexError).
  set (i0 := Z.to_nat (Py.len rewards - n_steps)).
  assert (Hi0 : (i0 < Z.to_nat (buffer_size - 1))%nat) by (unfold i0, Py.len in *; lia).
  replace (Z.to_nat (buffer_size - 1))
    with (i0 + S (Z.to_nat (buffer_size - 1) - S i0))%nat by lia.
  rewrite List.seq_app, List.map_app, for_each_app. cbn [Nat.add List.seq List.map].
  destruct (Z_le_gt_dec n_steps (Py.len rewards)) as [Hlong|Hlow].
  - destruct (recurrence_loop_length rewards gamma n_steps n_steps_pos i0 0 [G_0])
      as (returns' & Hrun & _); [reflexivity|unfold i0, Py.len in *; lia|].
    fold body in Hrun. rewrite Hrun. cbn [rbind for_each].
    rewrite recurrence_body_raises by (unfold i0, Py.len in *; lia). reflexivity.
  - replace i0 with 0%nat by (unfold i0; lia). cbn [List.seq List.map for_each rbind].
    rewrite (recurrence_body_raises 0) by (unfold Py.len in *; lia). reflexivity.
Qed.
End ShortRewards.

(** X13.  [compute_returns] needs the whole extended reward column: when
    at least two returns are asked for and there are fewer than
    [buffer_size + n_steps - 1] rewards, it raises [IndexError]. *)
Theorem compute_returns_short {A : Type} `{Scalar A}
    (rewards : list A) (gamma : A) (buffer_size n_steps : Z) :
  1 <= n_steps -> 2 <= buffer_size ->
  Py.len rewards < buffer_size + n_steps - 1 ->
  compute_returns rewards gamma buffer_size n_steps = Raise IndexError.
Proof.
  intros Hn Hb Hshort. now apply compute_returns_raises.
Qed.

Lemma compute_returns_short_witness :
  compute_returns
    Sample.rewards_123
    (Scenario.rational 1 2) 3 2
  = Raise IndexError.
Proof.
  apply compute_returns_short; [lia | lia | vm_compute; reflexivity].
Defined.

(** ** After [clear()] *)

Section AfterClear.
Context {A : Type} `{Scalar A}.

Lemma slice_from_length (xs : list A) (k : Z) :
  0 <= k <= Py.len xs -> Py.len (Py.slice_from xs k) = Py.len xs - k.
Proof.
  intros Hk. unfold Py.slice_from, Py.bound, Py.len in *.
  replace (k <? 0) with false by (symmetry; apply Z.ltb_ge; lia).
  rewrite List.length_skipn. lia.
Qed.

Lemma update_advantages_cleared (self : RolloutBuffer A) (last_val : option A) (fast : bool) :
  1 <= _buffer_size self -> 1 <= _n_steps self -> at_capacity self ->
  let cleared := after Clear self in
  update_advantages last_val fast false cleared
  = if (2 <? _n_steps self) && fast && (2 <=? _buffer_size self)
    then (Raise IndexError, cleared)
    else
      (Ok tt,
       set_advantages (Some [])
         (set_returns
            (Some (if (2 <? _n_steps self) && fast
                   then [compute_n_step_return (rewards cleared) (gamma self)]
                   else compute_all_n_step_returns (rewards cleared) (gamma self)
                          (_buffer_size self) (_n_steps self)))
            cleared)).
Proof.
  intros Hb Hn (Hr & _ & _ & Hv & _). cbv zeta.
  unfold after, perform. rewrite clear_run. cbv zeta. cbn [snd].
  pose proof (slice_from_length (rewards self) (_buffer_size self)) as Lr.
  pose proof (slice_from_length (values self) (_buffer_size self)) as Lv.
  unfold capacity in *.
  specialize (Lr ltac:(lia)). specialize (Lv ltac:(lia)).
  set (rs := Py.slice_from (rewards self) (_buffer_size self)) in *.
  set (vs := Py.slice_from (values self) (_buffer_size self)) in *.
  clearbody rs vs.
  unfold update_advantages. run_method self.
  destruct ((2 <? n_) && fast) eqn:Hsel; cbn [andb].
  - destruct (2 <=? b_) eqn:Hb2.
    + apply Z.leb_le in Hb2.
      rewrite compute_returns_raises by lia. reflexivity.
    + apply Z.leb_gt in Hb2. assert (b_ = 1) as -> by lia.
      unfold compute_returns. cbn [Py.range Z.sub Z.to_nat List.seq List.map for_each
                                    Z.add Z.opp Z.pos_sub].
      unfold compute_advantages.
      replace (0 <? n_) with true by (symmetry; apply Z.ltb_lt; lia).
      replace (Py.len vs - n_ + 1) with 0 by lia. cbn.
      replace (Py.slice rs 0 n_) with rs; [reflexivity|].
      unfold Py.slice, Py.bound. rewrite Lr. cbn.
      replace (n_ <? 0) with false by (symmetry; apply Z.ltb_ge; lia).
      rewrite Z.min_r by lia. rewrite (Z.min_l 0) by lia.
      cbn [Z.to_nat List.skipn]. rewrite Nat.sub_0_r.
      symmetry. apply List.firstn_all2. unfold Py.len in *. lia.
  - unfold compute_advantages.
    replace (0 <? n_) with true by (symmetry; apply Z.ltb_lt; lia).
    replace (Py.len vs - n_ + 1) with 0 by lia. reflexivity.
Qed.
End AfterClear.

(** X14.  After [clear()] on a buffer whose columns have capacity length
    there is nothing left to compute advantages for: in n-step mode
    [update_advantages] raises [IndexError] and leaves the buffer as
    [clear()] left it when the recurrence is selected and
    [buffer_size >= 2], and otherwise returns with an empty list of
    advantages, whatever [last_val] is. *)
Theorem update_advantages_after_clear {A : Type} `{Scalar A}
    (self : RolloutBuffer A) (last_val : option A) (fast : bool) :
  1 <= _buffer_size self -> 1 <= _n_steps self -> at_capacity self ->
  let cleared := after Clear self in
  let out := update_advantages last_val fast false cleared in
  if (2 <? _n_steps self) && fast && (2 <=? _buffer_size self)
  then out = (Raise IndexError, cleared)
  else fst out = Ok tt /\ advantages (snd out) = Some [] /\
       get_steps_list (snd out) = ([], None).
Proof.
  intros Hb Hn Hcap. cbv zeta.
  rewrite (update_advantages_cleared self last_val fast Hb Hn Hcap). cbv zeta.
  destruct ((2 <? _n_steps self) && fast && (2 <=? _buffer_size self));
    [reflexivity|].
  repeat split.
Qed.

Lemma update_advantages_after_clear_witness :
  let cleared := after Clear Scenario.window_2_3 in
  update_advantages (Some (Scenario.rational 1 1)) true false cleared
  = (Raise IndexError, cleared).
Proof.
  cbv zeta.
  exact (@update_advantages_after_clear Qc exact Scenario.window_2_3
           (Some (Scenario.rational 1 1)) true
           ltac:(vm_compute; discriminate) ltac:(vm_compute; discriminate)
           ltac:(repeat split)).
Defined.

(** ** The step memory *)

Section QueueFacts.
Context {X : Type}.
Implicit Types xs : list X.

(** Dropping the first element shifts every index from the front by one. *)
Lemma getitem_slice_from_1 xs (i : Z) :
  0 <= i -> Py.getitem (Py.slice_from xs 1) i = Py.getitem xs (i + 1).
Proof.
  intros Hi. destruct xs as [|x tl]; unfold Py.slice_from, Py.bound, Py.len.
  - cbn. unfold Py.getitem, Py.position, Py.len. cbn.
    replace (i <? 0) with false by (symmetry; apply Z.ltb_ge; lia).
    replace (i + 1 <? 0) with false by (symmetry; apply Z.ltb_ge; lia).
    rewrite !andb_false_r. reflexivity.
  - replace (Z.to_nat (Z.min 1 (Z.of_nat (List.length (x :: tl))))) with 1%nat
      by (cbn [List.length]; lia).
    cbn [Z.ltb Z.compare List.skipn].
    unfold Py.getitem, Py.position, Py.len. cbn [List.length].
    replace (i <? 0) with false by (symmetry; apply Z.ltb_ge; lia).
    replace (i + 1 <? 0) with false by (symmetry; apply Z.ltb_ge; lia).
    replace (0 <=? i) with true by (symmetry; apply Z.leb_le; lia).
    replace (0 <=? i + 1) with true by (symmetry; apply Z.leb_le; lia).
    replace (i + 1 <? Z.of_nat (S (List.length tl)))
      with (i <? Z.of_nat (List.length tl))
      by (destruct (Z.ltb_spec i (Z.of_nat (List.length tl)));
          symmetry; [apply Z.ltb_lt|apply Z.ltb_ge]; lia).
    cbn [andb]. destruct (i <? Z.of_nat (List.length tl)); [|reflexivity].
    replace (Z.to_nat (i + 1)) with (S (Z.to_nat i)) by lia. reflexivity.
Qed.

Lemma slice_from_1_length xs :
  List.length (Py.slice_from xs 1) = (List.length xs - 1)%nat.
Proof.
  unfold Py.slice_from, Py.bound, Py.len. cbn [Z.ltb Z.compare].
  rewrite List.length_skipn. lia.
Qed.

(** The element appended last is at index [-1] ... *)
Lemma getitem_snoc_last xs (x : X) : Py.getitem (xs ++ [x]) (-1) = Ok x.
Proof.
  unfold Py.getitem, Py.position, Py.len. rewrite List.length_app. cbn [List.length].
  cbn [Z.leb Z.ltb Z.compare andb].
  replace (- Z.of_nat (List.length xs + 1) <=? -1) with true
    by (symmetry; apply Z.leb_le; lia).
  replace (Z.to_nat (Z.of_nat (List.length xs + 1) + -1)) with (List.length xs) by lia.
  rewrite List.nth_error_app2 by lia. now rewrite Nat.sub_diag.
Qed.

(** ... and at the index that was the length. *)
Lemma getitem_snoc_len xs (x : X) (n : nat) :
  List.length xs = n -> Py.getitem (xs ++ [x]) (Z.of_nat n) = Ok x.
Proof.
  intros <-. rewrite (getitem_in_range (xs ++ [x]) (List.length xs) x)
    by (rewrite List.length_app; simpl; lia).
  rewrite List.app_nth2 by lia. now rewrite Nat.sub_diag.
Qed.

Lemma getitem_snoc_before xs (x : X) (i : Z) :
  0 <= i < Py.len xs -> Py.getitem (xs ++ [x]) i = Py.getitem xs i.
Proof.
  intros Hi. unfold Py.len in Hi.
  replace i with (Z.of_nat (Z.to_nat i)) by lia.
  rewrite (getitem_in_range (xs ++ [x]) (Z.to_nat i) x)
    by (rewrite List.length_app; simpl; lia).
  rewrite (getitem_in_range xs (Z.to_nat i) x) by lia.
  now rewrite List.app_nth1 by lia.
Qed.

Lemma getitem_head (x : X) xs : Py.getitem (x :: xs) 0 = Ok x.
Proof. exact (getitem_in_range (x :: xs) 0 x ltac:(simpl; lia)). Qed.
End QueueFacts.

Ltac memory_fields :=
  cbn [Memory.states Memory.actions Memory.rewards Memory.dones Memory.hiddens
       Memory.n_steps Memory.GAMMA] in *.

(** X15.  The five lists of the memory keep one length: [add] lengthens
    them by one, [remove_first_step] shortens them by one unless the memory
    is empty, [clear] empties them, and a new memory is empty. *)
Theorem memory_aligned {S Act Hid A : Type}
    (self : Memory.t S Act Hid A) (state : S) (action : Act) (reward : A)
    (done : bool) (hidden : Hid) :
  Memory.aligned self ->
  (Memory.aligned (Memory.add state action reward done hidden self) /\
   Memory.__len__ (Memory.add state action reward done hidden self)
   = Memory.__len__ self + 1) /\
  (Memory.aligned (Memory.remove_first_step self) /\
   Memory.__len__ (Memory.remove_first_step self)
   = Z.max 0 (Memory.__len__ self - 1)) /\
  (Memory.aligned (Memory.clear self) /\ Memory.__len__ (Memory.clear self) = 0) /\
  (Memory.aligned (Memory.__init__ (Memory.n_steps self) (Memory.GAMMA self)
                   : Memory.t S Act Hid A) /\
   Memory.__len__ (Memory.__init__ (Memory.n_steps self) (Memory.GAMMA self)
                   : Memory.t S Act Hid A) = 0).
Proof.
  intros (Hs & Ha & Hd & Hh).
  unfold Memory.aligned, Memory.__len__, Py.len.
  unfold Memory.add, Memory.remove_first_step, Memory.clear, Memory.__init__.
  memory_fields.
  rewrite !List.length_app, !slice_from_1_length. cbn [List.length].
  repeat split; lia.
Qed.

Lemma memory_aligned_witness :
  Memory.aligned (Memory.remove_first_step Sample.memory_2) /\
  Memory.__len__ (Memory.remove_first_step Sample.memory_2) = 1.
Proof.
  pose proof (memory_aligned Sample.memory_2 0 0 (Scenario.rational 0 1) false tt
                ltac:(repeat split)) as (_ & Hrem & _).
  exact Hrem.
Defined.

(** X16.  The memory is a queue: after [remove_first_step], the step at an
    index [i >= 0] is the step that was at [i + 1], and reading past the
    end raises [IndexError] in both. *)
Theorem memory_remove_first_shifts {S Act Hid A : Type}
    (self : Memory.t S Act Hid A) (i : Z) :
  0 <= i ->
  Memory.get_step i (Memory.remove_first_step self) = Memory.get_step (i + 1) self.
Proof.
  intros Hi. unfold Memory.get_step, Memory.remove_first_step. memory_fields.
  now rewrite !getitem_slice_from_1.
Qed.

Lemma memory_remove_first_shifts_witness :
  Memory.get_step 0 (Memory.remove_first_step Sample.memory_2)
  = Memory.get_step (0 + 1) Sample.memory_2.
Proof.
  apply memory_remove_first_shifts. lia.
Defined.

(** X17.  The step given to [add] is read back at index [-1]; when the
    five lists have one length it is also read back at the index that was
    the length, and every step stored before stays where it was. *)
Theorem memory_add_get_step {S Act Hid A : Type}
    (self : Memory.t S Act Hid A) (state : S) (action : Act) (reward : A)
    (done : bool) (hidden : Hid) :
  let self' := Memory.add state action reward done hidden self in
  Memory.get_step (-1) self' = Ok (state, action, reward, done, hidden) /\
  (Memory.aligned self ->
   Memory.get_step (Memory.__len__ self) self'
   = Ok (state, action, reward, done, hidden) /\
   forall i : Z, 0 <= i < Memory.__len__ self ->
     Memory.get_step i self' = Memory.get_step i self).
Proof.
  cbv zeta. unfold Memory.get_step, Memory.add, Memory.__len__. memory_fields. split.
  - now rewrite !getitem_snoc_last.
  - intros (Hs & Ha & Hd & Hh). split.
    + unfold Py.len.
      rewrite (getitem_snoc_len (Memory.states self)) by exact Hs.
      rewrite (getitem_snoc_len (Memory.actions self)) by exact Ha.
      rewrite (getitem_snoc_len (Memory.rewards self)) by reflexivity.
      rewrite (getitem_snoc_len (Memory.dones self)) by exact Hd.
      rewrite (getitem_snoc_len (Memory.hiddens self)) by exact Hh.
      reflexivity.
    + intros i Hi. unfold Py.len in Hi.
      rewrite !getitem_snoc_before by (unfold Py.len; lia). reflexivity.
Qed.

Lemma memory_add_get_step_witness :
  Memory.get_step 2
    (Memory.add 9 1 (Scenario.rational 3 1) false tt Sample.memory_2)
  = Ok (9, 1, Scenario.rational 3 1, false, tt).
Proof.
  pose proof (memory_add_get_step Sample.memory_2 9 1 (Scenario.rational 3 1) false tt)
    as (_ & Hread).
  exact (proj1 (Hread ltac:(repeat split))).
Defined.

(** X18.  [compute_return] leaves its loop in the first iteration: on an
    empty memory it returns [None]; otherwise, in exact arithmetic, its
    return is the last reward alone, whatever [GAMMA], [n_steps] and the
    other rewards are, and it comes with the state, action, done flag and
    hidden state of the first step. *)
Theorem memory_compute_return {S Act Hid : Type} (self : Memory.t S Act Hid Qc) :
  Memory.aligned self ->
  (Memory.rewards self = [] -> Memory.compute_return self = Ok None) /\
  (forall (earlier : list Qc) (last : Qc),
      Memory.rewards self = earlier ++ [last] ->
      exists state action reward done hidden,
        Memory.get_step 0 self = Ok (state, action, reward, done, hidden) /\
        Memory.compute_return self = Ok (Some (last, state, action, done, hidden))).
Proof.
  intros (Hs & Ha & Hd & Hh). split.
  - intros Hr. unfold Memory.compute_return. now rewrite Hr.
  - intros earlier last Hr.
    unfold Memory.compute_return, Memory.get_step.
    rewrite Hr in *. rewrite List.length_app in *. cbn [List.length] in *.
    rewrite List.rev_app_distr. cbn [List.rev List.app].
    destruct (Memory.states self) as [|state ss]; [simpl in Hs; lia|].
    destruct (Memory.actions self) as [|action acs]; [simpl in Ha; lia|].
    destruct (Memory.dones self) as [|done ds]; [simpl in Hd; lia|].
    destruct (Memory.hiddens self) as [|hidden hs]; [simpl in Hh; lia|].
    assert (Hfirst : exists reward, Py.getitem (earlier ++ [last]) 0 = Ok reward).
    { destruct earlier as [|r0 tl]; eexists; apply getitem_head. }
    destruct Hfirst as (reward & Hfirst).
    exists state, action, reward, done, hidden.
    assert (Harith : forall d : bool,
               (s_zero
                + (last
                   + (s_one - (if d then s_one else s_zero)) * Memory.GAMMA self ^ 0
                     * s_zero))%sc = last)
      by (intros []; simpl; change (Q2Qc 0) with 0%Qc; ring).
    rewrite !getitem_head, Hfirst. cbn [rbind]. cbv zeta. rewrite Harith.
    split; reflexivity.
Qed.

Lemma memory_compute_return_witness :
  Memory.compute_return Sample.memory_2
  = Ok (Some (Scenario.rational 2 1, 5, 0, false, tt)).
Proof.
  pose proof (memory_compute_return Sample.memory_2 ltac:(repeat split)) as (_ & Hlast).
  destruct (Hlast [Scenario.rational 1 1] (Scenario.rational 2 1) ltac:(reflexivity))
    as (state & action & reward & done & hidden & Hstep & Hret).
  vm_compute in Hstep. injection Hstep as <- <- _ <- <-. exact Hret.
Defined.

(** ** The end of an episode *)

Ltac agent_fields :=
  unfold Agent.next_episode in *;
  cbn [Agent.best_episode_reward Agent.old_reward_sum Agent.constant_reward_counter
       Agent.episode Agent.saved fst snd] in *.

Section EpisodeFacts.
Context {A : Type} `{Scalar A}.

(** [save_if_best] touches the best reward and the saved networks only. *)
Lemma save_if_best_frame (reward_sum : A) (self : Agent.t A) :
  Agent.old_reward_sum (Agent.save_if_best reward_sum self) = Agent.old_reward_sum self /\
  Agent.constant_reward_counter (Agent.save_if_best reward_sum self)
  = Agent.constant_reward_counter self /\
  Agent.episode (Agent.save_if_best reward_sum self) = Agent.episode self.
Proof.
  unfold Agent.save_if_best.
  destruct (s_leb (Agent.best_episode_reward self) reward_sum); repeat split.
Qed.

Lemma episodes_same_goes_on (steps : Z) (reward_sum : A) rest (self : Agent.t A) :
  s_eqb reward_sum (Agent.old_reward_sum self) = true ->
  Agent.constant_reward_counter self + 1 <= steps ->
  Agent.episodes steps (reward_sum :: rest) self
  = Agent.episodes steps rest
      (Agent.next_episode reward_sum (Agent.constant_reward_counter self + 1) self).
Proof.
  intros Heq Hroom. cbn [Agent.episodes]. unfold Agent.early_stopping.
  destruct (save_if_best_frame reward_sum self) as (-> & -> & ->).
  rewrite Heq. agent_fields.
  replace (steps <? Agent.constant_reward_counter self + 1) with false
    by (symmetry; apply Z.ltb_ge; lia).
  agent_fields. reflexivity.
Qed.

Lemma episodes_same_stops (steps : Z) (reward_sum : A) rest (self : Agent.t A) :
  s_eqb reward_sum (Agent.old_reward_sum self) = true ->
  steps < Agent.constant_reward_counter self + 1 ->
  let out := Agent.episodes steps (reward_sum :: rest) self in
  fst out = true /\
  Agent.episode (snd out) = Agent.episode self /\
  Agent.constant_reward_counter (snd out) = Agent.constant_reward_counter self + 1.
Proof.
  intros Heq Hroom. cbn [Agent.episodes]. unfold Agent.early_stopping.
  destruct (save_if_best_frame reward_sum self) as (-> & -> & ->).
  rewrite Heq. agent_fields.
  replace (steps <? Agent.constant_reward_counter self + 1) with true
    by (symmetry; apply Z.ltb_lt; lia).
  agent_fields. repeat split.
Qed.

Lemma episodes_other_goes_on (steps : Z) (reward_sum : A) rest (self : Agent.t A) :
  s_eqb reward_sum (Agent.old_reward_sum self) = false ->
  Agent.episodes steps (reward_sum :: rest) self
  = Agent.episodes steps rest (Agent.next_episode reward_sum 0 self).
Proof.
  intros Hne. cbn [Agent.episodes]. unfold Agent.early_stopping.
  destruct (save_if_best_frame reward_sum self) as (-> & -> & ->).
  rewrite Hne. agent_fields. reflexivity.
Qed.

(** Episodes with one reward sum, as long as the counter stays within
    [early_stopping_steps]. *)
Lemma episodes_constant_go_on (steps : Z) (reward_sum : A) (m : nat) :
  s_eqb reward_sum reward_sum = true ->
  forall self : Agent.t A,
    s_eqb reward_sum (Agent.old_reward_sum self) = true ->
    Agent.constant_reward_counter self + Z.of_nat m <= steps ->
    forall rest,
    exists self',
      Agent.episodes steps (List.repeat reward_sum m ++ rest) self
      = Agent.episodes steps rest self' /\
      Agent.old_reward_sum self' =
        (if Nat.eqb m 0 then Agent.old_reward_sum self else reward_sum) /\
      Agent.constant_reward_counter self'
      = Agent.constant_reward_counter self + Z.of_nat m /\
      Agent.episode self' = Agent.episode self + Z.of_nat m.
Proof.
  intros Hrefl. induction m as [|m IH]; intros self Heq Hroom rest.
  - exists self. cbn. repeat split; lia.
  - cbn [List.repeat List.app].
    rewrite episodes_same_goes_on by (try exact Heq; lia).
    destruct (IH (Agent.next_episode reward_sum (Agent.constant_reward_counter self + 1) self)
                ltac:(exact Hrefl) ltac:(agent_fields; lia) rest)
      as (self' & Hrun & Hold & Hcount & Hep).
    agent_fields.
    exists self'. split; [exact Hrun|]. split; [|split; lia].
    rewrite Hold. now destruct m.
Qed.
End EpisodeFacts.

(** X19.  Early stopping on a constant reward sum: when the reward sum of
    every episode equals the one recorded before and the counter is within
    [early_stopping_steps], the loop goes on for exactly
    [early_stopping_steps - constant_reward_counter] more episodes, counting
    each, and breaks at the end of the next one, which is not counted. *)
Theorem early_stopping_constant {A : Type} `{Scalar A}
    (early_stopping_steps : Z) (reward_sum : A) (self : Agent.t A) (rest : list A) :
  s_eqb reward_sum reward_sum = true ->
  s_eqb reward_sum (Agent.old_reward_sum self) = true ->
  0 <= Agent.constant_reward_counter self <= early_stopping_steps ->
  let n := Z.to_nat (early_stopping_steps - Agent.constant_reward_counter self) in
  (forall m : nat, (m <= n)%nat ->
     let out := Agent.episodes early_stopping_steps (List.repeat reward_sum m) self in
     fst out = false /\
     Agent.episode (snd out) = Agent.episode self + Z.of_nat m /\
     Agent.constant_reward_counter (snd out)
     = Agent.constant_reward_counter self + Z.of_nat m) /\
  let out :=
    Agent.episodes early_stopping_steps (List.repeat reward_sum (S n) ++ rest) self in
  fst out = true /\
  Agent.episode (snd out) = Agent.episode self + Z.of_nat n /\
  Agent.constant_reward_counter (snd out) = early_stopping_steps + 1.
Proof.
  intros Hrefl Heq Hcount. cbv zeta. split.
  - intros m Hm.
    destruct (episodes_constant_go_on early_stopping_steps reward_sum m Hrefl self Heq
                ltac:(lia) [])
      as (self' & Hrun & _ & Hc & Hep).
    rewrite List.app_nil_r in Hrun. rewrite Hrun. cbn. repeat split; assumption.
  - set (n := Z.to_nat (early_stopping_steps - Agent.constant_reward_counter self)).
    replace (List.repeat reward_sum (S n) ++ rest)
      with (List.repeat reward_sum n ++ reward_sum :: rest)
      by (cbn [List.repeat]; rewrite List.repeat_cons, <- List.app_assoc; reflexivity).
    destruct (episodes_constant_go_on early_stopping_steps reward_sum n Hrefl self Heq
                ltac:(lia) (reward_sum :: rest))
      as (self' & Hrun & Hold & Hc & Hep).
    rewrite Hrun.
    assert (Heq' : s_eqb reward_sum (Agent.old_reward_sum self') = true)
      by (rewrite Hold; destruct (Nat.eqb n 0); assumption).
    destruct (episodes_same_stops early_stopping_steps reward_sum rest self' Heq'
                ltac:(lia))
      as (Hstop & Hep' & Hc').
    repeat split; [exact Hstop|lia|lia].
Qed.

Lemma early_stopping_constant_witness :
  fst (Agent.episodes 2 (List.repeat 0%float 3 ++ [1%float]) Sample.agent_start) = true /\
  Agent.episode (snd (Agent.episodes 2 (List.repeat 0%float 3 ++ [1%float])
                        Sample.agent_start)) = 3.
Proof.
  pose proof (@early_stopping_constant float binary64 2 0%float Sample.agent_start
                [1%float] ltac:(reflexivity) ltac:(reflexivity)
                ltac:(split; vm_compute; discriminate)) as (_ & Hstop).
  cbv zeta in Hstop. split; apply Hstop.
Defined.

(** X20.  Without two equal reward sums in a row the loop never breaks:
    when no reward sum equals the one before it, every episode is counted
    and the counter of constant rewards is zero after each. *)
Theorem early_stopping_changing {A : Type} `{Scalar A}
    (early_stopping_steps : Z) (reward_sums : list A) (self : Agent.t A) :
  Agent.changing (Agent.old_reward_sum self) reward_sums ->
  let out := Agent.episodes early_stopping_steps reward_sums self in
  fst out = false /\
  Agent.episode (snd out) = Agent.episode self + Py.len reward_sums /\
  (reward_sums <> [] -> Agent.constant_reward_counter (snd out) = 0).
Proof.
  cbv zeta. revert self.
  induction reward_sums as [|reward_sum rest IH]; intros self Hch.
  - cbn. repeat split; [lia|congruence].
  - destruct Hch as [Hne Hch].
    rewrite episodes_other_goes_on by exact Hne.
    destruct (IH (Agent.next_episode reward_sum 0 self) Hch) as (Hgo & Hep & Hc).
    agent_fields. unfold Py.len in *. cbn [List.length].
    repeat split; [exact Hgo|lia|].
    intros _. destruct rest as [|r' rest']; [reflexivity|]. apply Hc. discriminate.
Qed.

Lemma early_stopping_changing_witness :
  fst (Agent.episodes 0 [1; 2; 1]%float Sample.agent_start) = false /\
  Agent.episode (snd (Agent.episodes 0 [1; 2; 1]%float Sample.agent_start)) = 1 + 3.
Proof.
  pose proof (@early_stopping_changing float binary64 0 [1; 2; 1]%float
                Sample.agent_start ltac:(repeat split)) as (Hgo & Hep & _).
  split; [exact Hgo|exact Hep].
Defined.

(** ** The best reward sum *)

Section BestFacts.
Local Open Scope Qc_scope.

Lemma Qc_leb_le (x y : Qc) : Qc_leb x y = true <-> x <= y.
Proof. unfold Qc_leb, Qcle. apply Qle_bool_iff. Qed.

Lemma save_if_best_max (reward_sum : Qc) (self : Agent.t Qc) :
  let best := Agent.best_episode_reward (Agent.save_if_best reward_sum self) in
  Agent.best_episode_reward self <= best /\ reward_sum <= best /\
  (best = Agent.best_episode_reward self \/ best = reward_sum).
Proof.
  cbv zeta. unfold Agent.save_if_best.
  change (@s_leb Qc exact) with Qc_leb.
  destruct (Qc_leb (Agent.best_episode_reward self) reward_sum) eqn:Hle; agent_fields.
  - apply Qc_leb_le in Hle. repeat split; [exact Hle|apply Qcle_refl|now right].
  - assert (Hlt : reward_sum < Agent.best_episode_reward self).
    { apply Qcnot_le_lt. intros Hle'. apply Qc_leb_le in Hle'. congruence. }
    repeat split; [apply Qcle_refl|now apply Qclt_le_weak|now left].
Qed.

Lemma early_stopping_best (steps : Z) (reward_sum : Qc) (self : Agent.t Qc) :
  Agent.best_episode_reward (snd (Agent.early_stopping steps reward_sum self))
  = Agent.best_episode_reward self.
Proof.
  unfold Agent.early_stopping.
  destruct (s_eqb reward_sum (Agent.old_reward_sum self)); [|reflexivity].
  agent_fields. destruct (steps <? _); reflexivity.
Qed.

Lemma episodes_best (steps : Z) (reward_sums : list Qc) : forall self : Agent.t Qc,
  let out := Agent.episodes steps reward_sums self in
  Agent.best_episode_reward self <= Agent.best_episode_reward (snd out) /\
  List.In (Agent.best_episode_reward (snd out))
    (Agent.best_episode_reward self :: reward_sums) /\
  (fst out = false ->
   List.Forall (fun r => r <= Agent.best_episode_reward (snd out)) reward_sums).
Proof.
  cbv zeta. induction reward_sums as [|reward_sum rest IH]; intros self.
  - cbn. repeat split; [apply Qcle_refl|now left|constructor].
  - cbn [Agent.episodes].
    pose proof (save_if_best_max reward_sum self) as (Hold & Hnew & Hin).
    pose proof (early_stopping_best steps reward_sum
                  (Agent.save_if_best reward_sum self)) as Hbest.
    destruct (Agent.early_stopping steps reward_sum (Agent.save_if_best reward_sum self))
      as [stop self2].
    agent_fields. destruct stop.
    + agent_fields. rewrite Hbest. repeat split; [exact Hold| |discriminate].
      destruct Hin as [-> | ->]; [now left|right; now left].
    + match goal with |- context [Agent.episodes steps rest ?s] =>
        destruct (IH s) as (Hmono & Hin' & Hall); set (out := Agent.episodes steps rest s) in *
      end.
      agent_fields. rewrite Hbest in *.
      repeat split.
      * eapply Qcle_trans; eassumption.
      * destruct Hin' as [Hin' | Hin']; [|right; right; exact Hin'].
        rewrite <- Hin'. destruct Hin as [-> | ->]; [now left|right; now left].
      * intros Hgo. constructor; [|now apply Hall].
        eapply Qcle_trans; eassumption.
Qed.
End BestFacts.

(** X21.  In exact arithmetic, at the end of the episodes the best reward
    sum is the largest of the best before and the reward sums seen: it is
    one of them, it is not below the best before, and when the loop was not
    left by [break] it is not below any reward sum. *)
Theorem best_episode_reward_is_max
    (early_stopping_steps : Z) (reward_sums : list Qc) (self : Agent.t Qc) :
  let out := Agent.episodes early_stopping_steps reward_sums self in
  fst out = false ->
  List.In (Agent.best_episode_reward (snd out))
    (Agent.best_episode_reward self :: reward_sums) /\
  List.Forall (fun r => (r <= Agent.best_episode_reward (snd out))%Qc)
    (Agent.best_episode_reward self :: reward_sums).
Proof.
  cbv zeta. intros Hgo.
  destruct (episodes_best early_stopping_steps reward_sums self) as (Hmono & Hin & Hall).
  split; [exact Hin|]. constructor; [exact Hmono|now apply Hall].
Qed.

Lemma best_episode_reward_is_max_witness :
  List.In
    (Agent.best_episode_reward (snd (Agent.episodes 5 Sample.rewards_123 Sample.agent_behind)))
    (Agent.best_episode_reward Sample.agent_behind :: Sample.rewards_123).
Proof.
  exact (proj1 (best_episode_reward_is_max 5 Sample.rewards_123 Sample.agent_behind
                  ltac:(vm_compute; reflexivity))).
Defined.

(** ** A Monte-Carlo episode *)

(** In exact arithmetic every number is accepted and stored as it is. *)
Lemma exact_fits (steps : list (Qc * Qc * Qc * Qc * Qc)) :
  List.Forall (fun step => fits_step step = true) steps.
Proof. apply List.Forall_forall. now intros [[[[r v] lp] e] kl] _. Qed.

Lemma exact_stored (steps : list (Qc * Qc * Qc * Qc * Qc)) :
  List.map stored_step steps = steps.
Proof.
  induction steps as [|[[[[r v] lp] e] kl] steps IH]; [reflexivity|].
  cbn [List.map]. now rewrite IH.
Qed.

Section EpisodeMC.
Variables (buffer_size : Z) (g : Qc) (s : string).
Hypothesis buffer_size_pos : 1 <= buffer_size.

Let cap : nat := Z.to_nat (buffer_size + 1 - 1).

Variables (steps : list (Qc * Qc * Qc * Qc * Qc)) (r v lp e kl : Qc).
Hypothesis room : (List.length steps < cap)%nat.

Let all : list (Qc * Qc * Qc * Qc * Qc) := steps ++ [(r, v, lp, e, kl)].

(** The buffer at the end of the episode: the steps before the last are
    not done, the last one is. *)
Let ended : RolloutBuffer Qc :=
  set_dones (Py.update (List.repeat s_zero cap) (List.length steps) s_one)
    (filled buffer_size g 1 s all).

Lemma episode_ended :
  after_all
    (List.map (fun '(r, v, lp, e, kl) => Add r false v lp e kl) steps
     ++ [Add r true v lp e kl])
    (filled buffer_size g 1 s [])
  = ended.
Proof using buffer_size_pos room.
  unfold after_all. rewrite List.fold_left_app. cbn [List.fold_left].
  fold (after_all (List.map (fun '(r, v, lp, e, kl) => Add r false v lp e kl) steps)
          (filled buffer_size g 1 s [])).
  rewrite (after_all_filled buffer_size g 1 s buffer_size_pos ltac:(lia) steps)
    by (first [apply exact_fits | fold cap; lia]).
  rewrite exact_stored.
  exact (filled_snoc_any buffer_size g 1 s buffer_size_pos ltac:(lia)
           steps r true v lp e kl room eq_refl).
Qed.

Lemma ended_full : fst (full ended) = Ok true.
Proof using buffer_size_pos room.
  rewrite full_run. cbn [fst].
  destruct (capacity ended <=? __len__ ended); [reflexivity|].
  unfold ended, set_dones. cbn [dones].
  destruct (max_flags
              (Py.update (List.repeat (s_zero : Qc) cap) (List.length steps) s_one))
    as (m & -> & Hm).
  - apply Forall_update; [apply Forall_repeat; now left|now right].
  - intros Hnil. apply (f_equal (@List.length Qc)) in Hnil.
    rewrite update_length, List.repeat_length in Hnil. simpl in Hnil. lia.
  - f_equal. apply Hm. apply update_In. rewrite List.repeat_length. exact room.
Qed.

Lemma combine_app {X Y : Type} (xs xs' : list X) (ys ys' : list Y) :
  List.length xs = List.length ys ->
  List.combine (xs ++ xs') (ys ++ ys') = List.combine xs ys ++ List.combine xs' ys'.
Proof.
  revert ys. induction xs as [|x xs IH]; intros [|y ys] Hlen; simpl in *;
    try discriminate; [reflexivity|].
  now rewrite IH by lia.
Qed.

Lemma firstn_app_exact {X : Type} (xs ys : list X) (n : nat) :
  List.length xs = n -> List.firstn n (xs ++ ys) = xs.
Proof.
  intros <-. rewrite List.firstn_app, Nat.sub_diag, List.firstn_all. simpl.
  apply List.app_nil_r.
Qed.

Lemma ended_update_advantages (fast : bool) :
  update_advantages None fast true ended
  = (Ok tt,
     set_log_probs (List.map (fun '(_, _, lp, _, _) => lp) all)
       (set_advantages
          (Some (List.map (fun p => s_sub (fst p) (snd p))
                   (List.combine
                      (compute_MC_returns (List.map (fun '(r, _, _, _, _) => r) all) g)
                      (List.map (fun '(_, v, _, _, _) => v) all))))
          (set_returns
             (Some (compute_MC_returns (List.map (fun '(r, _, _, _, _) => r) all) g
                    ++ List.repeat s_zero (cap - List.length all)))
             ended))).
Proof using buffer_size_pos room.
  assert (Hall : List.length all = S (List.length steps))
    by (unfold all; rewrite List.length_app; simpl; lia).
  rewrite update_advantages_MC_run.
  - cbv zeta. unfold ended, set_dones, filled.
    cbn [rewards values log_probs gamma __len__ _n_steps _buffer_size setting
         dones KL_divergences entropies advantages _returns]. fold cap.
    change (List.repeat s_zero (cap - List.length all))
      with (List.repeat 0%Qc (cap - List.length all)).
    rewrite compute_MC_returns_app by apply compute_MC_returns_zeros_hd.
    rewrite compute_MC_returns_zeros.
    rewrite combine_app
      by (rewrite compute_MC_returns_length, !List.length_map; reflexivity).
    rewrite List.map_app.
    destruct (slice_to_cursor
                (List.map (fun '(_, _, lp, _, _) => lp) all
                 ++ List.repeat 0%Qc (cap - List.length all))
                (Z.of_nat (List.length all))) as [-> _].
    { unfold Py.len. rewrite List.length_app, List.length_map. lia. }
    match goal with |- context [Py.slice_to (?front ++ ?back) _] =>
      destruct (slice_to_cursor (front ++ back) (Z.of_nat (List.length all))) as [-> _]
    end.
    { unfold Py.len.
      rewrite List.length_app, List.length_map, List.length_combine,
        compute_MC_returns_length, !List.length_map. lia. }
    rewrite Nat2Z.id.
    rewrite !firstn_app_exact; [reflexivity| |].
    + rewrite List.length_map, List.length_combine, compute_MC_returns_length,
        !List.length_map. lia.
    + now rewrite List.length_map.
  - reflexivity.
  - reflexivity.
  - unfold ended, set_dones, filled, Py.len. cbn [rewards values].
    now rewrite !List.length_app, !List.length_map.
Qed.
End EpisodeMC.

(** X22.  An episode as [train_MC] runs it, in exact arithmetic: a buffer
    constructed with [n_steps = 1] takes the steps of an episode shorter
    than [buffer_size] or as long, the last one done and the others not;
    it is then full; [update_advantages(MC=True)] returns and the
    advantages are the Monte-Carlo returns of the rewards of the episode
    alone, minus the values, one per step, and the log-probabilities are
    cut to the episode; [reset()] then gives the constructed buffer back. *)
Theorem episode_MC
    (buffer_size : Z) (g : Qc) (s : string) (self : RolloutBuffer Qc)
    (steps : list (Qc * Qc * Qc * Qc * Qc)) (r v lp e kl : Qc) :
  __init__ buffer_size g 1 s = Ok self ->
  Z.of_nat (List.length steps) < buffer_size ->
  let all := steps ++ [(r, v, lp, e, kl)] in
  let ended :=
    after_all
      (List.map (fun '(r, v, lp, e, kl) => Add r false v lp e kl) steps
       ++ [Add r true v lp e kl])
      self in
  let out := update_advantages None true true ended in
  fst (full ended) = Ok true /\
  fst out = Ok tt /\
  advantages (snd out)
  = Some (List.map (fun p => s_sub (fst p) (snd p))
            (List.combine
               (compute_MC_returns (List.map (fun '(r, _, _, _, _) => r) all) g)
               (List.map (fun '(_, v, _, _, _) => v) all))) /\
  log_probs (snd out) = List.map (fun '(_, _, lp, _, _) => lp) all /\
  reset (snd out) = (Ok tt, self).
Proof.
  intros Hinit Hroom. cbv zeta.
  pose proof (init_run _ _ _ _ _ Hinit) as (Hb & _ & _ & _).
  rewrite (init_filled buffer_size g 1 s self Hinit).
  assert (Hlen : (List.length steps < Z.to_nat (buffer_size + 1 - 1))%nat) by lia.
  rewrite (episode_ended buffer_size g s Hb steps r v lp e kl Hlen).
  rewrite (ended_update_advantages buffer_size g s Hb steps r v lp e kl Hlen true).
  split; [exact (ended_full buffer_size g s Hb steps r v lp e kl Hlen)|].
  cbn [fst snd]. repeat split.
  rewrite reset_run by (unfold capacity; cbn; lia).
  unfold filled, capacity. cbn. now rewrite Nat.sub_0_r.
Qed.

Lemma episode_MC_witness :
  let ended :=
    after_all
      (List.map (fun '(r, v, lp, e, kl) => Add r false v lp e kl)
         [Sample.stored 1; Sample.stored 2]
       ++ [Add (Scenario.rational 3 1) true (Scenario.rational 30 1)
             (Scenario.rational 300 1) (Scenario.rational 0 1) (Scenario.rational 0 1)])
      Sample.fresh_4_1 in
  fst (full ended) = Ok true /\
  reset (snd (update_advantages None true true ended)) = (Ok tt, Sample.fresh_4_1).
Proof.
  cbv zeta.
  pose proof (episode_MC 4 (Scenario.rational 1 2) "MC" Sample.fresh_4_1
                [Sample.stored 1; Sample.stored 2]
                (Scenario.rational 3 1) (Scenario.rational 30 1)
                (Scenario.rational 300 1) (Scenario.rational 0 1) (Scenario.rational 0 1)
                ltac:(vm_compute; reflexivity) ltac:(vm_compute; reflexivity))
    as (Hfull & _ & _ & _ & Hreset).
  split; [exact Hfull|exact Hreset].
Defined.

(** ** [clean()] with one step *)

(** X23.  With [n_steps = 1] there is no reward to carry over, and
    [clean()] assigns the whole old reward column to an empty slice: when
    [buffer_size >= 2] it raises [ValueError] after it has replaced the
    rewards by zeros, and the other columns, the cursor and the advantages
    are as before; when [buffer_size = 1] the one old reward is broadcast
    to nothing, and [clean()] returns with every column zero (the value,
    log-probability and entropy columns being numpy arrays now) and the
    cursor at zero. *)
Theorem clean_one_step {A : Type} `{Scalar A} (self : RolloutBuffer A) :
  _n_steps self = 1 -> 1 <= _buffer_size self ->
  Py.len (rewards self) = capacity self ->
  let zeros := List.repeat s_zero (Z.to_nat (_buffer_size self)) in
  clean self
  = if 2 <=? _buffer_size self
    then (Raise (ValueError "could not broadcast input array"), set_rewards zeros self)
    else
      (Ok tt,
       {| setting := setting self; _n_steps := 1; _buffer_size := 1;
          gamma := gamma self;
          rewards := zeros; dones := zeros; KL_divergences := zeros; values := zeros;
          log_probs := zeros; entropies := zeros;
          advantages := None; _returns := None; __len__ := 0;
          values_dtype := numpy_float64; log_probs_dtype := numpy_float64;
          entropies_dtype := numpy_float64 |}).
Proof.
  intros Hn Hb Hlen. cbv zeta. unfold capacity in Hlen. unfold clean.
  run_method self. subst n_.
  replace (b_ + 1 - 1) with b_ in * by lia.
  rewrite (zeros_ok b_) by lia.
  unfold Py.setslice_to, Py.slice_from, Py.bound, Py.len in *.
  cbn [Z.add Z.opp Z.sub Z.ltb Z.compare Z.pos_sub Z.min Z.max Z.to_nat List.skipn
       Nat.eqb List.repeat List.app].
  rewrite List.repeat_length.
  replace (Z.to_nat (Z.min 0 (Z.of_nat (Z.to_nat b_)))) with 0%nat by lia.
  replace (Z.to_nat (Z.min 0 (Z.of_nat (List.length rs_)))) with 0%nat by lia.
  cbn [List.skipn List.repeat List.app].
  destruct rs_ as [|r0 [|r1 rs_]]; cbn [List.length] in Hlen.
  - lia.
  - assert (b_ = 1) as -> by lia. reflexivity.
  - cbn [List.length Nat.eqb].
    replace (2 <=? b_) with true by (symmetry; apply Z.leb_le; lia).
    reflexivity.
Qed.

Lemma clean_one_step_witness :
  clean Scenario.episode_2_1
  = (Raise (ValueError "could not broadcast input array"),
     set_rewards [s_zero; s_zero] Scenario.episode_2_1).
Proof.
  exact (@clean_one_step Qc exact Scenario.episode_2_1 ltac:(reflexivity)
           ltac:(vm_compute; discriminate) ltac:(reflexivity)).
Defined.

(** ** n-step mode without a bootstrap value *)

Lemma comprehension_raises {X : Type} (elt : Z -> result X) (e : exn) (i : Z) rest :
  forall idx : list Z,
  (forall j, List.In j idx -> exists x, elt j = Ok x) ->
  elt i = Raise e ->
  comprehension elt (idx ++ i :: rest) = Raise e.
Proof.
  induction idx as [|j idx IH]; intros Hok Hraise; cbn [List.app comprehension].
  - now rewrite Hraise.
  - destruct (Hok j ltac:(now left)) as (x & ->). cbn [rbind].
    rewrite IH; [reflexivity| |exact Hraise].
    intros k Hk. apply Hok. now right.
Qed.

Section NoBootstrap.
Context {A : Type} `{Scalar A}.
Variables (returns values dones : list A) (gamma : A).
Variables (buffer_size n_steps : Z).
Hypothesis buffer_size_pos : 1 <= buffer_size.
Hypothesis n_steps_pos : 1 <= n_steps.
Hypothesis values_length : Py.len values = buffer_size + n_steps - 1.
Hypothesis returns_length : buffer_size <= Py.len returns.
Hypothesis dones_length : buffer_size <= Py.len dones.

Lemma compute_advantages_no_bootstrap :
  compute_advantages returns values dones gamma None n_steps = Raise TypeError.
Proof using buffer_size_pos n_steps_pos values_length returns_length dones_length.
  unfold compute_advantages.
  replace (0 <? n_steps) with true by (symmetry; apply Z.ltb_lt; lia).
  replace (Py.len values - n_steps + 1) with buffer_size by lia.
  unfold Py.range, Py.len in *.
  replace (Z.to_nat buffer_size) with (Z.to_nat (buffer_size - 1) + 1)%nat by lia.
  rewrite List.seq_app, List.map_app. cbn [List.seq List.map Nat.add].
  assert (Hslice : Py.slice_from values n_steps = List.skipn (Z.to_nat n_steps) values).
  { rewrite <- (Z2Nat.id n_steps) at 1 by lia. apply slice_from_in_range. lia. }
  rewrite Hslice.
  assert (Hskip : List.length (List.skipn (Z.to_nat n_steps) values)
                  = Z.to_nat (buffer_size - 1))
    by (rewrite List.length_skipn; lia).
  apply comprehension_raises.
  - intros j Hj. apply List.in_map_iff in Hj as (i & <- & Hi).
    apply List.in_seq in Hi.
    rewrite (getitem_in_range returns i s_zero) by lia.
    rewrite (getitem_in_range dones i s_zero) by lia.
    rewrite getitem_snoc_before
      by (unfold Py.len; rewrite List.length_map, Hskip; lia).
    rewrite (getitem_in_range _ i (Some s_zero)) by (rewrite List.length_map; lia).
    rewrite (List.map_nth Some).
    rewrite (getitem_in_range values i s_zero) by lia.
    cbn [rbind]. eexists. reflexivity.
  - rewrite (getitem_in_range returns _ s_zero) by lia.
    rewrite (getitem_in_range dones _ s_zero) by lia.
    rewrite getitem_snoc_len by (rewrite List.length_map; exact Hskip).
    reflexivity.
Qed.
End NoBootstrap.

(** X24.  In n-step mode the bootstrap value cannot be left out: on a
    buffer whose columns have capacity length, [update_advantages] with
    [last_val] at its default [None] raises [TypeError] at the last
    position, after it has stored the [buffer_size] returns; the
    advantages are as before. *)
Theorem update_advantages_without_last_val {A : Type} `{Scalar A}
    (self : RolloutBuffer A) (fast : bool) :
  1 <= _buffer_size self -> 1 <= _n_steps self -> at_capacity self ->
  let out := update_advantages None fast false self in
  fst out = Raise TypeError /\
  advantages (snd out) = advantages self /\
  exists returns : list A,
    snd out = set_returns (Some returns) self /\
    Py.len returns = _buffer_size self.
Proof.
  intros Hb Hn (Hr & Hd & _ & Hv & _ & _). cbv zeta.
  assert (Hreturns : exists returns,
            (if (2 <? _n_steps self) && fast
             then compute_returns (rewards self) (gamma self)
                    (_buffer_size self) (_n_steps self)
             else Ok (compute_all_n_step_returns (rewards self) (gamma self)
                        (_buffer_size self) (_n_steps self)))
            = Ok returns /\ Py.len returns = _buffer_size self).
  { destruct ((2 <? _n_steps self) && fast).
    - apply compute_returns_length; [exact Hn|exact Hb|]. rewrite Hr.
      unfold capacity. lia.
    - eexists. split; [reflexivity|].
      apply compute_all_n_step_returns_length. lia. }
  destruct Hreturns as (returns & Hrun & Hlen).
  pose proof (compute_advantages_no_bootstrap returns (values self) (dones self)
                (gamma self) (_buffer_size self) (_n_steps self) Hb Hn
                ltac:(rewrite Hv; reflexivity) ltac:(lia)
                ltac:(rewrite Hd; unfold capacity; lia)) as Hadv.
  unfold update_advantages. run_method self.
  destruct ((2 <? n_) && fast).
  - rewrite Hrun, Hadv. cbn. repeat split. exists returns. now split.
  - injection Hrun as Hrun. rewrite Hrun, Hadv. cbn. repeat split.
    exists returns. now split.
Qed.

Lemma update_advantages_without_last_val_witness :
  fst (update_advantages None true false Scenario.window_2_3) = Raise TypeError.
Proof.
  exact (proj1 (@update_advantages_without_last_val Qc exact Scenario.window_2_3 true
                  ltac:(vm_compute; discriminate) ltac:(vm_compute; discriminate)
                  ltac:(repeat split))).
Defined.
